(** * metaFirst supervisor: RDMP governance engine

    A shallow embedding of the RDMP services of the supervisor
    ([services/rdmp_service.py], [services/permission_service.py],
    [api/rdmp.py], with the tables of [models/rdmp.py] and
    [models/membership.py] and the request schemas of [schemas/rdmp.py]) and
    the properties of its specification that were checked against it.

    JSON documents are untyped Python values ([pyval]); every Python
    operation that can raise is a function into [result]. *)

From Stdlib Require Import ZArith Ascii String SpecFloat.
From stdpp Require Import base option list strings gmap pretty.

Open Scope string_scope.
Open Scope list_scope.
Open Scope Z_scope.

(** ** Python values

    The values a JSON column or a request body can hold.  A [str] is a
    sequence of code points below 256, a [float] is a binary64 value, a
    [dict] has [str] keys (JSON objects) and is kept as an association list
    in insertion order whose keys are pairwise distinct; lookups take the
    first binding. *)

#[warnings="-register-all"]
Inductive pyval : Type :=
| PyNone
| PyBool (b : bool)
| PyInt (z : Z)
| PyFloat (f : spec_float)
| PyStr (s : string)
| PyList (l : list pyval)
| PyDict (d : list (string * pyval)).

(** The exceptions that occur in the modelled code.  [HTTPException] carries
    FastAPI's [status_code] and [detail]; [IntegrityError] is SQLAlchemy's
    error for a violated table constraint. *)
Inductive exn : Type :=
| TypeError
| KeyError
| AttributeError
| ValueError
| OverflowError
| IntegrityError
| HTTPException (status_code : Z) (detail : pyval).

Inductive result (A : Type) : Type :=
| Ok (a : A)
| Raise (e : exn).
Arguments Ok {A} a.
Arguments Raise {A} e.

Definition bind {A B} (m : result A) (k : A → result B) : result B :=
  match m with Ok a => k a | Raise e => Raise e end.

Notation "'let!' x ':=' m 'in' k" := (bind m (fun x => k))
  (at level 10, x pattern, m at level 100, k at level 200).

#[global] Instance result_fmap : FMap result := fun _ _ f m =>
  match m with Ok a => Ok (f a) | Raise e => Raise e end.

(** A [for] loop over [enumerate(l)], threading the loop's variables. *)
Fixpoint for_enumerate {A St} (body : nat → A → St → result St)
    (i : nat) (l : list A) (s : St) : result St :=
  match l with
  | [] => Ok s
  | x :: l' => let! s' := body i x s in for_enumerate body (S i) l' s'
  end.

Fixpoint for_each {A St} (body : A → St → result St) (l : list A) (s : St) : result St :=
  match l with
  | [] => Ok s
  | x :: l' => let! s' := body x s in for_each body l' s'
  end.

(** ** Builtins *)

Module Py.

Definition dict_get (k : string) (d : list (string * pyval)) : option pyval :=
  snd <$> find (λ kv, String.eqb (fst kv) k) d.

Definition dict_has (k : string) (d : list (string * pyval)) : bool :=
  match dict_get k d with Some _ => true | None => false end.

(** [bool(v)] *)
Definition truthy (v : pyval) : bool :=
  match v with
  | PyNone => false
  | PyBool b => b
  | PyInt z => negb (z =? 0)
  | PyFloat f => match f with S754_zero _ => false | _ => true end
  | PyStr s => negb (String.eqb s "")
  | PyList l => match l with [] => false | _ => true end
  | PyDict d => match d with [] => false | _ => true end
  end.

(** [hash(v)] succeeds *)
Definition hashable (v : pyval) : bool :=
  match v with
  | PyList _ | PyDict _ => false
  | _ => true
  end.

Definition isinstance_str (v : pyval) : bool :=
  match v with PyStr _ => true | _ => false end.

(** A binary64 value against an exact integer. *)
Definition float_eq_int (f : spec_float) (z : Z) : bool :=
  match f with
  | S754_zero _ => z =? 0
  | S754_finite s m e =>
      let mz := if s then Z.neg m else Z.pos m in
      if 0 <=? e then z =? mz * 2 ^ e else mz =? z * 2 ^ (- e)
  | _ => false
  end.

Definition as_int (v : pyval) : option Z :=
  match v with
  | PyBool b => Some (if b then 1 else 0)
  | PyInt z => Some z
  | _ => None
  end.

(** [a == b].  [bool], [int] and [float] compare by numeric value, a [dict]
    compares as a mapping (order of insertion does not count).  Values are
    compared by [==] alone; that a container also finds an object identical
    to one of its items shows only for a [nan], which differs from itself. *)
Fixpoint eq (a b : pyval) {struct a} : bool :=
  match a, b with
  | PyNone, PyNone => true
  | PyStr s, PyStr t => String.eqb s t
  | PyFloat f, PyFloat g => SFeqb f g
  | PyFloat f, (PyBool _ | PyInt _) => from_option (float_eq_int f) false (as_int b)
  | (PyBool _ | PyInt _), PyFloat g => from_option (float_eq_int g) false (as_int a)
  | (PyBool _ | PyInt _), (PyBool _ | PyInt _) =>
      match as_int a, as_int b with
      | Some x, Some y => x =? y
      | _, _ => false
      end
  | PyList l, PyList m =>
      (fix go (l m : list pyval) {struct l} : bool :=
         match l, m with
         | [], [] => true
         | x :: l', y :: m' => eq x y && go l' m'
         | _, _ => false
         end) l m
  | PyDict d, PyDict e =>
      (length d =? length e)%nat &&
      (fix go (d : list (string * pyval)) : bool :=
         match d with
         | [] => true
         | (k, v) :: d' =>
             match dict_get k e with
             | Some w => eq v w && go d'
             | None => false
             end
         end) d
  | _, _ => false
  end.

(** [x in l] for a list (or a set of hashable values kept as a list). *)
Definition list_contains (x : pyval) (l : list pyval) : bool :=
  existsb (eq x) l.

(** [needle in haystack] for two [str]: substring search. *)
Fixpoint is_prefix (p s : string) : bool :=
  match p, s with
  | EmptyString, _ => true
  | String a p', String b s' => Ascii.eqb a b && is_prefix p' s'
  | _, EmptyString => false
  end.

Fixpoint is_substring (p s : string) : bool :=
  is_prefix p s ||
  match s with
  | EmptyString => false
  | String _ s' => is_substring p s'
  end.

(** [x in c] *)
Definition contains (x c : pyval) : result bool :=
  match c with
  | PyDict d =>
      if hashable x
      then Ok (match x with PyStr k => dict_has k d | _ => false end)
      else Raise TypeError
  | PyList l => Ok (list_contains x l)
  | PyStr s =>
      match x with
      | PyStr p => Ok (is_substring p s)
      | _ => Raise TypeError
      end
  | _ => Raise TypeError
  end.

(** [x in s] for a set [s]: [x] is hashed first. *)
Definition set_contains (x : pyval) (s : list pyval) : result bool :=
  if hashable x then Ok (list_contains x s) else Raise TypeError.

(** [s.add(x)] *)
Definition set_add (x : pyval) (s : list pyval) : list pyval :=
  if list_contains x s then s else s ++ [x].

(** [v[k]] with a [str] subscript *)
Definition getitem (v : pyval) (k : string) : result pyval :=
  match v with
  | PyDict d => match dict_get k d with Some w => Ok w | None => Raise KeyError end
  | _ => Raise TypeError
  end.

(** [v.get(k, default)] *)
Definition get (v : pyval) (k : string) (default : pyval) : result pyval :=
  match v with
  | PyDict d => Ok (from_option id default (dict_get k d))
  | _ => Raise AttributeError
  end.

(** *** Formatting: [repr] and [str] *)

Definition chr (n : N) : ascii := ascii_of_N n.
Definition ord (c : ascii) : N := N_of_ascii c.

Definition quote1 : ascii := chr 39.
Definition quote2 : ascii := chr 34.
Definition backslash : ascii := chr 92.

Definition hex_digit (n : N) : ascii :=
  if (n <? 10)%N then chr (48 + n) else chr (87 + n).

(** [str.isprintable] on the code points below 256 *)
Definition printable (c : ascii) : bool :=
  let n := ord c in
  ((32 <=? n) && (n <? 127) || (161 <=? n) && negb (n =? 173))%N.

Definition repr_char (q c : ascii) : string :=
  let one a := String a EmptyString in
  if Ascii.eqb c q || Ascii.eqb c backslash then String backslash (one c)
  else if (ord c =? 9)%N then String backslash "t"
  else if (ord c =? 10)%N then String backslash "n"
  else if (ord c =? 13)%N then String backslash "r"
  else if printable c then one c
  else String backslash
         (String "x" (String (hex_digit (ord c / 16)) (one (hex_digit (ord c mod 16))))).

Fixpoint has_char (c : ascii) (s : string) : bool :=
  match s with
  | EmptyString => false
  | String a s' => Ascii.eqb a c || has_char c s'
  end.

Fixpoint concat_map (f : ascii → string) (s : string) : string :=
  match s with
  | EmptyString => EmptyString
  | String a s' => f a +:+ concat_map f s'
  end.

(** [repr(s)] for a [str]: single quotes unless the text has a single and
    no double quote. *)
Definition repr_str (s : string) : string :=
  let q := if has_char quote1 s && negb (has_char quote2 s) then quote2 else quote1 in
  String q (concat_map (repr_char q) s) +:+ String q EmptyString.

Fixpoint join (sep : string) (l : list string) : string :=
  match l with
  | [] => ""
  | [x] => x
  | x :: l' => x +:+ sep +:+ join sep l'
  end.

(** CPython turns an [int] into decimal text only up to 4300 digits
    ([sys.int_max_str_digits]). *)
Definition int_text_ok (z : Z) : bool := Z.abs z <? 10 ^ 4300.
Arguments int_text_ok : simpl never.

Fixpoint texts_ok (v : pyval) : bool :=
  match v with
  | PyInt z => int_text_ok z
  | PyList l => forallb texts_ok l
  | PyDict d => forallb (λ kv, texts_ok (snd kv)) d
  | _ => true
  end.

(** A value that is no container and whose text [str] gives. *)
Definition plain (v : pyval) : bool :=
  match v with
  | PyList _ | PyDict _ => false
  | PyInt z => int_text_ok z
  | _ => true
  end.

Section Formatting.
(** [repr] of a [float] (the shortest text that reads back as the same
    binary64 value) is left abstract. *)
Variable float_repr : spec_float → string.

Fixpoint repr (v : pyval) : string :=
  match v with
  | PyNone => "None"
  | PyBool b => if b then "True" else "False"
  | PyInt z => pretty z
  | PyFloat f => float_repr f
  | PyStr s => repr_str s
  | PyList l => "[" +:+ join ", " (map repr l) +:+ "]"
  | PyDict d =>
      "{" +:+ join ", " (map (λ '(k, w), repr_str k +:+ ": " +:+ repr w) d) +:+ "}"
  end.

(** The text of [str(v)]: a [str] as it is, anything else as [repr] writes
    it. *)
Definition text (v : pyval) : string :=
  match v with
  | PyStr s => s
  | _ => repr v
  end.

(** [str(v)], which is what an f-string field [{v}] inserts.  The
    conversion of an [int] of more than 4300 digits, also of one held in a
    list or a mapping, raises [ValueError]. *)
Definition str (v : pyval) : result string :=
  if texts_ok v then Ok (text v) else Raise ValueError.
End Formatting.

(** *** [float(v)] *)

Definition is_space (c : ascii) : bool :=
  let n := ord c in
  ((9 <=? n) && (n <=? 13) || (n =? 32) || (n =? 133) || (n =? 160))%N.

Definition is_digit (c : ascii) : bool :=
  let n := ord c in ((48 <=? n) && (n <=? 57))%N.

Definition is_underscore (c : ascii) : bool := (ord c =? 95)%N.

Definition lower (c : ascii) : ascii :=
  let n := ord c in if ((65 <=? n) && (n <=? 90))%N then chr (n + 32) else c.

Fixpoint drop_while (p : ascii → bool) (l : list ascii) : list ascii :=
  match l with
  | c :: l' => if p c then drop_while p l' else l
  | [] => []
  end.

Definition strip (l : list ascii) : list ascii :=
  reverse (drop_while is_space (reverse (drop_while is_space l))).

Definition dropwhile_digits : list ascii → list ascii := drop_while is_digit.

(** An underscore is accepted between two digits only. *)
Fixpoint underscores_ok (prev : option ascii) (l : list ascii) : bool :=
  match l with
  | [] => negb (from_option is_underscore false prev)
  | c :: l' =>
      (if is_underscore c then from_option is_digit false prev
       else negb (from_option is_underscore false prev) || is_digit c)
      && underscores_ok (Some c) l'
  end.

Definition skip_sign (l : list ascii) : list ascii :=
  match l with
  | c :: l' => if ((ord c =? 43) || (ord c =? 45))%N then l' else l
  | [] => []
  end.

(** The text of a float after the sign: [inf], [infinity], [nan], or digits
    with an optional point and an optional exponent, at least one digit
    before the exponent. *)
Definition float_body (l : list ascii) : bool :=
  let word := string_of_list_ascii (map lower l) in
  if String.eqb word "inf" || String.eqb word "infinity" || String.eqb word "nan" then true
  else
    let r1 := dropwhile_digits l in
    let int_digits := (length l - length r1)%nat in
    let '(frac_digits, r2) :=
      match r1 with
      | c :: r =>
          if (ord c =? 46)%N
          then let r' := dropwhile_digits r in ((length r - length r')%nat, r')
          else (0%nat, r1)
      | [] => (0%nat, r1)
      end in
    negb (int_digits + frac_digits =? 0)%nat &&
    match r2 with
    | [] => true
    | c :: r3 =>
        (ord (lower c) =? 101)%N &&
        let r4 := skip_sign r3 in
        negb (length r4 =? 0)%nat && forallb is_digit r4
    end.

(** [float(s)] accepts the text of [s] *)
Definition float_literal (s : string) : bool :=
  let l := strip (list_ascii_of_string s) in
  underscores_ok None l && float_body (skip_sign (filter (λ c, negb (is_underscore c)) l)).

(** An [int] converts unless it rounds to a binary64 beyond the largest
    finite one. *)
Definition int_fits_float (z : Z) : bool :=
  Z.abs z <? 2 ^ 1024 - 2 ^ 970.

(** [float(v)]; the value is not used by the code, only whether the call
    returns. *)
Definition float (v : pyval) : result unit :=
  match v with
  | PyBool _ | PyFloat _ => Ok ()
  | PyInt z => if int_fits_float z then Ok () else Raise OverflowError
  | PyStr s => if float_literal s then Ok () else Raise ValueError
  | PyNone | PyList _ | PyDict _ => Raise TypeError
  end.

(** [sep.join(v)]: [v] must be iterable with [str] items only (a [dict]
    iterates over its keys, a [str] over its characters). *)
Definition str_join (sep : string) (v : pyval) : result string :=
  match v with
  | PyList l =>
      if forallb isinstance_str l
      then Ok (join sep (omap (λ x, match x with PyStr s => Some s | _ => None end) l))
      else Raise TypeError
  | PyDict d => Ok (join sep (map fst d))
  | PyStr s => Ok (join sep (map (λ c, String c EmptyString) (list_ascii_of_string s)))
  | _ => Raise TypeError
  end.

End Py.


Abbreviation dict := (list (string * pyval)).

(** ** Tables ([models/rdmp.py], [models/membership.py])

    The columns the services read or write.  [created_at] is filled by the
    database clock and is left out. *)

Record RDMPTemplate := {
  template_id_of : Z;
  template_name : string;
  template_description : option string
}.

Record RDMPTemplateVersion := {
  tv_id : Z;
  tv_template_id : Z;
  tv_version_int : Z;
  tv_created_by : Z;
  template_json : pyval
}.

Record RDMPVersion := {
  rdmp_version_id : Z;
  project_id : Z;
  version_int : Z;
  created_by : Z;
  rdmp_json : pyval;
  provenance_json : option pyval
}.

Record Membership := {
  m_project_id : Z;
  m_user_id : Z;
  role_name : string
}.

(** Modelled from the spec: [models/sample.py] is not among the sources; a
    sample carries its FieldValues, each with the [field_key] it fills and a
    value. *)
Record FieldValue := {
  field_key : string;
  value_json : pyval
}.

Record Sample := {
  sample_project_id : Z;
  field_values : list FieldValue
}.

(** The session's view of the database: each table in insertion order. *)
Record Session := {
  rdmp_templates : list RDMPTemplate;
  rdmp_template_versions : list RDMPTemplateVersion;
  rdmp_versions : list RDMPVersion;
  memberships : list Membership
}.

(** The database is SQLite ([config.py]) and the integer columns are SQLite
    INTEGERs, signed and 64 bits wide: binding a Python [int] outside that
    range to a statement, as the value of a new row or as the parameter of a
    query, raises [OverflowError]. *)
Definition fits_int64 (z : Z) : bool := (- 2 ^ 63 <=? z) && (z <? 2 ^ 63).

Definition bind_int (z : Z) : result Z :=
  if fits_int64 z then Ok z else Raise OverflowError.

(** ** [services/rdmp_service.py] *)

Definition required_perms : list string :=
  ["can_edit_metadata"; "can_edit_paths"; "can_create_release"; "can_manage_rdmp"].

Definition field_types : list pyval :=
  [PyStr "string"; PyStr "number"; PyStr "date"; PyStr "categorical"].

Definition visibilities : list pyval :=
  [PyStr "private"; PyStr "collaborators"; PyStr "public_index"].

Section Validation.
Variable float_repr : spec_float → string.

Abbreviation fmt := (Py.str float_repr).

(** The index [i] of an entry, where an f-string formats it.  A list holds
    fewer than [2^63] entries, so the text of an index is never refused; the
    default of [role.get('name', i)] and of [field.get('key', i)], which is
    only formatted, is given as that text. *)
Definition index (i : nat) : pyval := PyStr (pretty i).

(** The body of the loop over [required_perms]; the loop's variable is
    [errors]. *)
Definition require_perm (i : nat) (role perms : pyval) (perm : string)
    (errors : list string) : result (list string) :=
  let! has := Py.contains (PyStr perm) perms in
  if negb has
  then
    let! label := Py.get role "name" (index i) in
    let! label := fmt label in
    Ok (errors ++ ["Role '" +:+ label +:+ "' missing permission '" +:+ perm +:+ "'"])
  else Ok errors.

(** The body of the loop over [enumerate(roles)]; the loop's variables are
    [errors] and [role_names]. *)
Definition validate_role (i : nat) (role : pyval) (st : list string * list pyval)
    : result (list string * list pyval) :=
  let '(errors, role_names) := st in
  let! has_name := Py.contains (PyStr "name") role in
  let! (errors, role_names) :=
    (if negb has_name
     then Ok (errors ++ ["Role " +:+ pretty i +:+ " missing 'name'"], role_names)
     else
       let! name := Py.getitem role "name" in
       let! dup := Py.set_contains name role_names in
       let! errors :=
         (if dup
          then let! name := fmt name in Ok (errors ++ ["Duplicate role name: " +:+ name])
          else Ok errors) in
       Ok (errors, Py.set_add name role_names)) in
  let! has_perms := Py.contains (PyStr "permissions") role in
  if negb has_perms
  then Ok (errors ++ ["Role " +:+ pretty i +:+ " missing 'permissions'"], role_names)
  else
    let! perms := Py.getitem role "permissions" in
    let! errors := for_each (require_perm i role perms) required_perms errors in
    Ok (errors, role_names).

(** The body of the loop over [enumerate(fields)]; the loop's variables are
    [errors] and [field_keys]. *)
Definition validate_field (i : nat) (field : pyval) (st : list string * list pyval)
    : result (list string * list pyval) :=
  let '(errors, field_keys) := st in
  let! has_key := Py.contains (PyStr "key") field in
  let! (errors, field_keys) :=
    (if negb has_key
     then Ok (errors ++ ["Field " +:+ pretty i +:+ " missing 'key'"], field_keys)
     else
       let! key := Py.getitem field "key" in
       let! dup := Py.set_contains key field_keys in
       let! errors :=
         (if dup
          then let! key := fmt key in Ok (errors ++ ["Duplicate field key: " +:+ key])
          else Ok errors) in
       Ok (errors, Py.set_add key field_keys)) in
  let! has_label := Py.contains (PyStr "label") field in
  let errors :=
    if negb has_label then errors ++ ["Field " +:+ pretty i +:+ " missing 'label'"]
    else errors in
  let! has_type := Py.contains (PyStr "type") field in
  let! errors :=
    (if negb has_type
     then Ok (errors ++ ["Field " +:+ pretty i +:+ " missing 'type'"])
     else
       let! ty := Py.getitem field "type" in
       if negb (Py.list_contains ty field_types)
       then
         let! label := Py.get field "key" (index i) in
         let! label := fmt label in
         let! ty := fmt ty in
         Ok (errors ++ ["Field '" +:+ label +:+ "' has invalid type: " +:+ ty])
       else Ok errors) in
  let! has_vis := Py.contains (PyStr "visibility") field in
  let! errors :=
    (if has_vis
     then
       let! vis := Py.getitem field "visibility" in
       if negb (Py.list_contains vis visibilities)
       then
         let! label := Py.get field "key" (index i) in
         let! label := fmt label in
         let! vis := fmt vis in
         Ok (errors ++ ["Field '" +:+ label +:+ "' has invalid visibility: " +:+ vis])
       else Ok errors
     else Ok errors) in
  let! ty := Py.get field "type" PyNone in
  let! errors :=
    (if Py.eq ty (PyStr "categorical")
     then
       let! has_allowed := Py.contains (PyStr "allowed_values") field in
       if negb has_allowed
       then
         let! label := Py.get field "key" (index i) in
         let! label := fmt label in
         Ok (errors ++ ["Categorical field '" +:+ label +:+ "' missing 'allowed_values'"])
       else Ok errors
     else Ok errors) in
  Ok (errors, field_keys).

(** The pattern [PyList (_ :: _)] is the negation of
    [not isinstance(roles, list) or len(roles) == 0]. *)
Definition validate_rdmp_schema (rdmp_json : dict) : result (bool * list string) :=
  let errors := [] in
  let errors :=
    if negb (Py.dict_has "roles" rdmp_json) then errors ++ ["Missing 'roles' key"]
    else errors in
  let errors :=
    if negb (Py.dict_has "fields" rdmp_json) then errors ++ ["Missing 'fields' key"]
    else errors in
  let! errors :=
    (match Py.dict_get "roles" rdmp_json with
     | Some roles =>
         match roles with
         | PyList ((_ :: _) as l) =>
             fst <$> for_enumerate validate_role 0 l (errors, [])
         | _ => Ok (errors ++ ["'roles' must be a non-empty list"])
         end
     | None => Ok errors
     end) in
  let! errors :=
    (match Py.dict_get "fields" rdmp_json with
     | Some fields =>
         match fields with
         | PyList ((_ :: _) as l) =>
             fst <$> for_enumerate validate_field 0 l (errors, [])
         | _ => Ok (errors ++ ["'fields' must be a non-empty list"])
         end
     | None => Ok errors
     end) in
  Ok (bool_decide (length errors = 0%nat), errors).
End Validation.

(** The dict that [check_sample_completeness] returns *)
Record Completeness := {
  is_complete : bool;
  missing_fields : list pyval;
  total_required : nat;
  total_filled : nat
}.

(** Iterating a value in a [for]: a [dict] yields its keys, a [str] its
    characters. *)
Definition py_iter (v : pyval) : result (list pyval) :=
  match v with
  | PyList l => Ok l
  | PyDict d => Ok (map (λ kv, PyStr (fst kv)) d)
  | PyStr s => Ok (map (λ c, PyStr (String c EmptyString)) (list_ascii_of_string s))
  | _ => Raise TypeError
  end.

(** A list comprehension [[g(x) for x in l if c(x)]] whose parts can raise *)
Fixpoint comprehension {A B} (c : A → result bool) (g : A → result B) (l : list A)
    : result (list B) :=
  match l with
  | [] => Ok []
  | x :: l' =>
      let! keep := c x in
      if keep : bool
      then let! y := g x in let! ys := comprehension c g l' in Ok (y :: ys)
      else comprehension c g l'
  end.

(** [v in s] for a set of [str] *)
Definition in_key_set (v : pyval) (s : gset string) : result bool :=
  if Py.hashable v
  then Ok (match v with PyStr k => bool_decide (k ∈ s) | _ => false end)
  else Raise TypeError.

Definition check_sample_completeness (sample : Sample) (rdmp : RDMPVersion)
    : result Completeness :=
  let rdmp_json := rdmp_json rdmp in
  let! fields := Py.get rdmp_json "fields" (PyList []) in
  let! fields := py_iter fields in
  let! required_fields :=
    comprehension (λ f, Py.truthy <$> Py.get f "required" (PyBool false)) Ok fields in
  let existing_field_keys : gset string :=
    list_to_set (field_key <$> field_values sample) in
  let! missing :=
    comprehension
      (λ f, let! k := Py.getitem f "key" in negb <$> in_key_set k existing_field_keys)
      (λ f, Py.getitem f "key") required_fields in
  Ok {| is_complete := bool_decide (length missing = 0%nat);
        missing_fields := missing;
        total_required := length required_fields;
        total_filled := size existing_field_keys |}.

Definition validate_field_value (field_config : dict) (value : pyval)
    : result (bool * option string) :=
  let field_type := from_option id PyNone (Py.dict_get "type" field_config) in
  if Py.eq field_type (PyStr "number") then
    match Py.float value with
    | Ok _ => Ok (true, None)
    | Raise ValueError | Raise TypeError => Ok (false, Some "Value must be a number")
    | Raise e => Raise e
    end
  else if Py.eq field_type (PyStr "categorical") then
    let allowed_values := from_option id (PyList []) (Py.dict_get "allowed_values" field_config) in
    let! found := Py.contains value allowed_values in
    if negb found
    then
      let! listing := Py.str_join ", " allowed_values in
      Ok (false, Some ("Value must be one of: " +:+ listing))
    else Ok (true, None)
  else if Py.eq field_type (PyStr "date") then
    if negb (Py.isinstance_str value)
    then Ok (false, Some "Date must be a string")
    else Ok (true, None)
  else Ok (true, None).

(** [order_by(version_int.desc()).first()] among the rows that pass the
    filter: the first row holding the largest [version_int]. *)
Fixpoint latest_by {A} (key : A → Z) (rows : list A) : option A :=
  match rows with
  | [] => None
  | r :: rows' =>
      match latest_by key rows' with
      | Some r' => if key r <? key r' then Some r' else Some r
      | None => Some r
      end
  end.

Definition get_current_rdmp (db : Session) (project : Z)
    : result (option RDMPVersion) :=
  let! project := bind_int project in
  Ok (latest_by version_int (filter (λ r, project_id r = project) (rdmp_versions db))).

(** ** [schemas/rdmp.py]

    The request models.  Pydantic has parsed the request into them before a
    handler runs; [model_dump] turns a model back into plain values, every
    declared attribute present. *)

Module schemas.

Record RDMPRole := {
  name : string;
  permissions : list (string * bool)
}.

Record RDMPField := {
  key : string;
  label : string;
  type : string;
  required : bool;
  allowed_values : option (list string);
  visibility : string
}.

Record RDMPIngestionRules := {
  file_patterns : list string;
  prompts : list string
}.

Record RDMPJSON := {
  roles : list RDMPRole;
  fields : list RDMPField;
  ingestion_rules : RDMPIngestionRules
}.

Record RDMPTemplateCreate := {
  tc_name : string;
  tc_description : option string;
  tc_template_json : RDMPJSON
}.

Record RDMPTemplateVersionCreate := {
  template_json : RDMPJSON
}.

Record RDMPVersionCreate := {
  rdmp_json : RDMPJSON;
  provenance_json : option dict
}.

Definition dump_role (r : RDMPRole) : dict :=
  [("name", PyStr (name r));
   ("permissions", PyDict (prod_map id PyBool <$> permissions r))].

Definition dump_field (f : RDMPField) : dict :=
  [("key", PyStr (key f));
   ("label", PyStr (label f));
   ("type", PyStr (type f));
   ("required", PyBool (required f));
   ("allowed_values",
     match allowed_values f with
     | Some l => PyList (PyStr <$> l)
     | None => PyNone
     end);
   ("visibility", PyStr (visibility f))].

Definition dump_ingestion_rules (r : RDMPIngestionRules) : pyval :=
  PyDict [("file_patterns", PyList (PyStr <$> file_patterns r));
          ("prompts", PyList (PyStr <$> prompts r))].

Definition model_dump (j : RDMPJSON) : dict :=
  [("roles", PyList (PyDict ∘ dump_role <$> roles j));
   ("fields", PyList (PyDict ∘ dump_field <$> fields j));
   ("ingestion_rules", dump_ingestion_rules (ingestion_rules j))].

End schemas.

(** The authenticated user a handler receives; only its [id] is used.
    ([models/user.py] is not among the sources.) *)
Record User := { user_id : Z }.

(** ** [services/permission_service.py] *)

Definition no_permissions : pyval :=
  PyDict [("can_edit_metadata", PyBool false);
          ("can_edit_paths", PyBool false);
          ("can_create_release", PyBool false);
          ("can_manage_rdmp", PyBool false)].

(** [next((r for r in roles if r["name"] == role_name), None)]: the
    generator is advanced until the first match, so a role before it that
    has no ["name"] raises. *)
Fixpoint next_role (roles : list pyval) (role_name : string) : result (option pyval) :=
  match roles with
  | [] => Ok None
  | r :: roles' =>
      let! n := Py.getitem r "name" in
      if Py.eq n (PyStr role_name) then Ok (Some r) else next_role roles' role_name
  end.

(** [db.query(Membership).filter(project_id == ..., user_id == ...).first()] *)
Definition query_membership (db : Session) (user project : Z)
    : result (option Membership) :=
  let! project := bind_int project in
  let! user := bind_int user in
  Ok (find (λ m, bool_decide (m_project_id m = project ∧ m_user_id m = user))
        (memberships db)).

Definition get_user_permissions (db : Session) (user project : Z) : result pyval :=
  let! membership := query_membership db user project in
  match membership with
  | None => Ok no_permissions
  | Some membership =>
      let! rdmp := get_current_rdmp db project in
      match rdmp with
      | None => Ok no_permissions
      | Some rdmp =>
          let rdmp_json := rdmp_json rdmp in
          let! roles := Py.get rdmp_json "roles" (PyList []) in
          let! roles := py_iter roles in
          let! role := next_role roles (role_name membership) in
          match role with
          | None => Ok no_permissions
          | Some role =>
              if negb (Py.truthy role) then Ok no_permissions
              else Py.get role "permissions" (PyDict [])
          end
      end
  end.

Definition check_permission (db : Session) (user : User) (project : Z)
    (permission_name : string) : result pyval :=
  let! permissions := get_user_permissions db (user_id user) project in
  Py.get permissions permission_name (PyBool false).

(** ** [api/rdmp.py]

    A handler runs its queries and then commits.  Other requests may commit
    in between, so a handler takes two states: [seen], the database as its
    queries read it, and [db], the database at its commit; they are the same
    state when no other request commits in between.  A handler returns its
    response or the exception it raised, with the database it leaves. *)

Definition schema_invalid (errors : list string) : exn :=
  HTTPException 400
    (PyDict [("message", PyStr "Invalid RDMP schema");
             ("errors", PyList (PyStr <$> errors))]).

Definition not_found (detail : string) : exn := HTTPException 404 (PyStr detail).

(** Some positive id that no row has.  Among [1 .. n + 1] one is unused when
    there are [n] rows. *)
Definition unused_id (ids : list Z) : Z :=
  default 0 (find (λ c, bool_decide (c ∉ ids)) (Z.of_nat <$> seq 1 (S (length ids)))).

(** The id SQLite gives a new row of a table with an [INTEGER PRIMARY KEY]:
    [1] in an empty table, else one more than the largest id in use; when
    that is the largest 64-bit integer SQLite tries unused positive ids at
    random, for which the first unused one stands here. *)
Definition next_id (ids : list Z) : Z :=
  match ids with
  | [] => 1
  | i :: ids' =>
      let largest := foldr Z.max i ids' in
      if largest <? 2 ^ 63 - 1 then largest + 1 else unused_id ids
  end.

(** [db.add(version); db.commit()] on [rdmp_versions], under the table's
    [UniqueConstraint("project_id", "version_int")].  The values of the new
    row are bound to the INSERT, which refuses one outside 64 bits; the
    handler's query for the latest version binds the same [project_id], and
    its refusal is modelled here with the INSERT's.  A row of the table is
    within 64 bits, so a new row that meets the constraint has a
    [project_id] and a [version_int] that are bound without error. *)
Definition commit_rdmp_version (project version created_by : Z) (body : pyval)
    (provenance : option pyval) (db : Session) : result RDMPVersion * Session :=
  if existsb (λ r, bool_decide (project_id r = project ∧ version_int r = version))
       (rdmp_versions db)
  then (Raise IntegrityError, db)
  else if negb (fits_int64 project && fits_int64 version && fits_int64 created_by)
  then (Raise OverflowError, db)
  else
    let row := {| rdmp_version_id := next_id (rdmp_version_id <$> rdmp_versions db);
                  project_id := project;
                  version_int := version;
                  created_by := created_by;
                  rdmp_json := body;
                  provenance_json := provenance |} in
    (Ok row,
     {| rdmp_templates := rdmp_templates db;
        rdmp_template_versions := rdmp_template_versions db;
        rdmp_versions := rdmp_versions db ++ [row];
        memberships := memberships db |}).

(** The same on [rdmp_template_versions], under
    [UniqueConstraint("template_id", "version_int")]. *)
Definition commit_template_version (template version created_by : Z) (body : pyval)
    (db : Session) : result RDMPTemplateVersion * Session :=
  if existsb (λ r, bool_decide (tv_template_id r = template ∧ tv_version_int r = version))
       (rdmp_template_versions db)
  then (Raise IntegrityError, db)
  else if negb (fits_int64 template && fits_int64 version && fits_int64 created_by)
  then (Raise OverflowError, db)
  else
    let row := {| tv_id := next_id (tv_id <$> rdmp_template_versions db);
                  tv_template_id := template;
                  tv_version_int := version;
                  tv_created_by := created_by;
                  template_json := body |} in
    (Ok row,
     {| rdmp_templates := rdmp_templates db;
        rdmp_template_versions := rdmp_template_versions db ++ [row];
        rdmp_versions := rdmp_versions db;
        memberships := memberships db |}).

Section Handlers.
Variable float_repr : spec_float → string.

Definition create_template (template_data : schemas.RDMPTemplateCreate)
    (current_user : User) (db : Session) : result RDMPTemplate * Session :=
  let body := schemas.model_dump (schemas.tc_template_json template_data) in
  match validate_rdmp_schema float_repr body with
  | Raise e => (Raise e, db)
  | Ok (is_valid, errors) =>
      if negb is_valid then (Raise (schema_invalid errors), db)
      else if existsb (λ t, String.eqb (template_name t) (schemas.tc_name template_data))
                (rdmp_templates db)
      then (Raise IntegrityError, db)
      else
        let template :=
          {| template_id_of := next_id (template_id_of <$> rdmp_templates db);
             template_name := schemas.tc_name template_data;
             template_description := schemas.tc_description template_data |} in
        let db1 :=
          {| rdmp_templates := rdmp_templates db ++ [template];
             rdmp_template_versions := rdmp_template_versions db;
             rdmp_versions := rdmp_versions db;
             memberships := memberships db |} in
        match commit_template_version (template_id_of template) 1
                (user_id current_user) (PyDict body) db1 with
        | (Ok _, db2) => (Ok template, db2)
        | (Raise e, _) => (Raise e, db)
        end
  end.

Definition create_template_version (template : Z)
    (version_data : schemas.RDMPTemplateVersionCreate) (current_user : User)
    (seen db : Session) : result RDMPTemplateVersion * Session :=
  if negb (fits_int64 template) then (Raise OverflowError, db)
  else if negb (existsb (λ t, bool_decide (template_id_of t = template))
                  (rdmp_templates seen))
  then (Raise (not_found "Template not found"), db)
  else
    let body := schemas.model_dump (schemas.template_json version_data) in
    match validate_rdmp_schema float_repr body with
    | Raise e => (Raise e, db)
    | Ok (is_valid, errors) =>
        if negb is_valid then (Raise (schema_invalid errors), db)
        else
          let latest_version :=
            latest_by tv_version_int
              (filter (λ r, tv_template_id r = template) (rdmp_template_versions seen)) in
          let next_version_int :=
            match latest_version with
            | Some latest => tv_version_int latest + 1
            | None => 1
            end in
          commit_template_version template next_version_int (user_id current_user)
            (PyDict body) db
    end.

Definition create_project_rdmp_version (project : Z)
    (rdmp_data : schemas.RDMPVersionCreate) (current_user : User)
    (seen db : Session) : result RDMPVersion * Session :=
  let body := schemas.model_dump (schemas.rdmp_json rdmp_data) in
  match validate_rdmp_schema float_repr body with
  | Raise e => (Raise e, db)
  | Ok (is_valid, errors) =>
      if negb is_valid then (Raise (schema_invalid errors), db)
      else
        let latest_version :=
          latest_by version_int
            (filter (λ r, project_id r = project) (rdmp_versions seen)) in
        let next_version_int :=
          match latest_version with
          | Some latest => version_int latest + 1
          | None => 1
          end in
        commit_rdmp_version project next_version_int (user_id current_user)
          (PyDict body) (PyDict <$> schemas.provenance_json rdmp_data) db
  end.
End Handlers.

(** ** Requests over time

    The states the database goes through, newest first.  It starts empty;
    each handler that returns its response adds the state it leaves.  What a
    handler's queries saw is the current state or an earlier one.  Memberships
    are edited by collaborators outside these handlers. *)

Definition empty_session : Session :=
  {| rdmp_templates := []; rdmp_template_versions := [];
     rdmp_versions := []; memberships := [] |}.

Definition with_memberships (ms : list Membership) (db : Session) : Session :=
  {| rdmp_templates := rdmp_templates db;
     rdmp_template_versions := rdmp_template_versions db;
     rdmp_versions := rdmp_versions db;
     memberships := ms |}.

Section History.
Variable float_repr : spec_float → string.

Inductive history : list Session → Prop :=
| history_start :
    history [empty_session]
| history_memberships h db ms :
    history (db :: h) →
    history (with_memberships ms db :: db :: h)
| history_create_template h db template_data current_user t db' :
    history (db :: h) →
    create_template float_repr template_data current_user db = (Ok t, db') →
    history (db' :: db :: h)
| history_create_template_version h db seen template version_data current_user v db' :
    history (db :: h) →
    seen ∈ db :: h →
    create_template_version float_repr template version_data current_user seen db
      = (Ok v, db') →
    history (db' :: db :: h)
| history_create_project_rdmp_version h db seen project rdmp_data current_user v db' :
    history (db :: h) →
    seen ∈ db :: h →
    create_project_rdmp_version float_repr project rdmp_data current_user seen db
      = (Ok v, db') →
    history (db' :: db :: h).

(** The [version_int] values committed for a scope, in commit order. *)
Definition project_versions (db : Session) (project : Z) : list Z :=
  version_int <$> filter (λ r, project_id r = project) (rdmp_versions db).

Definition template_versions (db : Session) (template : Z) : list Z :=
  tv_version_int <$> filter (λ r, tv_template_id r = template) (rdmp_template_versions db).

(** The body of a stored version passes the validator. *)
Definition valid_body (body : pyval) : Prop :=
  ∃ b, body = PyDict b ∧ validate_rdmp_schema float_repr b = Ok (true, []).
End History.

(** [1, 2, ..., n] *)
Definition one_to (n : nat) : list Z := Z.of_nat <$> seq 1 n.

(** ** Shapes and examples used in the statements *)

(** A value that [in] accepts on its right with a [str] on its left. *)
Definition supports_in (v : pyval) : bool :=
  match v with
  | PyDict _ | PyList _ | PyStr _ => true
  | _ => false
  end.

(** A [roles] entry the validator can walk: a mapping whose [name], when
    there is one, is no list or mapping nor an [int] of more than 4300
    digits (so that it can be hashed and written in a message), and whose
    [permissions], when there are any, can be searched.  Any key may be
    missing. *)
Definition role_shaped (r : pyval) : bool :=
  match r with
  | PyDict d =>
      from_option Py.plain true (Py.dict_get "name" d)
      && from_option supports_in true (Py.dict_get "permissions" d)
  | _ => false
  end.

(** A [fields] entry the validator can walk: a mapping whose [key], [type]
    and [visibility], when they are there, are no list or mapping nor an
    [int] of more than 4300 digits. *)
Definition field_shaped (f : pyval) : bool :=
  match f with
  | PyDict d =>
      from_option Py.plain true (Py.dict_get "key" d)
      && from_option Py.plain true (Py.dict_get "type" d)
      && from_option Py.plain true (Py.dict_get "visibility" d)
  | _ => false
  end.

Definition entries_shaped (shaped : pyval → bool) (v : option pyval) : bool :=
  match v with
  | Some (PyList l) => forallb shaped l
  | _ => true
  end.

Definition body_shaped (body : dict) : bool :=
  entries_shaped role_shaped (Py.dict_get "roles" body)
  && entries_shaped field_shaped (Py.dict_get "fields" body).

(** The examples hold no [float], so any rendering of floats serves. *)
Definition no_float_repr : spec_float → string := λ _, "".

Definition all_permissions (b : bool) : list (string * bool) :=
  (λ p, (p, b)) <$> required_perms.

Definition grade_field : schemas.RDMPField :=
  {| schemas.key := "grade"; schemas.label := "Grade";
     schemas.type := "categorical"; schemas.required := false;
     schemas.allowed_values := None; schemas.visibility := "collaborators" |}.

Definition age_field : schemas.RDMPField :=
  {| schemas.key := "age"; schemas.label := "Age";
     schemas.type := "number"; schemas.required := true;
     schemas.allowed_values := None; schemas.visibility := "private" |}.

Definition sex_field : schemas.RDMPField :=
  {| schemas.key := "sex"; schemas.label := "Sex";
     schemas.type := "categorical"; schemas.required := true;
     schemas.allowed_values := Some ["f"; "m"]; schemas.visibility := "collaborators" |}.

Definition lead_role : schemas.RDMPRole :=
  {| schemas.name := "Lead"; schemas.permissions := all_permissions true |}.

Definition no_rules : schemas.RDMPIngestionRules :=
  {| schemas.file_patterns := []; schemas.prompts := [] |}.

Definition graded_plan : schemas.RDMPJSON :=
  {| schemas.roles := [lead_role]; schemas.fields := [grade_field];
     schemas.ingestion_rules := no_rules |}.

Definition study_plan : schemas.RDMPJSON :=
  {| schemas.roles := [lead_role]; schemas.fields := [age_field; sex_field];
     schemas.ingestion_rules := no_rules |}.

(** *** Completeness, as the specification words it

    [decls] lists the fields an RDMP declares, in order, each with its key
    and whether it is required. *)

Definition declares (f : pyval) (decl : string * bool) : Prop :=
  ∃ d, f = PyDict d
       ∧ Py.dict_get "key" d = Some (PyStr decl.1)
       ∧ from_option id (PyBool false) (Py.dict_get "required" d) = PyBool decl.2.

Definition filled_keys (sample : Sample) : list string :=
  field_key <$> field_values sample.

Definition spec_total_required (decls : list (string * bool)) : nat :=
  length (filter (λ d, d.2 = true) decls).

Definition spec_missing_fields (decls : list (string * bool)) (sample : Sample)
    : list pyval :=
  PyStr ∘ fst <$> filter (λ d, d.2 = true ∧ d.1 ∉ filled_keys sample) decls.

Definition spec_total_filled (sample : Sample) : nat :=
  length (remove_dups (filled_keys sample)).

Definition declared_fields (j : schemas.RDMPJSON) : list (string * bool) :=
  (λ f, (schemas.key f, schemas.required f)) <$> schemas.fields j.

Definition sample_with (keys : list string) : Sample :=
  {| sample_project_id := 1;
     field_values := (λ k, {| field_key := k; value_json := PyStr "x" |}) <$> keys |}.

Definition version_of (project version : Z) (j : schemas.RDMPJSON) : RDMPVersion :=
  {| rdmp_version_id := version; project_id := project; version_int := version;
     created_by := 1; rdmp_json := PyDict (schemas.model_dump j);
     provenance_json := None |}.

(** A loop over entries only adds: the errors so far stay in front, and a
    name once seen stays seen. *)
Definition grows (s s' : list string * list pyval) : Prop :=
  s.1 `prefix_of` s'.1
  ∧ ∀ x, Py.list_contains x s.2 = true → Py.list_contains x s'.2 = true.

(** The specification's two failing bodies in one: two roles named Lead and
    a categorical field without [allowed_values]. *)
Definition two_leads : dict :=
  [("roles",
     PyList [PyDict (schemas.dump_role lead_role); PyDict (schemas.dump_role lead_role)]);
   ("fields",
     PyList [PyDict [("key", PyStr "grade"); ("type", PyStr "categorical")]])].

(** Two roles of the same name, and a [fields] entry that is no mapping. *)
Definition two_leads_bare_field : dict :=
  [("roles",
     PyList [PyDict (schemas.dump_role lead_role); PyDict (schemas.dump_role lead_role)]);
   ("fields", PyList [PyStr "age"])].

(** Two roles of the same name, and a third one without permissions whose
    name is an [int] of 4301 digits. *)
Definition two_leads_long_name : dict :=
  [("roles",
     PyList [PyDict (schemas.dump_role lead_role); PyDict (schemas.dump_role lead_role);
             PyDict [("name", PyInt (10 ^ 4300)); ("permissions", PyDict [])]]);
   ("fields", PyList [PyDict (schemas.dump_field age_field)])].

(** A body with keys missing and values of the wrong type all over, yet
    every entry a mapping. *)
Definition ragged_body : dict :=
  [("roles", PyList [PyDict [("name", PyInt 3); ("permissions", PyList [])];
                     PyDict [("permissions", PyStr "can_edit_paths")];
                     PyDict []]);
   ("fields", PyList [PyDict [("key", PyNone); ("type", PyInt 5);
                              ("visibility", PyInt 0); ("label", PyDict [])];
                      PyDict [("type", PyStr "categorical")]])].


(** The role of a typed document that a membership names, and its
    permissions as they are stored. *)
Definition role_named (j : schemas.RDMPJSON) (n : string) : option schemas.RDMPRole :=
  find (λ r, String.eqb (schemas.name r) n) (schemas.roles j).

Definition stored_permissions (r : schemas.RDMPRole) : dict :=
  prod_map id PyBool <$> schemas.permissions r.

Definition lead_member : Membership :=
  {| m_project_id := 1; m_user_id := 7; role_name := "Lead" |}.

(** Project 1 with one RDMP version and a member in its Lead role. *)
Definition study_db : Session :=
  {| rdmp_templates := []; rdmp_template_versions := [];
     rdmp_versions := [version_of 1 1 study_plan];
     memberships := [lead_member] |}.


(** ** Versioned tables

    What [rdmp_versions] and [rdmp_template_versions] have in common: rows
    with a scope (the project or the template) and a [version_int]. *)

Section Versioned.
Context {A : Type} (scope ver : A → Z).

(** The [version_int] values of a scope, in commit order. *)
Definition versions_of (rows : list A) (s : Z) : list Z :=
  ver <$> filter (λ r, scope r = s) rows.

(** The handlers' [next_version_int] *)
Definition next_of (rows : list A) (s : Z) : Z :=
  match latest_by ver (filter (λ r, scope r = s) rows) with
  | Some latest => ver latest + 1
  | None => 1
  end.

(** The uniqueness constraint refuses [(s, v)]. *)
Definition taken (rows : list A) (s v : Z) : bool :=
  existsb (λ r, bool_decide (scope r = s ∧ ver r = v)) rows.
End Versioned.


(** Every template version belongs to a template of the table (the foreign
    key of [rdmp_template_versions]). *)
Definition templates_exist (db : Session) : Prop :=
  ∀ v, v ∈ rdmp_template_versions db →
       tv_template_id v ∈ template_id_of <$> rdmp_templates db.

(** The version numbers of every scope are [1..n] in commit order. *)
Definition contiguous (db : Session) : Prop :=
  (∀ project, ∃ n, project_versions db project = one_to n)
  ∧ (∀ template, ∃ n, template_versions db template = one_to n).

(** A later state holds the earlier one's rows, then the rows added since. *)
Definition extends (db db' : Session) : Prop :=
  rdmp_templates db `prefix_of` rdmp_templates db'
  ∧ rdmp_template_versions db `prefix_of` rdmp_template_versions db'
  ∧ rdmp_versions db `prefix_of` rdmp_versions db'.


Definition bodies_valid (float_repr : spec_float → string) (db : Session) : Prop :=
  (∀ v, v ∈ rdmp_versions db → valid_body float_repr (rdmp_json v))
  ∧ (∀ v, v ∈ rdmp_template_versions db → valid_body float_repr (template_json v)).

(** Requests used as examples: a valid plan, and one with no role at all. *)
Definition study_request : schemas.RDMPVersionCreate :=
  {| schemas.rdmp_json := study_plan; schemas.provenance_json := None |}.

Definition empty_plan : schemas.RDMPJSON :=
  {| schemas.roles := []; schemas.fields := [age_field];
     schemas.ingestion_rules := no_rules |}.

Definition empty_request : schemas.RDMPVersionCreate :=
  {| schemas.rdmp_json := empty_plan; schemas.provenance_json := None |}.

Definition alice : User := {| user_id := 1 |}.

(** The request that carries a body and no provenance. *)
Definition request_of (body : schemas.RDMPJSON) : schemas.RDMPVersionCreate :=
  {| schemas.rdmp_json := body; schemas.provenance_json := None |}.

(** A store whose project 1 has reached the last version number a column
    can hold. *)
Definition last_version_db : Session :=
  {| rdmp_templates := []; rdmp_template_versions := [];
     rdmp_versions := [version_of 1 (2 ^ 63 - 1) study_plan];
     memberships := [] |}.

(** The store after one version of [study_plan] for project 1. *)
Definition one_version_db : Session :=
  {| rdmp_templates := []; rdmp_template_versions := [];
     rdmp_versions := [version_of 1 1 study_plan];
     memberships := [] |}.

(** ** The errors of a request document, read off the typed model

    What the validator reports for a document that came through the request
    schema, written over the typed document itself.  [earlier] holds the
    names (or keys) of the entries before the current one. *)

Definition missing_perms (r : schemas.RDMPRole) : list string :=
  filter (λ p, p ∉ (schemas.permissions r).*1) required_perms.

Fixpoint typed_role_errors (earlier : list string) (roles : list schemas.RDMPRole)
    : list string :=
  match roles with
  | [] => []
  | r :: rest =>
      (if bool_decide (schemas.name r ∈ earlier)
       then ["Duplicate role name: " +:+ schemas.name r] else [])
      ++ ((λ p, "Role '" +:+ schemas.name r +:+ "' missing permission '" +:+ p +:+ "'")
            <$> missing_perms r)
      ++ typed_role_errors (earlier ++ [schemas.name r]) rest
  end.

Definition known_type (t : string) : bool :=
  bool_decide (t ∈ ["string"; "number"; "date"; "categorical"]).

Definition known_visibility (v : string) : bool :=
  bool_decide (v ∈ ["private"; "collaborators"; "public_index"]).

Fixpoint typed_field_errors (earlier : list string) (fields : list schemas.RDMPField)
    : list string :=
  match fields with
  | [] => []
  | f :: rest =>
      (if bool_decide (schemas.key f ∈ earlier)
       then ["Duplicate field key: " +:+ schemas.key f] else [])
      ++ (if known_type (schemas.type f) then []
          else ["Field '" +:+ schemas.key f +:+ "' has invalid type: " +:+ schemas.type f])
      ++ (if known_visibility (schemas.visibility f) then []
          else ["Field '" +:+ schemas.key f +:+ "' has invalid visibility: "
                +:+ schemas.visibility f])
      ++ typed_field_errors (earlier ++ [schemas.key f]) rest
  end.

Definition typed_errors (j : schemas.RDMPJSON) : list string :=
  (if schemas.roles j is [] then ["'roles' must be a non-empty list"]
   else typed_role_errors [] (schemas.roles j))
  ++ (if schemas.fields j is [] then ["'fields' must be a non-empty list"]
      else typed_field_errors [] (schemas.fields j)).

(** A document the validator accepts, said without the validator. *)
Definition well_formed (j : schemas.RDMPJSON) : Prop :=
  schemas.roles j ≠ []
  ∧ NoDup (schemas.name <$> schemas.roles j)
  ∧ Forall (λ r, ∀ p, p ∈ required_perms → p ∈ (schemas.permissions r).*1)
      (schemas.roles j)
  ∧ schemas.fields j ≠ []
  ∧ NoDup (schemas.key <$> schemas.fields j)
  ∧ Forall (λ f, known_type (schemas.type f) = true
                 ∧ known_visibility (schemas.visibility f) = true)
      (schemas.fields j).

(** The set of names the validator has seen holds exactly [earlier]. *)
Definition names_seen (names : list pyval) (earlier : list string) : Prop :=
  ∀ n, Py.list_contains (PyStr n) names = bool_decide (n ∈ earlier).

(** The errors for missing top-level keys, which come first. *)
Definition top_level_errors (body : dict) : list string :=
  (if Py.dict_has "roles" body then [] else ["Missing 'roles' key"])
  ++ (if Py.dict_has "fields" body then [] else ["Missing 'fields' key"]).

(** A value that is not a list with at least one entry. *)
Definition not_entries (v : pyval) : bool :=
  match v with
  | PyList (_ :: _) => false
  | _ => true
  end.

(** How an entry is named in a message: by its [name] (or [key]), or by its
    index when it has none. *)
Definition entry_label (float_repr : spec_float → string) (k : string) (d : dict)
    (i : nat) : string :=
  Py.text float_repr (default (index i) (Py.dict_get k d)).

(** A body whose first and third field share the key [age]. *)
Definition repeated_key_body : dict :=
  [("roles", PyList [PyDict (schemas.dump_role lead_role)]);
   ("fields", PyList [PyDict (schemas.dump_field age_field);
                      PyDict (schemas.dump_field sex_field);
                      PyDict (schemas.dump_field age_field)])].

(** A value that is a mapping. *)
Definition is_dict (v : pyval) : bool :=
  match v with PyDict _ => true | _ => false end.

(** The sample with one more FieldValue. *)
Definition with_field_value (fv : FieldValue) (sample : Sample) : Sample :=
  {| sample_project_id := sample_project_id sample;
     field_values := field_values sample ++ [fv] |}.

(** A [fields] entry that is a mapping whose [key] can be hashed. *)
Definition keyed (f : pyval) : bool :=
  match f with
  | PyDict d => from_option Py.hashable false (Py.dict_get "key" d)
  | _ => false
  end.

(** A [fields] entry that is a mapping whose [key], when it has one, can be
    hashed. *)
Definition hashable_key (f : pyval) : bool :=
  match f with
  | PyDict d => from_option Py.hashable true (Py.dict_get "key" d)
  | _ => false
  end.

(** A [fields] entry that is a mapping with a true [required]. *)
Definition requires (f : pyval) : bool :=
  match f with
  | PyDict d => Py.truthy (from_option id (PyBool false) (Py.dict_get "required" d))
  | _ => false
  end.

(** A [fields] entry that is a mapping without [key]. *)
Definition lacks_key (f : pyval) : bool :=
  match f with
  | PyDict d => negb (Py.dict_has "key" d)
  | _ => false
  end.

(** A stored document with three fields, the second one required and
    without [key]. *)
Definition unkeyed_body : dict :=
  [("fields",
    PyList [PyDict [("key", PyStr "age"); ("required", PyBool true)];
            PyDict [("label", PyStr "Sex"); ("required", PyBool true)];
            PyDict [("key", PyStr "note")]])].

Definition stored (project version : Z) (body : dict) : RDMPVersion :=
  {| rdmp_version_id := version; project_id := project; version_int := version;
     created_by := 1; rdmp_json := PyDict body; provenance_json := None |}.

(** A stored document whose fields are all optional; the second one has no
    [key]. *)
Definition optional_body : dict :=
  [("fields",
    PyList [PyDict [("key", PyStr "age"); ("required", PyBool false)];
            PyDict [("label", PyStr "Sex")]])].

(** A categorical field of a stored document that has no [allowed_values]
    at all. *)
Definition bare_categorical : dict :=
  [("key", PyStr "grade"); ("type", PyStr "categorical")].

(** The same field with its values listed. *)
Definition listed_categorical : dict :=
  [("key", PyStr "grade"); ("type", PyStr "categorical");
   ("allowed_values", PyList [PyStr "A"; PyStr "B"])].

(** * Properties *)

(** ** Builtins *)

Lemma eq_str_r (v : pyval) (s : string) : Py.eq v (PyStr s) = true ↔ v = PyStr s.
Proof.
  destruct v as [|b|z|f|t|l|d]; simpl;
    try (split; [discriminate | intros [=]]; fail).
  rewrite String.eqb_eq. split; [intros -> | intros [=]]; done.
Qed.

Lemma eq_str_r_false (v : pyval) (s : string) : v ≠ PyStr s → Py.eq v (PyStr s) = false.
Proof.
  intros Hne. destruct (Py.eq v (PyStr s)) eqn:E; [|done].
  by apply eq_str_r in E.
Qed.

(** ** Field values *)

(** C10: a field specification with no [type], or with a [type] other than
    number, categorical and date (the declared type [string] among them),
    accepts every value: the validator returns [(True, None)]. *)
Theorem validate_field_value_untyped (field_config : dict) (value : pyval) :
  (∀ t, Py.dict_get "type" field_config = Some t →
        t ∉ [PyStr "number"; PyStr "categorical"; PyStr "date"]) →
  validate_field_value field_config value = Ok (true, None).
Proof.
  intros Htype. unfold validate_field_value.
  destruct (Py.dict_get "type" field_config) as [t|] eqn:E; simpl; [|done].
  specialize (Htype t eq_refl).
  rewrite !eq_str_r_false; [done | | |]; intros ->; apply Htype; set_solver.
Qed.

Lemma validate_field_value_untyped_witness :
  validate_field_value [("key", PyStr "note"); ("type", PyStr "string")] (PyInt 7)
    = Ok (true, None)
  ∧ validate_field_value [("key", PyStr "note"); ("type", PyStr "text")] PyNone
    = Ok (true, None)
  ∧ validate_field_value [("key", PyStr "note")] (PyList []) = Ok (true, None).
Proof.
  split; [|split]; apply validate_field_value_untyped; intros t [= <-];
    rewrite ?not_elem_of_cons; repeat split; try discriminate; apply not_elem_of_nil.
Defined.

(** C9 (where the code departs from it): the validator does not always
    return a pair.  A categorical field whose [allowed_values] is [None],
    which is how the request schema dumps a field sent without the key and
    which the schema validator accepts, raises [TypeError] on any value; a
    number field raises [OverflowError] on an integer beyond the range of a
    float. *)
Theorem validate_field_value_raises :
  (∀ float_repr,
     validate_rdmp_schema float_repr (schemas.model_dump graded_plan) = Ok (true, []))
  ∧ validate_field_value (schemas.dump_field grade_field) (PyStr "A") = Raise TypeError
  ∧ validate_field_value [("type", PyStr "number")] (PyInt (10 ^ 400)) = Raise OverflowError.
Proof.
  split; [|split].
  - intros float_repr. vm_compute. reflexivity.
  - vm_compute. reflexivity.
  - vm_compute. reflexivity.
Qed.

Lemma str_join_strs (sep : string) (l : list string) :
  Py.str_join sep (PyList (PyStr <$> l)) = Ok (Py.join sep l).
Proof.
  unfold Py.str_join.
  assert (forallb Py.isinstance_str (PyStr <$> l) = true) as ->.
  { induction l as [|s l IH]; [done|]. rewrite fmap_cons. cbn [forallb]. exact IH. }
  do 2 f_equal. induction l as [|s l IH]; [done|].
  rewrite fmap_cons. cbn. f_equal. exact IH.
Qed.

(** Apart from those two cases the validator does what its branches say.
    For a field as the request schema types it, with [allowed_values] a list:
    number accepts exactly the values [float] converts, categorical exactly
    the strings of [allowed_values] and otherwise lists them, date exactly the
    strings, and any other type every value. *)
Lemma validate_field_value_typed (f : schemas.RDMPField) (value : pyval) :
  (schemas.type f = "number" → Py.float value ≠ Raise OverflowError →
     validate_field_value (schemas.dump_field f) value
     = if Py.float value is Ok _ then Ok (true, None)
       else Ok (false, Some "Value must be a number"))
  ∧ (∀ l, schemas.type f = "categorical" → schemas.allowed_values f = Some l →
       validate_field_value (schemas.dump_field f) value
       = if (if value is PyStr s then bool_decide (s ∈ l) else false)
         then Ok (true, None)
         else Ok (false, Some ("Value must be one of: " +:+ Py.join ", " l)))
  ∧ (schemas.type f = "date" →
       validate_field_value (schemas.dump_field f) value
       = if Py.isinstance_str value then Ok (true, None)
         else Ok (false, Some "Date must be a string"))
  ∧ (schemas.type f = "string" →
       validate_field_value (schemas.dump_field f) value = Ok (true, None)).
Proof.
  unfold validate_field_value. simpl. split; [|split; [|split]].
  - intros -> Hno. simpl. unfold Py.float in *.
    destruct value as [| |z| |s| |]; try done.
    + by destruct (Py.int_fits_float z).
    + by destruct (Py.float_literal s).
  - intros l -> ->. simpl.
    assert (Hin : Py.list_contains value (PyStr <$> l)
                  = if value is PyStr s then bool_decide (s ∈ l) else false).
    { unfold Py.list_contains. clear. induction l as [|s l IH].
      - by destruct value.
      - rewrite fmap_cons. cbn [existsb]. rewrite IH.
        destruct (Py.eq value (PyStr s)) eqn:Es; cbn [orb].
        + apply eq_str_r in Es as ->. symmetry. apply bool_decide_eq_true.
          apply list_elem_of_here.
        + destruct value as [| | | |t| |]; try done.
          apply bool_decide_ext. rewrite elem_of_cons. simpl in Es.
          apply String.eqb_neq in Es. split; [by right | by intros [?|?]]. }
    rewrite Hin. clear Hin. destruct (if value is PyStr s then _ else _); simpl; [done|].
    pose proof (str_join_strs ", " l) as Hj. unfold Py.str_join in Hj.
    by rewrite Hj.
  - intros ->. simpl. by destruct (Py.isinstance_str value).
  - intros ->. done.
Qed.

(** ** Completeness *)

Lemma model_dump_declares (j : schemas.RDMPJSON) :
  Forall2 declares (PyDict ∘ schemas.dump_field <$> schemas.fields j) (declared_fields j).
Proof.
  unfold declared_fields. induction (schemas.fields j) as [|f fs IH]; simpl.
  - constructor.
  - constructor; [|exact IH]. exists (schemas.dump_field f). done.
Qed.

Lemma required_comprehension (fs : list pyval) (decls : list (string * bool)) :
  Forall2 declares fs decls →
  ∃ rf, comprehension (λ f, Py.truthy <$> Py.get f "required" (PyBool false)) Ok fs = Ok rf
        ∧ Forall2 declares rf (filter (λ d, d.2 = true) decls).
Proof.
  induction 1 as [|f decl fs decls (d & -> & Hk & Hr) _ (rf & IH & Hrf)]; simpl.
  - exists []. split; [done | constructor].
  - rewrite Hr, IH. destruct decl as [k [|]]; simpl in *.
    + rewrite filter_cons_True by done. exists (PyDict d :: rf). split; [done|].
      constructor; [|done]. by exists d.
    + rewrite filter_cons_False by done. by exists rf.
Qed.

Lemma missing_comprehension (keys : gset string) (rf : list pyval)
    (decls : list (string * bool)) :
  Forall2 declares rf decls →
  comprehension
    (λ f, let! k := Py.getitem f "key" in negb <$> in_key_set k keys)
    (λ f, Py.getitem f "key") rf
  = Ok (PyStr ∘ fst <$> filter (λ d, d.1 ∉ keys) decls).
Proof.
  induction 1 as [|f decl fs decls (d & -> & Hk & Hr) _ IH]; simpl; [done|].
  rewrite Hk. simpl. rewrite IH. destruct (decide (decl.1 ∈ keys)) as [Hin|Hin].
  - rewrite bool_decide_eq_true_2 by done. simpl.
    rewrite filter_cons_False; [done | by intros ?].
  - rewrite bool_decide_eq_false_2 by done. simpl.
    by rewrite filter_cons_True.
Qed.

Lemma size_key_set (keys : list string) :
  size (list_to_set (C:=gset string) keys) = length (remove_dups keys).
Proof.
  rewrite <- (size_list_to_set (C:=gset string) (remove_dups keys))
    by apply NoDup_remove_dups.
  f_equal. apply set_eq. intros k.
  by rewrite !elem_of_list_to_set, elem_of_remove_dups.
Qed.

(** C8: for a sample and an RDMP version whose fields are declared as
    [decls], the check returns [total_required] = the number of fields with
    [required] true, [missing_fields] = the required keys with no FieldValue
    on the sample, in declaration order, [total_filled] = the number of
    distinct keys among the sample's FieldValues, required or not, and
    [is_complete] true iff [missing_fields] is empty. *)
Theorem check_sample_completeness_spec (sample : Sample) (rdmp : RDMPVersion)
    (body : dict) (fs : list pyval) (decls : list (string * bool)) :
  rdmp_json rdmp = PyDict body →
  Py.dict_get "fields" body = Some (PyList fs) →
  Forall2 declares fs decls →
  ∃ c, check_sample_completeness sample rdmp = Ok c
       ∧ total_required c = spec_total_required decls
       ∧ missing_fields c = spec_missing_fields decls sample
       ∧ total_filled c = spec_total_filled sample
       ∧ (is_complete c = true ↔ missing_fields c = []).
Proof.
  intros Hjson Hfields Hdecl. unfold check_sample_completeness.
  rewrite Hjson. simpl. rewrite Hfields. simpl.
  destruct (required_comprehension fs decls Hdecl) as (rf & -> & Hrf). simpl.
  rewrite (missing_comprehension _ rf _ Hrf). simpl.
  eexists. split; [reflexivity|]. simpl. repeat split.
  - by apply Forall2_length in Hrf.
  - unfold spec_missing_fields. rewrite list_filter_filter. f_equal.
    apply list_filter_iff. intros [k r]. simpl. unfold filled_keys.
    rewrite elem_of_list_to_set. tauto.
  - apply size_key_set.
  - intros H%bool_decide_eq_true. by apply length_zero_iff_nil.
  - intros ->. done.
Qed.

Lemma check_sample_completeness_spec_witness :
  ∃ c, check_sample_completeness (sample_with ["age"; "note"; "age"])
         (version_of 1 1 study_plan) = Ok c
       ∧ total_required c = 2%nat
       ∧ missing_fields c = [PyStr "sex"]
       ∧ total_filled c = 2%nat
       ∧ (is_complete c = true ↔ missing_fields c = []).
Proof.
  exact (check_sample_completeness_spec (sample_with ["age"; "note"; "age"])
           (version_of 1 1 study_plan) (schemas.model_dump study_plan) _
           (declared_fields study_plan) eq_refl eq_refl (model_dump_declares study_plan)).
Defined.

(** ** The schema validator *)

Lemma grows_refl s : grows s s.
Proof. split; [done | auto]. Qed.

Lemma grows_trans s1 s2 s3 : grows s1 s2 → grows s2 s3 → grows s1 s3.
Proof. intros [H1 H2] [H3 H4]. split; [by etrans | auto]. Qed.

Lemma for_enumerate_app {A St} (body : nat → A → St → result St) l1 l2 i s :
  for_enumerate body i (l1 ++ l2) s
  = let! s1 := for_enumerate body i l1 s in for_enumerate body (i + length l1) l2 s1.
Proof.
  revert i s. induction l1 as [|x l1 IH]; intros i s; simpl.
  - by rewrite Nat.add_0_r.
  - destruct (body i x s) as [s'|e]; simpl; [|done].
    rewrite IH. by rewrite Nat.add_succ_r.
Qed.

Lemma forallb_Forall {A} (f : A → bool) (l : list A) :
  forallb f l = true ↔ Forall (λ x, f x = true) l.
Proof.
  induction l as [|x l IH]; simpl.
  - split; [constructor | done].
  - rewrite andb_true_iff, Forall_cons, IH. done.
Qed.

Section Loops.
Context {A : Type} (body : nat → A → list string * list pyval
                          → result (list string * list pyval)).
Context (shaped : A → bool).
Hypothesis body_grows :
  ∀ i x s, shaped x = true → ∃ s', body i x s = Ok s' ∧ grows s s'.

Lemma for_enumerate_grows (l : list A) (i : nat) s :
  Forall (λ x, shaped x = true) l →
  ∃ s', for_enumerate body i l s = Ok s' ∧ grows s s'.
Proof.
  revert i s. induction l as [|x l IH]; intros i s Hl; simpl.
  - exists s. split; [done | apply grows_refl].
  - apply Forall_cons in Hl as [Hx Hl].
    destruct (body_grows i x s Hx) as (s1 & -> & Hg1). simpl.
    destruct (IH (S i) s1 Hl) as (s2 & -> & Hg2).
    exists s2. split; [done | by eapply grows_trans].
Qed.

(** The run of the loop around its [k]-th entry. *)
Lemma for_enumerate_at (l : list A) (k : nat) (x : A) (i : nat) s :
  Forall (λ x, shaped x = true) l →
  l !! k = Some x →
  ∃ s1 s2 s3,
    grows s s1
    ∧ body (i + k) x s1 = Ok s2
    ∧ for_enumerate body (S (i + k)) (drop (S k) l) s2 = Ok s3
    ∧ grows s2 s3
    ∧ for_enumerate body i l s = Ok s3.
Proof.
  intros Hl Hk.
  pose proof (take_drop_middle l k x Hk) as Hsplit.
  assert (Hlen : length (take k l) = k).
  { apply length_take_le. apply lookup_lt_Some in Hk. lia. }
  rewrite <- Hsplit in Hl. apply Forall_app in Hl as [H1 Hl].
  apply Forall_cons in Hl as [Hx H2].
  destruct (for_enumerate_grows (take k l) i s H1) as (s1 & E1 & G1).
  destruct (body_grows (i + k) x s1 Hx) as (s2 & E2 & G2).
  destruct (for_enumerate_grows (drop (S k) l) (S (i + k)) s2 H2) as (s3 & E3 & G3).
  exists s1, s2, s3. split; [done|]. split; [done|]. split; [done|]. split; [done|].
  rewrite <- Hsplit, for_enumerate_app, E1. simpl. rewrite Hlen, E2. done.
Qed.
End Loops.

Lemma set_add_mono (x y : pyval) (s : list pyval) :
  Py.list_contains x s = true → Py.list_contains x (Py.set_add y s) = true.
Proof.
  intros Hx. unfold Py.set_add. destruct (Py.list_contains y s); [done|].
  unfold Py.list_contains in *. rewrite existsb_app, Hx. done.
Qed.

Lemma set_add_str (n : string) (s : list pyval) :
  Py.list_contains (PyStr n) (Py.set_add (PyStr n) s) = true.
Proof.
  unfold Py.set_add. destruct (Py.list_contains (PyStr n) s) eqn:E; [done|].
  unfold Py.list_contains. rewrite existsb_app. simpl.
  rewrite String.eqb_refl. by rewrite orb_true_r.
Qed.

Lemma contains_str_supported (k : string) (v : pyval) :
  supports_in v = true → ∃ b, Py.contains (PyStr k) v = Ok b.
Proof. destruct v; try discriminate; intros _; simpl; eauto. Qed.

Lemma plain_hashable (v : pyval) : Py.plain v = true → Py.hashable v = true.
Proof. by destruct v. Qed.

Lemma plain_texts_ok (v : pyval) : Py.plain v = true → Py.texts_ok v = true.
Proof. by destruct v. Qed.

Section ValidatorFacts.
Variable float_repr : spec_float → string.

Lemma str_plain (v : pyval) :
  Py.plain v = true → Py.str float_repr v = Ok (Py.text float_repr v).
Proof. intros H. unfold Py.str. by rewrite plain_texts_ok. Qed.

Lemma str_cases (v : pyval) :
  Py.str float_repr v = Ok (Py.text float_repr v)
  ∨ Py.str float_repr v = Raise ValueError.
Proof. unfold Py.str. destruct (Py.texts_ok v); auto. Qed.

Lemma str_index (i : nat) : Py.str float_repr (index i) = Ok (pretty i).
Proof. done. Qed.

(** The label of an entry whose [name] (or [key]) is plain is written
    without error. *)
Lemma str_label (k : string) (d : dict) (i : nat) :
  from_option Py.plain true (Py.dict_get k d) = true →
  Py.str float_repr (default (index i) (Py.dict_get k d))
  = Ok (entry_label float_repr k d i).
Proof.
  unfold entry_label. destruct (Py.dict_get k d) as [v|]; simpl; [|done].
  apply str_plain.
Qed.

Lemma require_perm_loop (i : nat) (d : dict) (perms : pyval) (l : list string)
    (errors : list string) :
  from_option Py.plain true (Py.dict_get "name" d) = true →
  supports_in perms = true →
  ∃ errors', for_each (require_perm float_repr i (PyDict d) perms) l errors = Ok errors'
             ∧ errors `prefix_of` errors'.
Proof.
  intros Hn Hp. revert errors. induction l as [|perm l IH]; intros errors; simpl.
  - by exists errors.
  - unfold require_perm at 1.
    destruct (contains_str_supported perm perms Hp) as [b ->]. simpl.
    destruct b; simpl.
    + apply IH.
    + rewrite (str_label "name" d i Hn). simpl.
      destruct (IH (errors ++ ["Role '" +:+ entry_label float_repr "name" d i
          +:+ "' missing permission '" +:+ perm +:+ "'"])) as (e & -> & Hpre).
      exists e. split; [done|]. etrans; [|exact Hpre]. by apply prefix_app_r.
Qed.

Lemma validate_role_shaped (i : nat) (r : pyval) (s : list string * list pyval) :
  role_shaped r = true →
  ∃ s', validate_role float_repr i r s = Ok s' ∧ grows s s'
    ∧ ∀ d n, r = PyDict d → Py.dict_get "name" d = Some (PyStr n) →
        Py.list_contains (PyStr n) s'.2 = true
        ∧ (Py.list_contains (PyStr n) s.2 = true →
           "Duplicate role name: " +:+ n ∈ s'.1).
Proof.
  destruct r as [| | | | |?|d]; try discriminate. destruct s as [errors names].
  intros [Hname Hperms]%andb_true_iff. unfold validate_role.
  simpl. unfold Py.dict_has.
  pose proof Hname as Hlabel.
  destruct (Py.dict_get "name" d) as [name|] eqn:En; rewrite <- En in Hlabel;
    simpl in Hname |- *.
  - unfold Py.set_contains. rewrite (plain_hashable _ Hname). simpl.
    rewrite (str_plain _ Hname).
    assert (Hdup : (if Py.list_contains name names
                    then let! name0 := Ok (Py.text float_repr name) in
                         Ok (errors ++ ["Duplicate role name: " +:+ name0])
                    else Ok errors)
                   = Ok (if Py.list_contains name names
                         then errors ++ ["Duplicate role name: "
                                         +:+ Py.text float_repr name]
                         else errors))
      by by destruct (Py.list_contains name names).
    rewrite Hdup. clear Hdup. simpl.
    destruct (Py.dict_get "permissions" d) as [perms|] eqn:Ep; simpl in *.
    + destruct (require_perm_loop i d perms required_perms
          (if Py.list_contains name names
           then errors ++ ["Duplicate role name: " +:+ Py.text float_repr name]
           else errors) Hlabel Hperms) as (e & He & Hpre).
      simpl in He. rewrite He.
      eexists. split; [done|]. simpl. split; [split|]; simpl.
      * etrans; [|exact Hpre]. destruct (Py.list_contains name names); [|done].
        by apply prefix_app_r.
      * intros x. apply set_add_mono.
      * intros ? n [= <-]. rewrite En. intros [= ->]. split; [apply set_add_str|].
        intros Hdup. rewrite Hdup in Hpre.
        eapply elem_of_prefix; [|exact Hpre]. set_solver.
    + eexists. split; [done|]. simpl. split; [split|]; simpl.
      * destruct (Py.list_contains name names); rewrite <- ?app_assoc;
          by apply prefix_app_r.
      * intros x. apply set_add_mono.
      * intros ? n [= <-]. rewrite En. intros [= ->]. split; [apply set_add_str|].
        intros ->. set_solver.
  - destruct (Py.dict_get "permissions" d) as [perms|] eqn:Ep; simpl in *.
    + destruct (require_perm_loop i d perms required_perms
          (errors ++ ["Role " +:+ pretty i +:+ " missing 'name'"]) Hlabel Hperms)
        as (e & He & Hpre).
      simpl in He. rewrite He.
      eexists. split; [done|]. simpl. split; [split|]; simpl.
      * etrans; [|exact Hpre]. by apply prefix_app_r.
      * auto.
      * intros ? n [= <-]. by rewrite En.
    + eexists. split; [done|]. simpl. split; [split|]; simpl.
      * rewrite <- app_assoc. by apply prefix_app_r.
      * auto.
      * intros ? n [= <-]. by rewrite En.
Qed.

Lemma validate_field_shaped (i : nat) (f : pyval) (s : list string * list pyval) :
  field_shaped f = true →
  ∃ s', validate_field float_repr i f s = Ok s' ∧ grows s s'.
Proof.
  destruct f as [| | | | |?|d]; try discriminate. destruct s as [errors keys].
  intros [[Hkey Hty]%andb_true_iff Hvis]%andb_true_iff.
  unfold validate_field. simpl. unfold Py.dict_has, Py.set_contains.
  destruct (Py.dict_get "key" d) as [key|]; simpl in Hkey |- *;
    [rewrite (plain_hashable _ Hkey), ?(str_plain _ Hkey)|]; simpl;
    destruct (Py.dict_get "label" d); simpl;
    (destruct (Py.dict_get "type" d) as [ty|]; simpl in Hty |- *;
     [rewrite ?(str_plain _ Hty)|]); simpl;
    (destruct (Py.dict_get "visibility" d) as [vis|]; simpl in Hvis |- *;
     [rewrite ?(str_plain _ Hvis)|]); simpl;
    destruct (Py.dict_get "allowed_values" d); simpl;
    repeat (match goal with
            | |- context [if ?b then _ else _] => destruct b eqn:?
            end; simpl);
    (eexists; split; [reflexivity|]; split; simpl;
     [ repeat rewrite <- app_assoc; first [done | by apply prefix_app_r]
     | first [ intros x; apply set_add_mono | auto ] ]).
Qed.

Lemma validate_field_categorical (i : nat) (d : dict) (s s' : list string * list pyval) :
  field_shaped (PyDict d) = true →
  Py.dict_get "type" d = Some (PyStr "categorical") →
  Py.dict_get "allowed_values" d = None →
  validate_field float_repr i (PyDict d) s = Ok s' →
  "Categorical field '" +:+ entry_label float_repr "key" d i
    +:+ "' missing 'allowed_values'" ∈ s'.1.
Proof.
  destruct s as [errors keys].
  intros [[Hkey _]%andb_true_iff Hvis]%andb_true_iff Et Ea.
  unfold validate_field, entry_label. simpl. unfold Py.dict_has. rewrite Et, Ea. simpl.
  destruct (Py.dict_get "key" d) as [key|]; simpl in Hkey |- *;
    [rewrite ?(str_plain _ Hkey);
     destruct (Py.set_contains key keys) as [[|]|]; simpl; try discriminate|];
    destruct (Py.dict_get "label" d); simpl;
    (destruct (Py.dict_get "visibility" d) as [vis|]; simpl in Hvis |- *;
     [rewrite ?(str_plain _ Hvis)|]); simpl;
    repeat (match goal with
            | |- context [if ?b then _ else _] => destruct b eqn:?
            end; simpl);
    intros [= <-]; simpl; rewrite !elem_of_app; right;
    apply list_elem_of_singleton; done.
Qed.

Lemma role_step_grows i r s :
  role_shaped r = true → ∃ s', validate_role float_repr i r s = Ok s' ∧ grows s s'.
Proof.
  intros Hr. destruct (validate_role_shaped i r s Hr) as (s' & ? & ? & _). eauto.
Qed.

(** Two entries of the same name: the second one is reported. *)
Lemma roles_loop_duplicate (roles : list pyval) (i j : nat) (di dj : dict)
    (n : string) s :
  Forall (λ r, role_shaped r = true) roles →
  (i < j)%nat →
  roles !! i = Some (PyDict di) → Py.dict_get "name" di = Some (PyStr n) →
  roles !! j = Some (PyDict dj) → Py.dict_get "name" dj = Some (PyStr n) →
  ∃ s', for_enumerate (validate_role float_repr) 0 roles s = Ok s'
        ∧ grows s s' ∧ "Duplicate role name: " +:+ n ∈ s'.1.
Proof.
  intros Hroles Hij Hi Hni Hj Hnj.
  destruct (for_enumerate_at _ _ role_step_grows roles i _ 0 s Hroles Hi)
    as (s1 & s2 & s3 & G1 & E2 & E3 & G3 & E).
  assert (Htail : Forall (λ r, role_shaped r = true) (drop (S i) roles))
    by by apply Forall_drop.
  assert (Hj' : drop (S i) roles !! (j - S i)%nat = Some (PyDict dj)).
  { rewrite lookup_drop. rewrite <- Hj. f_equal. lia. }
  destruct (for_enumerate_at _ _ role_step_grows _ _ _ (S (0 + i)) s2 Htail Hj')
    as (t1 & t2 & t3 & F1 & F2 & F3 & F4 & F).
  rewrite E3 in F. injection F as <-.
  exists s3. split; [done|]. split.
  { eapply grows_trans; [exact G1|]. eapply grows_trans; [|exact G3].
    destruct (validate_role_shaped (0 + i) (PyDict di) s1) as (? & E2' & G2 & _).
    { eapply Forall_lookup_1 in Hroles; [|exact Hi]. done. }
    rewrite E2 in E2'. by injection E2' as <-. }
  destruct (validate_role_shaped (0 + i) (PyDict di) s1) as (? & E2' & _ & Hseen).
  { eapply Forall_lookup_1 in Hroles; [|exact Hi]. done. }
  rewrite E2 in E2'. injection E2' as <-.
  destruct (Hseen di n eq_refl Hni) as [Hin _].
  destruct (validate_role_shaped (S (0 + i) + (j - S i)) (PyDict dj) t1)
    as (? & F2' & _ & Hdup).
  { eapply Forall_lookup_1 in Htail; [|exact Hj']. done. }
  rewrite F2 in F2'. injection F2' as <-.
  destruct (Hdup dj n eq_refl Hnj) as [_ Hmsg].
  eapply elem_of_prefix; [|exact (proj1 F4)].
  apply Hmsg. by apply (proj2 F1).
Qed.

(** An entry of type categorical without [allowed_values] is reported. *)
Lemma fields_loop_categorical (fields : list pyval) (i : nat) (d : dict) s :
  Forall (λ f, field_shaped f = true) fields →
  fields !! i = Some (PyDict d) →
  Py.dict_get "type" d = Some (PyStr "categorical") →
  Py.dict_get "allowed_values" d = None →
  ∃ s', for_enumerate (validate_field float_repr) 0 fields s = Ok s'
        ∧ grows s s'
        ∧ "Categorical field '" +:+ entry_label float_repr "key" d i
            +:+ "' missing 'allowed_values'" ∈ s'.1.
Proof.
  intros Hfields Hi Ht Ha.
  destruct (for_enumerate_at _ _ validate_field_shaped fields i _ 0 s Hfields Hi)
    as (s1 & s2 & s3 & G1 & E2 & E3 & G3 & E).
  exists s3. split; [done|]. split.
  - eapply grows_trans; [exact G1|]. eapply grows_trans; [|exact G3].
    destruct (validate_field_shaped (0 + i) (PyDict d) s1) as (? & E2' & G2).
    { eapply Forall_lookup_1 in Hfields; [|exact Hi]. done. }
    rewrite E2 in E2'. by injection E2' as <-.
  - eapply elem_of_prefix; [|exact (proj1 G3)].
    eapply (validate_field_categorical (0 + i)); [|done|done|exact E2].
    by eapply Forall_lookup_1 in Hfields.
Qed.
End ValidatorFacts.

Section ValidatorTheorems.
Variable float_repr : spec_float → string.

(** One pass of the validator, over [roles] or over [fields]. *)
Lemma pass_grows (body : nat → pyval → list string * list pyval
                         → result (list string * list pyval))
    (shaped : pyval → bool) (msg : string) (v : option pyval) (errors : list string) :
  (∀ i x s, shaped x = true → ∃ s', body i x s = Ok s' ∧ grows s s') →
  entries_shaped shaped v = true →
  ∃ errors',
    match v with
    | Some entries =>
        match entries with
        | PyList ((_ :: _) as l) => fst <$> for_enumerate body 0 l (errors, [])
        | _ => Ok (errors ++ [msg])
        end
    | None => Ok errors
    end = Ok errors'
    ∧ errors `prefix_of` errors'
    ∧ ∀ l, v = Some (PyList l) → l ≠ [] →
        fst <$> for_enumerate body 0 l (errors, []) = Ok errors'.
Proof.
  intros Hstep Hv. destruct v as [[| | | | |[|x l]|]|]; simpl in *;
    try (eexists; split; [reflexivity|]; split;
         [first [done | by apply prefix_app_r] | intros ? [=]; congruence]).
  change (forallb shaped (x :: l) = true) in Hv. apply forallb_Forall in Hv.
  destruct (for_enumerate_grows body shaped Hstep (x :: l) 0 (errors, []) Hv)
    as (s' & E & [G _]).
  simpl in E. rewrite E. simpl. eexists. split; [done|]. split; [done|].
  intros ? [= <-] _. simpl. by rewrite E.
Qed.

Lemma ok_iff_no_errors (errors : list string) :
  bool_decide (length errors = 0%nat) = true ↔ errors = [].
Proof. rewrite bool_decide_eq_true. apply length_zero_iff_nil. Qed.

Lemma not_ok_with_error (errors : list string) (msg : string) :
  msg ∈ errors → bool_decide (length errors = 0%nat) = false.
Proof.
  intros Hin. apply bool_decide_eq_false. intros ->%length_zero_iff_nil.
  by apply not_elem_of_nil in Hin.
Qed.

(** The two passes on a body of the expected shape: [e0] are the errors
    before the pass over [roles], [e1] after it, [e2] after the pass over
    [fields]. *)
Lemma validate_rdmp_schema_passes (body : dict) :
  body_shaped body = true →
  ∃ e0 e1 e2,
    validate_rdmp_schema float_repr body = Ok (bool_decide (length e2 = 0%nat), e2)
    ∧ e1 `prefix_of` e2
    ∧ (∀ l, Py.dict_get "roles" body = Some (PyList l) → l ≠ [] →
         fst <$> for_enumerate (validate_role float_repr) 0 l (e0, []) = Ok e1)
    ∧ (∀ l, Py.dict_get "fields" body = Some (PyList l) → l ≠ [] →
         fst <$> for_enumerate (validate_field float_repr) 0 l (e1, []) = Ok e2).
Proof.
  intros [Hr Hf]%andb_true_iff. unfold validate_rdmp_schema.
  edestruct (pass_grows (validate_role float_repr) role_shaped) as (e1 & -> & _ & H1);
    [apply role_step_grows | exact Hr |].
  simpl.
  edestruct (pass_grows (validate_field float_repr) field_shaped) as (e2 & -> & P2 & H2);
    [apply validate_field_shaped | exact Hf |].
  simpl. eauto 10.
Qed.

Lemma validate_rdmp_schema_shaped (body : dict) :
  body_shaped body = true →
  ∃ errors, validate_rdmp_schema float_repr body
            = Ok (bool_decide (length errors = 0%nat), errors).
Proof.
  intros Hb. destruct (validate_rdmp_schema_passes body Hb) as (? & ? & e2 & E & _).
  eauto.
Qed.

(** C3, as the code has it: on a body in which every [roles] entry is a
    mapping whose [name], when present, is no list or mapping nor an [int]
    of more than 4300 digits and whose [permissions], when present, is a
    mapping, a list or a [str], and every [fields] entry is a mapping whose
    [key], [type] and [visibility], when present, are no list or mapping
    nor an [int] of more than 4300 digits, the validator returns a pair
    [(ok, errors)], whatever keys are missing and whatever the other values
    are; [ok] is true exactly when [errors] is empty. *)
Theorem validate_rdmp_schema_returns (body : dict) :
  body_shaped body = true →
  ∃ ok errors, validate_rdmp_schema float_repr body = Ok (ok, errors)
               ∧ (ok = true ↔ errors = []).
Proof.
  intros Hb. destruct (validate_rdmp_schema_shaped body Hb) as (errors & E).
  eexists _, errors. split; [exact E | apply ok_iff_no_errors].
Qed.

(** C7, as the code has it: on a body of the shape of [body_shaped] (every
    [roles] entry a mapping whose [name], when present, is no list or
    mapping nor an [int] of more than 4300 digits and whose [permissions],
    when present, is a mapping, a list or a [str]; every [fields] entry a
    mapping whose [key], [type] and [visibility], when present, are no list
    or mapping nor such an [int]), two roles of the same name make the
    validator fail and report the duplicate, and a field of type categorical
    that has no [allowed_values] makes it fail and report the field, by its
    key or, without one, by its index. *)
Theorem validate_rdmp_schema_reports (body : dict) :
  body_shaped body = true →
  (∀ roles i j di dj n,
     Py.dict_get "roles" body = Some (PyList roles) →
     (i < j)%nat →
     roles !! i = Some (PyDict di) → Py.dict_get "name" di = Some (PyStr n) →
     roles !! j = Some (PyDict dj) → Py.dict_get "name" dj = Some (PyStr n) →
     ∃ errors, validate_rdmp_schema float_repr body = Ok (false, errors)
               ∧ "Duplicate role name: " +:+ n ∈ errors)
  ∧ (∀ fields i d,
       Py.dict_get "fields" body = Some (PyList fields) →
       fields !! i = Some (PyDict d) →
       Py.dict_get "type" d = Some (PyStr "categorical") →
       Py.dict_get "allowed_values" d = None →
       ∃ errors, validate_rdmp_schema float_repr body = Ok (false, errors)
                 ∧ "Categorical field '" +:+ entry_label float_repr "key" d i
                     +:+ "' missing 'allowed_values'" ∈ errors).
Proof.
  intros Hb. pose proof Hb as [Hr Hf]%andb_true_iff.
  destruct (validate_rdmp_schema_passes body Hb) as (e0 & e1 & e2 & E & P & H1 & H2).
  split.
  - intros roles i j di dj n Hroles Hij Hi Hni Hj Hnj.
    rewrite Hroles in Hr. simpl in Hr. apply forallb_Forall in Hr.
    destruct (roles_loop_duplicate float_repr roles i j di dj n (e0, [])
                Hr Hij Hi Hni Hj Hnj) as (s' & Eloop & _ & Hmsg).
    specialize (H1 roles Hroles). rewrite Eloop in H1. simpl in H1.
    assert (He1 : Ok s'.1 = Ok e1).
    { apply H1. intros ->. by rewrite lookup_nil in Hi. }
    injection He1 as <-.
    assert (Hin : "Duplicate role name: " +:+ n ∈ e2) by by eapply elem_of_prefix.
    exists e2. by rewrite E, (not_ok_with_error _ _ Hin).
  - intros fields i d Hfields Hi Ht Ha.
    rewrite Hfields in Hf. simpl in Hf. apply forallb_Forall in Hf.
    destruct (fields_loop_categorical float_repr fields i d (e1, [])
                Hf Hi Ht Ha) as (s' & Eloop & _ & Hmsg).
    specialize (H2 fields Hfields). rewrite Eloop in H2. simpl in H2.
    assert (He2 : Ok s'.1 = Ok e2).
    { apply H2. intros ->. by rewrite lookup_nil in Hi. }
    injection He2 as <-.
    exists s'.1. by rewrite E, (not_ok_with_error _ _ Hmsg).
Qed.
End ValidatorTheorems.

Lemma validate_rdmp_schema_returns_witness :
  ∃ ok errors, validate_rdmp_schema no_float_repr ragged_body = Ok (ok, errors)
               ∧ (ok = true ↔ errors = []).
Proof. exact (validate_rdmp_schema_returns no_float_repr ragged_body eq_refl). Defined.

(** C3, as the specification has it, fails: an entry of [roles] that is not
    a mapping makes the validator raise [TypeError], and an entry of [fields]
    that is not a mapping makes it raise [AttributeError]. *)
Lemma validate_rdmp_schema_raises :
  validate_rdmp_schema no_float_repr
    [("roles", PyList [PyInt 1]); ("fields", PyList [PyDict (schemas.dump_field age_field)])]
    = Raise TypeError
  ∧ validate_rdmp_schema no_float_repr
      [("roles", PyList [PyDict (schemas.dump_role lead_role)]); ("fields", PyList [PyStr "age"])]
    = Raise AttributeError.
Proof. split; reflexivity. Qed.

Lemma validate_rdmp_schema_reports_witness :
  (∃ errors, validate_rdmp_schema no_float_repr two_leads = Ok (false, errors)
             ∧ "Duplicate role name: Lead" ∈ errors)
  ∧ (∃ errors, validate_rdmp_schema no_float_repr two_leads = Ok (false, errors)
               ∧ "Categorical field 'grade' missing 'allowed_values'" ∈ errors).
Proof.
  destruct (validate_rdmp_schema_reports no_float_repr two_leads eq_refl) as [Hdup Hcat].
  split.
  - exact (Hdup _ 0%nat 1%nat _ _ "Lead" eq_refl (Nat.lt_0_1) eq_refl eq_refl
             eq_refl eq_refl).
  - exact (Hcat _ 0%nat _ eq_refl eq_refl eq_refl eq_refl).
Defined.

(** C7, as the specification has it, fails: a body with two roles of the
    same name is not always reported.  When a [fields] entry is no mapping
    the validator raises [AttributeError], and when a later role must be
    named in a message and its name is an [int] of more than 4300 digits it
    raises [ValueError]; in both cases the duplicate found before is lost
    with the list of errors. *)
Lemma validate_rdmp_schema_duplicate_lost :
  validate_rdmp_schema no_float_repr two_leads_bare_field = Raise AttributeError
  ∧ validate_rdmp_schema no_float_repr two_leads_long_name = Raise ValueError.
Proof. split; vm_compute; reflexivity. Qed.

(** What [model_dump] produces has the shape the validator walks. *)
Lemma model_dump_shaped (j : schemas.RDMPJSON) :
  body_shaped (schemas.model_dump j) = true.
Proof.
  unfold body_shaped. simpl. apply andb_true_iff. split.
  - induction (schemas.roles j) as [|r l IH]; [done|]. simpl. exact IH.
  - induction (schemas.fields j) as [|f l IH]; [done|]. simpl. exact IH.
Qed.

(** ** Permissions *)

Lemma next_role_dumped (roles : list schemas.RDMPRole) (n : string) :
  next_role (PyDict ∘ schemas.dump_role <$> roles) n
  = Ok (PyDict ∘ schemas.dump_role <$> find (λ r, String.eqb (schemas.name r) n) roles).
Proof.
  induction roles as [|r roles IH]; simpl; [done|].
  destruct (String.eqb (schemas.name r) n); [done | exact IH].
Qed.

(** A role step that leaves no error has found every permission key. *)
Lemma validate_role_clean float_repr (i : nat) (d perms : dict) s s' :
  role_shaped (PyDict d) = true →
  validate_role float_repr i (PyDict d) s = Ok s' → s'.1 = [] →
  Py.dict_get "permissions" d = Some (PyDict perms) →
  ∀ p, p ∈ required_perms → Py.dict_has p perms = true.
Proof.
  destruct s as [errors names]. unfold validate_role. simpl.
  intros [Hname _]%andb_true_iff E Hclean Hp. rewrite Hp in E.
  unfold Py.dict_has at 1 2 in E.
  rewrite Hp in E. simpl in E. unfold require_perm in E. simpl in E.
  assert (Hnil : ∀ (l : list string) x, l ++ [x] = [] → False).
  { intros l x [_ [=]]%app_eq_nil. }
  intros p Hin.
  destruct (Py.dict_get "name" d) as [name|]; simpl in Hname, E;
    [rewrite ?(str_plain float_repr _ Hname) in E;
     destruct (Py.set_contains name names) as [[|]|]; simpl in E; [| |done]|];
    destruct (Py.dict_has "can_edit_metadata" perms) eqn:P1;
    destruct (Py.dict_has "can_edit_paths" perms) eqn:P2;
    destruct (Py.dict_has "can_create_release" perms) eqn:P3;
    destruct (Py.dict_has "can_manage_rdmp" perms) eqn:P4;
    simpl in E; injection E as <-; simpl in Hclean;
    try (by apply Hnil in Hclean);
    repeat (apply elem_of_cons in Hin as [-> | Hin]; [done|]);
    by apply not_elem_of_nil in Hin.
Qed.

Lemma roles_loop_clean float_repr (roles : list pyval) (i : nat) s s' :
  Forall (λ r, role_shaped r = true) roles →
  for_enumerate (validate_role float_repr) i roles s = Ok s' → s'.1 = [] →
  ∀ d perms, PyDict d ∈ roles → Py.dict_get "permissions" d = Some (PyDict perms) →
    ∀ p, p ∈ required_perms → Py.dict_has p perms = true.
Proof.
  intros Hshaped. revert i s.
  induction Hshaped as [|r roles Hr Hroles IH]; intros i s E Hclean d perms Hin.
  { by apply not_elem_of_nil in Hin. }
  simpl in E. destruct (validate_role float_repr i r s) as [s1|] eqn:E1; [|done].
  simpl in E.
  destruct (for_enumerate_grows _ _ (role_step_grows float_repr) roles (S i) s1 Hroles)
    as (s2 & E2 & [G _]).
  rewrite E in E2. injection E2 as <-. rewrite Hclean in G.
  apply prefix_nil_inv in G.
  apply elem_of_cons in Hin as [<- | Hin].
  - by eapply validate_role_clean.
  - by eapply IH.
Qed.

(** Every role of a document that passes the validator has the four keys. *)
Lemma valid_roles_complete float_repr (j : schemas.RDMPJSON) (r : schemas.RDMPRole) :
  validate_rdmp_schema float_repr (schemas.model_dump j) = Ok (true, []) →
  r ∈ schemas.roles j →
  ∀ p, p ∈ required_perms → Py.dict_has p (stored_permissions r) = true.
Proof.
  intros Hvalid Hr.
  destruct (validate_rdmp_schema_passes float_repr _ (model_dump_shaped j))
    as (e0 & e1 & e2 & E & P & H1 & _).
  rewrite Hvalid in E. injection E as _ <-. apply prefix_nil_inv in P. subst e1.
  specialize (H1 _ eq_refl).
  destruct (for_enumerate (validate_role float_repr) 0
              (PyDict ∘ schemas.dump_role <$> schemas.roles j) (e0, [])) as [s'|] eqn:E.
  2: { exfalso. assert (Hne : PyDict ∘ schemas.dump_role <$> schemas.roles j ≠ []).
       { intros Hnil%fmap_nil_inv. rewrite Hnil in Hr. by apply not_elem_of_nil in Hr. }
       by specialize (H1 Hne). }
  assert (Hclean : s'.1 = []).
  { assert (Hne : PyDict ∘ schemas.dump_role <$> schemas.roles j ≠ []).
    { intros Hnil%fmap_nil_inv. rewrite Hnil in Hr. by apply not_elem_of_nil in Hr. }
    specialize (H1 Hne). simpl in H1. by injection H1. }
  intros p Hp.
  assert (Hshape : Forall (λ r, role_shaped r = true)
                     (PyDict ∘ schemas.dump_role <$> schemas.roles j)).
  { pose proof (model_dump_shaped j) as [Hs _]%andb_true_iff.
    simpl in Hs. by apply forallb_Forall in Hs. }
  apply (roles_loop_clean float_repr _ 0 (e0, []) s' Hshape E Hclean
           (schemas.dump_role r) (stored_permissions r)); [|done|done].
  apply (list_elem_of_fmap_2 (PyDict ∘ schemas.dump_role) _ _ Hr).
Qed.

Lemma role_named_elem (j : schemas.RDMPJSON) (n : string) (r : schemas.RDMPRole) :
  role_named j n = Some r → r ∈ schemas.roles j.
Proof.
  unfold role_named. induction (schemas.roles j) as [|r' l IH]; simpl; [done|].
  destruct (String.eqb (schemas.name r') n).
  - intros [= ->]. apply list_elem_of_here.
  - intros H. apply list_elem_of_further. by apply IH.
Qed.

(** ** The version store *)

Lemma one_to_S (n : nat) : one_to (S n) = one_to n ++ [Z.of_nat n + 1].
Proof.
  unfold one_to. rewrite seq_S, fmap_app. simpl. do 2 f_equal. lia.
Qed.

Lemma elem_of_one_to (v : Z) (n : nat) : v ∈ one_to n ↔ 1 ≤ v ≤ Z.of_nat n.
Proof.
  unfold one_to. rewrite list_elem_of_fmap. split.
  - intros (k & -> & Hk%elem_of_seq). lia.
  - intros Hv. exists (Z.to_nat v). split; [lia|]. apply elem_of_seq. lia.
Qed.

Lemma prefix_one_to (l : list Z) (n : nat) :
  l `prefix_of` one_to n → ∃ k, (k ≤ n)%nat ∧ l = one_to k.
Proof.
  intros Hpre. exists (length l). split.
  - apply prefix_length in Hpre. unfold one_to in Hpre.
    by rewrite length_fmap, length_seq in Hpre.
  - pose proof (prefix_length _ _ Hpre) as Hlen.
    unfold one_to in Hlen. rewrite length_fmap, length_seq in Hlen.
    destruct Hpre as [k Hk].
    assert (Htake : take (length l) (one_to n) = l).
    { rewrite Hk. by rewrite take_app_length. }
    rewrite <- Htake at 1. unfold one_to. rewrite <- fmap_take, take_seq.
    by rewrite Nat.min_l.
Qed.

Section LatestBy.
Context {A : Type} (key : A → Z).

Lemma latest_by_None (rows : list A) : latest_by key rows = None ↔ rows = [].
Proof.
  destruct rows as [|r rows]; simpl; [done|].
  split; [|done]. destruct (latest_by key rows); [|done]. by case_match.
Qed.

Lemma latest_by_max (rows : list A) (r : A) :
  latest_by key rows = Some r →
  r ∈ rows ∧ ∀ r', r' ∈ rows → key r' ≤ key r.
Proof.
  revert r. induction rows as [|x rows IH]; intros r; simpl; [done|].
  destruct (latest_by key rows) as [m|] eqn:E.
  - destruct (IH m eq_refl) as [Hin Hmax].
    destruct (Z.ltb_spec (key x) (key m)); intros [= <-].
    + split; [by apply list_elem_of_further|].
      intros r' [-> | Hr']%elem_of_cons; [lia | auto].
    + split; [apply list_elem_of_here|].
      intros r' [-> | Hr']%elem_of_cons; [lia|]. specialize (Hmax r' Hr'). lia.
  - intros [= <-]. apply latest_by_None in E as ->.
    split; [apply list_elem_of_here|].
    intros r' [-> | Hr']%elem_of_cons; [lia|]. by apply not_elem_of_nil in Hr'.
Qed.

(** A row above every earlier one becomes the latest. *)
Lemma latest_by_snoc (rows : list A) (r : A) :
  (∀ r', r' ∈ rows → key r' < key r) →
  latest_by key (rows ++ [r]) = Some r.
Proof.
  induction rows as [|x rows IH]; intros Hlt; simpl; [done|].
  rewrite IH.
  - assert (key x < key r) as ->%Z.ltb_lt; [|done].
    apply Hlt, list_elem_of_here.
  - intros r' Hr'. by apply Hlt, list_elem_of_further.
Qed.
End LatestBy.

Section VersionedFacts.
Context {A : Type} (scope ver : A → Z).

Lemma taken_spec (rows : list A) (s v : Z) :
  taken scope ver rows s v = true ↔ v ∈ versions_of scope ver rows s.
Proof.
  unfold taken, versions_of. rewrite existsb_exists, list_elem_of_fmap. split.
  - intros (r & Hin & [Hs Hv]%bool_decide_eq_true). exists r. split; [done|].
    apply list_elem_of_filter. split; [done|]. by apply list_elem_of_In.
  - intros (r & -> & [Hs Hin]%list_elem_of_filter). exists r.
    split; [by apply list_elem_of_In|]. by apply bool_decide_eq_true.
Qed.

Lemma versions_of_snoc (rows : list A) (r : A) (s : Z) :
  versions_of scope ver (rows ++ [r]) s
  = versions_of scope ver rows s ++ (if decide (scope r = s) then [ver r] else []).
Proof.
  unfold versions_of. rewrite filter_app, fmap_app. f_equal.
  destruct (decide (scope r = s)).
  - by rewrite filter_cons_True.
  - by rewrite filter_cons_False.
Qed.

Lemma versions_of_prefix (rows1 rows2 : list A) (s : Z) :
  rows1 `prefix_of` rows2 →
  versions_of scope ver rows1 s `prefix_of` versions_of scope ver rows2 s.
Proof.
  intros [k ->]. unfold versions_of. rewrite filter_app, fmap_app.
  by apply prefix_app_r.
Qed.

(** The next number above the versions [1..k] is [k + 1]. *)
Lemma next_of_one_to (rows : list A) (s : Z) (k : nat) :
  versions_of scope ver rows s = one_to k →
  next_of scope ver rows s = Z.of_nat k + 1.
Proof.
  unfold versions_of, next_of. intros Hv.
  destruct (latest_by ver (filter (λ r, scope r = s) rows)) as [m|] eqn:E.
  - apply latest_by_max in E as [Hin Hmax].
    assert (Hm : ver m ∈ one_to k) by (rewrite <- Hv; by apply list_elem_of_fmap_2).
    apply elem_of_one_to in Hm.
    assert (Hk : Z.of_nat k ∈ ver <$> filter (λ r, scope r = s) rows).
    { rewrite Hv. apply elem_of_one_to. lia. }
    apply list_elem_of_fmap in Hk as (r & Hr & Hin'). specialize (Hmax r Hin'). lia.
  - apply latest_by_None in E. rewrite E in Hv. destruct k; [done|].
    rewrite one_to_S in Hv. by destruct (one_to k).
Qed.

(** The next number is above every committed one, whatever the table. *)
Lemma next_of_free (rows : list A) (s : Z) :
  taken scope ver rows s (next_of scope ver rows s) = false.
Proof.
  destruct (taken scope ver rows s (next_of scope ver rows s)) eqn:E; [|done].
  apply taken_spec in E. unfold versions_of, next_of in E.
  apply list_elem_of_fmap in E as (r & Hr & Hin).
  destruct (latest_by ver (filter (λ r, scope r = s) rows)) as [m|] eqn:El.
  - apply latest_by_max in El as [_ Hmax]. specialize (Hmax r Hin). lia.
  - apply latest_by_None in El. rewrite El in Hin. by apply not_elem_of_nil in Hin.
Qed.

Lemma next_of_above (rows : list A) (s : Z) (r : A) :
  r ∈ filter (λ r, scope r = s) rows → ver r < next_of scope ver rows s.
Proof.
  intros Hin. unfold next_of.
  destruct (latest_by ver (filter (λ r, scope r = s) rows)) as [m|] eqn:El.
  - apply latest_by_max in El as [_ Hmax]. specialize (Hmax r Hin). lia.
  - apply latest_by_None in El. rewrite El in Hin. by apply not_elem_of_nil in Hin.
Qed.

(** A commit that gets past the constraint, from a read of an earlier
    state, carries the number after the last committed one. *)
Lemma commit_contiguous (seen rows : list A) (s : Z) (n : nat) :
  versions_of scope ver rows s = one_to n →
  seen `prefix_of` rows →
  taken scope ver rows s (next_of scope ver seen s) = false →
  next_of scope ver seen s = Z.of_nat n + 1
  ∧ next_of scope ver rows s = Z.of_nat n + 1.
Proof.
  intros Hrows Hpre Hfree.
  pose proof (versions_of_prefix seen rows s Hpre) as Hp. rewrite Hrows in Hp.
  apply prefix_one_to in Hp as (k & Hk & Hseen).
  rewrite (next_of_one_to seen s k Hseen) in *.
  rewrite (next_of_one_to rows s n Hrows).
  split; [|done].
  destruct (decide (k = n)) as [-> | Hne]; [done|]. exfalso.
  assert (Hin : Z.of_nat k + 1 ∈ versions_of scope ver rows s).
  { rewrite Hrows. apply elem_of_one_to. lia. }
  apply taken_spec in Hin. congruence.
Qed.
End VersionedFacts.

Lemma unused_id_fresh (ids : list Z) : unused_id ids ∉ ids.
Proof.
  unfold unused_id.
  destruct (find _ _) as [c|] eqn:E; simpl.
  - apply find_some in E as [_ Hc]. by apply bool_decide_eq_true in Hc.
  - exfalso.
    assert (Hsub : ∀ x, x ∈ Z.of_nat <$> seq 1 (S (length ids)) → x ∈ ids).
    { intros x Hx%list_elem_of_In. apply (find_none _ _ E) in Hx.
      apply bool_decide_eq_false in Hx. by apply dec_stable. }
    assert (Hnd : NoDup (Z.of_nat <$> seq 1 (S (length ids)))).
    { apply (NoDup_fmap_2 _), NoDup_seq. }
    pose proof (submseteq_length _ _ (NoDup_submseteq _ _ Hnd Hsub)) as Hlen.
    rewrite length_fmap, length_seq in Hlen. lia.
Qed.

Lemma foldr_max_ge (i : Z) (ids : list Z) :
  i ≤ foldr Z.max i ids ∧ ∀ x, x ∈ ids → x ≤ foldr Z.max i ids.
Proof.
  induction ids as [|y ids [IH1 IH2]]; simpl.
  - split; [lia|]. intros x Hx. by apply not_elem_of_nil in Hx.
  - split; [lia|]. intros x [-> | Hx]%elem_of_cons; [lia|].
    specialize (IH2 x Hx). lia.
Qed.

(** The id of a new row is not the id of a row of the table. *)
Lemma next_id_fresh (ids : list Z) : next_id ids ∉ ids.
Proof.
  destruct ids as [|i ids]; [apply not_elem_of_nil|]. unfold next_id.
  destruct (foldr_max_ge i ids) as [H1 H2].
  destruct (foldr Z.max i ids <? 2 ^ 63 - 1); [|apply unused_id_fresh].
  intros [Hx | Hx]%elem_of_cons; [lia|]. specialize (H2 _ Hx). lia.
Qed.

Section HandlerFacts.
Variable float_repr : spec_float → string.

(** On a dumped model the validator returns, and [ok] tells whether there
    are errors. *)
Lemma validate_model_dump (j : schemas.RDMPJSON) :
  ∃ errors, validate_rdmp_schema float_repr (schemas.model_dump j)
            = Ok (bool_decide (length errors = 0%nat), errors).
Proof. apply validate_rdmp_schema_shaped, model_dump_shaped. Qed.

Lemma valid_no_errors (j : schemas.RDMPJSON) (errors : list string) :
  validate_rdmp_schema float_repr (schemas.model_dump j) = Ok (true, errors) →
  errors = [].
Proof.
  destruct (validate_model_dump j) as (e & ->). intros [= Hok <-].
  by apply ok_iff_no_errors.
Qed.

(** What a returned response of each handler says about the two states. *)
Lemma create_project_rdmp_version_inv project rdmp_data current_user seen db v db' :
  create_project_rdmp_version float_repr project rdmp_data current_user seen db
    = (Ok v, db') →
  validate_rdmp_schema float_repr (schemas.model_dump (schemas.rdmp_json rdmp_data))
    = Ok (true, [])
  ∧ taken project_id version_int (rdmp_versions db) project
      (next_of project_id version_int (rdmp_versions seen) project) = false
  ∧ project_id v = project
  ∧ version_int v = next_of project_id version_int (rdmp_versions seen) project
  ∧ rdmp_json v = PyDict (schemas.model_dump (schemas.rdmp_json rdmp_data))
  ∧ rdmp_versions db' = rdmp_versions db ++ [v]
  ∧ rdmp_template_versions db' = rdmp_template_versions db
  ∧ rdmp_templates db' = rdmp_templates db.
Proof.
  unfold create_project_rdmp_version.
  destruct (validate_rdmp_schema float_repr _) as [[[|] errors]|] eqn:E;
    simpl; try (intros [=]; fail).
  apply valid_no_errors in E as Hnil. subst errors.
  unfold commit_rdmp_version.
  fold (next_of project_id version_int (rdmp_versions seen) project).
  fold (taken project_id version_int (rdmp_versions db) project
          (next_of project_id version_int (rdmp_versions seen) project)).
  destruct (taken _ _ _ _ _) eqn:Ht; [intros [=]|].
  destruct (negb _); intros [= <- <-]. simpl. done.
Qed.

Lemma create_template_version_inv template version_data current_user seen db v db' :
  create_template_version float_repr template version_data current_user seen db
    = (Ok v, db') →
  validate_rdmp_schema float_repr (schemas.model_dump (schemas.template_json version_data))
    = Ok (true, [])
  ∧ template ∈ template_id_of <$> rdmp_templates seen
  ∧ taken tv_template_id tv_version_int (rdmp_template_versions db) template
      (next_of tv_template_id tv_version_int (rdmp_template_versions seen) template)
    = false
  ∧ tv_template_id v = template
  ∧ tv_version_int v
    = next_of tv_template_id tv_version_int (rdmp_template_versions seen) template
  ∧ template_json v = PyDict (schemas.model_dump (schemas.template_json version_data))
  ∧ rdmp_template_versions db' = rdmp_template_versions db ++ [v]
  ∧ rdmp_versions db' = rdmp_versions db
  ∧ rdmp_templates db' = rdmp_templates db.
Proof.
  unfold create_template_version.
  destruct (fits_int64 template); cbn [negb]; [|intros [=]].
  destruct (existsb _ (rdmp_templates seen)) eqn:Hex; simpl; [|intros [=]].
  destruct (validate_rdmp_schema float_repr _) as [[[|] errors]|] eqn:E;
    simpl; try (intros [=]; fail).
  apply valid_no_errors in E as Hnil. subst errors.
  unfold commit_template_version.
  fold (next_of tv_template_id tv_version_int (rdmp_template_versions seen) template).
  fold (taken tv_template_id tv_version_int (rdmp_template_versions db) template
          (next_of tv_template_id tv_version_int (rdmp_template_versions seen) template)).
  destruct (taken _ _ _ _ _) eqn:Ht; [intros [=]|].
  destruct (negb _); intros [= <- <-]. simpl.
  repeat split; try done.
  apply existsb_exists in Hex as (t & Hin & Ht'%bool_decide_eq_true).
  apply list_elem_of_fmap. exists t. split; [done|]. by apply list_elem_of_In.
Qed.

Lemma create_template_inv template_data current_user db t db' :
  create_template float_repr template_data current_user db = (Ok t, db') →
  ∃ v,
    validate_rdmp_schema float_repr
      (schemas.model_dump (schemas.tc_template_json template_data)) = Ok (true, [])
    ∧ template_id_of t = next_id (template_id_of <$> rdmp_templates db)
    ∧ taken tv_template_id tv_version_int (rdmp_template_versions db)
        (template_id_of t) 1 = false
    ∧ tv_template_id v = template_id_of t
    ∧ tv_version_int v = 1
    ∧ template_json v
      = PyDict (schemas.model_dump (schemas.tc_template_json template_data))
    ∧ rdmp_templates db' = rdmp_templates db ++ [t]
    ∧ rdmp_template_versions db' = rdmp_template_versions db ++ [v]
    ∧ rdmp_versions db' = rdmp_versions db.
Proof.
  unfold create_template.
  destruct (validate_rdmp_schema float_repr _) as [[[|] errors]|] eqn:E;
    simpl; try (intros [=]; fail).
  apply valid_no_errors in E as Hnil. subst errors.
  destruct (existsb _ (rdmp_templates db)); [intros [=]|].
  unfold commit_template_version. cbn [rdmp_template_versions].
  fold (taken tv_template_id tv_version_int (rdmp_template_versions db)
          (next_id (template_id_of <$> rdmp_templates db)) 1).
  destruct (taken _ _ _ _ _) eqn:Ht; [intros [=]|].
  destruct (negb _); intros [= <- <-]. simpl.
  eexists. repeat split; try done.
Qed.
End HandlerFacts.

Lemma extends_refl db : extends db db.
Proof. by repeat split. Qed.

Lemma extends_trans db1 db2 db3 : extends db1 db2 → extends db2 db3 → extends db1 db3.
Proof. intros (? & ? & ?) (? & ? & ?). repeat split; by etrans. Qed.

Section HistoryFacts.
Variable float_repr : spec_float → string.

(** Each step only appends rows. *)
Lemma history_step_extends (hist : list Session) :
  history float_repr hist →
  ∀ db' db h, hist = db' :: db :: h → extends db db'.
Proof.
  destruct 1 as [|h db ms _|h db td u t db' _ E|h db seen t vd u v db' _ _ E
                 |h db seen p rd u v db' _ _ E]; intros ? ? ? Heq; simplify_eq.
  - by repeat split.
  - apply create_template_inv in E as (v & _ & _ & _ & _ & _ & _ & H1 & H2 & H3).
    unfold extends. rewrite H1, H2, H3.
    repeat split; first [done | by apply prefix_app_r].
  - apply create_template_version_inv in E as (_ & _ & _ & _ & _ & _ & H1 & H2 & H3).
    unfold extends. rewrite H1, H2, H3.
    repeat split; first [done | by apply prefix_app_r].
  - apply create_project_rdmp_version_inv in E as (_ & _ & _ & _ & _ & H1 & H2 & H3).
    unfold extends. rewrite H1, H2, H3.
    repeat split; first [done | by apply prefix_app_r].
Qed.

Lemma history_tail (db' db : Session) (h : list Session) :
  history float_repr (db' :: db :: h) → history float_repr (db :: h).
Proof. inversion 1; done. Qed.

(** What a handler's queries saw has grown into the current state. *)
Lemma history_extends (h : list Session) :
  ∀ db seen, history float_repr (db :: h) → seen ∈ db :: h → extends seen db.
Proof.
  induction h as [|db0 h IH]; intros db seen Hh Hin.
  - apply list_elem_of_singleton in Hin as ->. apply extends_refl.
  - apply elem_of_cons in Hin as [-> | Hin]; [apply extends_refl|].
    eapply extends_trans.
    + apply IH; [by eapply history_tail | done].
    + by eapply history_step_extends.
Qed.

Lemma contiguous_project_commit (seen db db' : Session) (project : Z) (v : RDMPVersion) :
  contiguous db → extends seen db →
  taken project_id version_int (rdmp_versions db) project
    (next_of project_id version_int (rdmp_versions seen) project) = false →
  project_id v = project →
  version_int v = next_of project_id version_int (rdmp_versions seen) project →
  rdmp_versions db' = rdmp_versions db ++ [v] →
  rdmp_template_versions db' = rdmp_template_versions db →
  version_int v = next_of project_id version_int (rdmp_versions db) project
  ∧ project_versions db' project = project_versions db project ++ [version_int v]
  ∧ contiguous db'.
Proof.
  intros [Hp Ht] (_ & _ & Hpre) Hfree Hproj Hver Hrows Htv.
  destruct (Hp project) as [n Hn].
  destruct (commit_contiguous project_id version_int _ _ project n Hn Hpre Hfree)
    as [Hnext Hnext'].
  assert (Hsnoc : ∀ p, project_versions db' p
                       = project_versions db p
                         ++ (if decide (project_id v = p) then [version_int v] else [])).
  { intros p. unfold project_versions. rewrite Hrows.
    apply (versions_of_snoc project_id version_int). }
  split; [congruence|]. split.
  - rewrite Hsnoc. by rewrite decide_True.
  - split.
    + intros p. rewrite Hsnoc. destruct (decide (project_id v = p)) as [<- | _].
      * exists (S n). rewrite Hproj, Hn, one_to_S. do 2 f_equal. congruence.
      * destruct (Hp p) as [m Hm]. exists m. by rewrite app_nil_r.
    + intros t. unfold template_versions. rewrite Htv. apply Ht.
Qed.

Lemma contiguous_template_commit (seen db db' : Session) (template : Z)
    (v : RDMPTemplateVersion) :
  contiguous db → extends seen db →
  taken tv_template_id tv_version_int (rdmp_template_versions db) template
    (next_of tv_template_id tv_version_int (rdmp_template_versions seen) template)
    = false →
  tv_template_id v = template →
  tv_version_int v
    = next_of tv_template_id tv_version_int (rdmp_template_versions seen) template →
  rdmp_template_versions db' = rdmp_template_versions db ++ [v] →
  rdmp_versions db' = rdmp_versions db →
  tv_version_int v
    = next_of tv_template_id tv_version_int (rdmp_template_versions db) template
  ∧ template_versions db' template = template_versions db template ++ [tv_version_int v]
  ∧ contiguous db'.
Proof.
  intros [Hp Ht] (_ & Hpre & _) Hfree Htpl Hver Hrows Hrv.
  destruct (Ht template) as [n Hn].
  destruct (commit_contiguous tv_template_id tv_version_int _ _ template n Hn Hpre Hfree)
    as [Hnext Hnext'].
  assert (Hsnoc : ∀ t, template_versions db' t
                       = template_versions db t
                         ++ (if decide (tv_template_id v = t) then [tv_version_int v]
                             else [])).
  { intros t. unfold template_versions. rewrite Hrows.
    apply (versions_of_snoc tv_template_id tv_version_int). }
  split; [congruence|]. split.
  - rewrite Hsnoc. by rewrite decide_True.
  - split.
    + intros p. unfold project_versions. rewrite Hrv. apply Hp.
    + intros t. rewrite Hsnoc. destruct (decide (tv_template_id v = t)) as [<- | _].
      * exists (S n). rewrite Htpl, Hn, one_to_S. do 2 f_equal. congruence.
      * destruct (Ht t) as [m Hm]. exists m. by rewrite app_nil_r.
Qed.

(** The store's invariant: contiguous numbers, templates of versions exist,
    stored bodies are valid. *)
Lemma history_invariant (hist : list Session) :
  history float_repr hist →
  ∀ db h, hist = db :: h →
    contiguous db ∧ templates_exist db ∧ bodies_valid float_repr db.
Proof.
  induction 1 as [|h db ms Hh IH|h db td u t db' Hh IH E
                  |h db seen t vd u v db' Hh IH Hseen E
                  |h db seen p rd u v db' Hh IH Hseen E];
    intros ? ? [= <- <-].
  - split; [split; intros; by exists 0%nat|].
    split; [intros v Hv; by apply not_elem_of_nil in Hv|].
    split; intros v Hv; by apply not_elem_of_nil in Hv.
  - destruct (IH _ _ eq_refl) as (Hc & Ht & Hb). done.
  - destruct (IH _ _ eq_refl) as ([Hp Htv] & Ht & [Hb1 Hb2]).
    apply create_template_inv in E
      as (v & Hvalid & Hid & Hfree & Hvt & Hvv & Hvj & Hts & Htvs & Hrv).
    assert (Hfresh : template_versions db (template_id_of t) = []).
    { unfold template_versions.
      destruct (filter _ (rdmp_template_versions db)) as [|x l] eqn:Ef; [done|].
      assert (Hx : x ∈ filter (λ r, tv_template_id r = template_id_of t)
                         (rdmp_template_versions db))
        by (rewrite Ef; apply list_elem_of_here).
      apply list_elem_of_filter in Hx as [Hx1 Hx2].
      apply Ht in Hx2. rewrite Hx1, Hid in Hx2. by apply next_id_fresh in Hx2. }
    assert (Hsnoc : ∀ t', template_versions db' t'
                          = template_versions db t'
                            ++ (if decide (tv_template_id v = t') then [tv_version_int v]
                                else [])).
    { intros t'. unfold template_versions. rewrite Htvs.
      apply (versions_of_snoc tv_template_id tv_version_int). }
    split; [split|split; [|split]].
    + intros p'. unfold project_versions. rewrite Hrv. apply Hp.
    + intros t'. rewrite Hsnoc. destruct (decide (tv_template_id v = t')) as [<- | _].
      * exists 1%nat. by rewrite Hvt, Hfresh, Hvv.
      * destruct (Htv t') as [m Hm]. exists m. by rewrite app_nil_r.
    + intros x. rewrite Htvs, Hts, fmap_app.
      intros [Hx | ->%list_elem_of_singleton]%elem_of_app.
      * apply elem_of_app. left. by apply Ht.
      * apply elem_of_app. right. rewrite Hvt. apply list_elem_of_here.
    + intros x. rewrite Hrv. apply Hb1.
    + intros x. rewrite Htvs.
      intros [Hx | ->%list_elem_of_singleton]%elem_of_app; [by apply Hb2|].
      rewrite Hvj. by eexists.
  - destruct (IH _ _ eq_refl) as (Hc & Ht & [Hb1 Hb2]).
    pose proof (history_extends _ _ _ Hh Hseen) as Hext.
    apply create_template_version_inv in E
      as (Hvalid & Hex & Hfree & Hvt & Hvv & Hvj & Htvs & Hrv & Hts).
    destruct (contiguous_template_commit seen db db' t v Hc Hext Hfree Hvt Hvv Htvs Hrv)
      as (_ & _ & Hc').
    split; [done|]. split; [|split].
    + intros x. rewrite Htvs, Hts.
      intros [Hx | ->%list_elem_of_singleton]%elem_of_app; [by apply Ht|].
      rewrite Hvt. destruct Hext as ([k Hk] & _). rewrite Hk, fmap_app.
      apply elem_of_app. by left.
    + intros x. rewrite Hrv. apply Hb1.
    + intros x. rewrite Htvs.
      intros [Hx | ->%list_elem_of_singleton]%elem_of_app; [by apply Hb2|].
      rewrite Hvj. by eexists.
  - destruct (IH _ _ eq_refl) as (Hc & Ht & [Hb1 Hb2]).
    pose proof (history_extends _ _ _ Hh Hseen) as Hext.
    apply create_project_rdmp_version_inv in E
      as (Hvalid & Hfree & Hvp & Hvv & Hvj & Hrv & Htvs & Hts).
    destruct (contiguous_project_commit seen db db' p v Hc Hext Hfree Hvp Hvv Hrv Htvs)
      as (_ & _ & Hc').
    split; [done|]. split; [|split].
    + intros x. rewrite Htvs, Hts. apply Ht.
    + intros x. rewrite Hrv.
      intros [Hx | ->%list_elem_of_singleton]%elem_of_app; [by apply Hb1|].
      rewrite Hvj. by eexists.
    + intros x. rewrite Htvs. apply Hb2.
Qed.
End HistoryFacts.

Section StoreTheorems.
Variable float_repr : spec_float → string.

(** C4: in every state the handlers reach from the empty store, the
    versions of each project and of each template are [1, 2, ..., n], in
    commit order, so without gap or duplicate; and a handler that returns,
    whatever earlier state its queries saw, has committed the number after
    the largest committed one of the scope ([1] in a scope without
    versions). *)
Theorem version_ints_contiguous (db : Session) (h : list Session) :
  history float_repr (db :: h) →
  (∀ project, ∃ n, project_versions db project = one_to n)
  ∧ (∀ template, ∃ n, template_versions db template = one_to n)
  ∧ (∀ seen project rdmp_data current_user v db',
       seen ∈ db :: h →
       create_project_rdmp_version float_repr project rdmp_data current_user seen db
         = (Ok v, db') →
       version_int v = next_of project_id version_int (rdmp_versions db) project
       ∧ project_versions db' project = project_versions db project ++ [version_int v])
  ∧ (∀ seen template version_data current_user v db',
       seen ∈ db :: h →
       create_template_version float_repr template version_data current_user seen db
         = (Ok v, db') →
       tv_version_int v
         = next_of tv_template_id tv_version_int (rdmp_template_versions db) template
       ∧ template_versions db' template
         = template_versions db template ++ [tv_version_int v]).
Proof.
  intros Hh. destruct (history_invariant float_repr _ Hh _ _ eq_refl) as (Hc & _ & _).
  split; [apply Hc|]. split; [apply Hc|]. split.
  - intros seen project rd u v db' Hseen E.
    pose proof (history_extends float_repr _ _ _ Hh Hseen) as Hext.
    apply create_project_rdmp_version_inv in E
      as (_ & Hfree & Hvp & Hvv & _ & Hrv & Htvs & _).
    destruct (contiguous_project_commit seen db db' project v Hc Hext Hfree Hvp Hvv
                Hrv Htvs) as (? & ? & _).
    done.
  - intros seen template vd u v db' Hseen E.
    pose proof (history_extends float_repr _ _ _ Hh Hseen) as Hext.
    apply create_template_version_inv in E
      as (_ & _ & Hfree & Hvt & Hvv & _ & Htvs & Hrv & _).
    destruct (contiguous_template_commit seen db db' template v Hc Hext Hfree Hvt Hvv
                Htvs Hrv) as (? & ? & _).
    done.
Qed.

(** C5, as the code has it: with no other request in between, appending a
    valid body to a project returns a version that [get_current_rdmp] then
    returns, whose body is the dumped request body and whose [version_int]
    is one more than that of the version [get_current_rdmp] returned before,
    or [1] when it returned none; this when the project id, the user id and
    the new version number fit a 64-bit column. *)
Theorem append_then_get_current (db : Session) (project : Z)
    (body : schemas.RDMPJSON) (current_user : User) :
  validate_rdmp_schema float_repr (schemas.model_dump body) = Ok (true, []) →
  fits_int64 project = true →
  fits_int64 (user_id current_user) = true →
  (∀ latest, get_current_rdmp db project = Ok (Some latest) →
             fits_int64 (version_int latest + 1) = true) →
  ∃ v db' before,
    create_project_rdmp_version float_repr project (request_of body) current_user db db
      = (Ok v, db')
    ∧ get_current_rdmp db project = Ok before
    ∧ get_current_rdmp db' project = Ok (Some v)
    ∧ rdmp_json v = PyDict (schemas.model_dump body)
    ∧ version_int v = match before with
                      | Some latest => version_int latest + 1
                      | None => 1
                      end.
Proof.
  intros Hvalid Hp Hu Hnext. unfold get_current_rdmp, bind_int in *.
  rewrite Hp in *. cbn [bind] in *.
  unfold create_project_rdmp_version. cbn [request_of schemas.rdmp_json].
  rewrite Hvalid. cbn [negb]. unfold commit_rdmp_version.
  fold (next_of project_id version_int (rdmp_versions db) project).
  fold (taken project_id version_int (rdmp_versions db) project
          (next_of project_id version_int (rdmp_versions db) project)).
  rewrite next_of_free, Hp, Hu.
  assert (Hv : fits_int64 (next_of project_id version_int (rdmp_versions db) project)
               = true).
  { unfold next_of.
    destruct (latest_by version_int
                (filter (λ r, project_id r = project) (rdmp_versions db)))
      as [latest|]; [by apply Hnext | done]. }
  rewrite Hv. cbn [andb negb]. eexists _, _, _. split; [reflexivity|].
  split; [reflexivity|]. split; [|split; reflexivity].
  cbn [rdmp_versions]. rewrite filter_app, filter_cons_True by done.
  rewrite filter_nil. f_equal. apply latest_by_snoc. intros r' Hr'. cbn [version_int].
  by apply next_of_above.
Qed.

(** C2, as the code has it: when the row the handler inserts meets the
    uniqueness constraint, the commit raises [IntegrityError], which
    leaves the handler; nothing is read again, no second insert is tried
    and the database is as it was. *)
Theorem conflict_raises (seen db : Session) (project : Z)
    (rdmp_data : schemas.RDMPVersionCreate) (current_user : User) :
  validate_rdmp_schema float_repr (schemas.model_dump (schemas.rdmp_json rdmp_data))
    = Ok (true, []) →
  next_of project_id version_int (rdmp_versions seen) project
    ∈ project_versions db project →
  create_project_rdmp_version float_repr project rdmp_data current_user seen db
    = (Raise IntegrityError, db).
Proof.
  intros Hvalid Hin. unfold create_project_rdmp_version. rewrite Hvalid. simpl.
  unfold commit_rdmp_version.
  fold (next_of project_id version_int (rdmp_versions seen) project).
  fold (taken project_id version_int (rdmp_versions db) project
          (next_of project_id version_int (rdmp_versions seen) project)).
  apply (taken_spec project_id version_int) in Hin. by rewrite Hin.
Qed.

(** C6: a body that fails the validator makes each handler raise the 400
    response that carries the validator's errors, and leaves the database as
    it was ([create_template_version] first looks the template up, which
    raises [OverflowError] for an id beyond a 64-bit column and answers 404
    for a template that does not exist, also without writing); so every body
    stored by the handlers passes the validator. *)
Theorem invalid_body_not_persisted :
  (∀ project rdmp_data current_user seen db errors,
     validate_rdmp_schema float_repr (schemas.model_dump (schemas.rdmp_json rdmp_data))
       = Ok (false, errors) →
     create_project_rdmp_version float_repr project rdmp_data current_user seen db
       = (Raise (schema_invalid errors), db))
  ∧ (∀ template version_data current_user seen db errors,
       validate_rdmp_schema float_repr
         (schemas.model_dump (schemas.template_json version_data)) = Ok (false, errors) →
       create_template_version float_repr template version_data current_user seen db
       = (Raise (if negb (fits_int64 template) then OverflowError
                 else if bool_decide (template ∈ template_id_of <$> rdmp_templates seen)
                 then schema_invalid errors
                 else not_found "Template not found"), db))
  ∧ (∀ template_data current_user db errors,
       validate_rdmp_schema float_repr
         (schemas.model_dump (schemas.tc_template_json template_data))
         = Ok (false, errors) →
       create_template float_repr template_data current_user db
       = (Raise (schema_invalid errors), db))
  ∧ (∀ db h, history float_repr (db :: h) →
       (∀ v, v ∈ rdmp_versions db → valid_body float_repr (rdmp_json v))
       ∧ (∀ v, v ∈ rdmp_template_versions db → valid_body float_repr (template_json v))).
Proof.
  split; [|split; [|split]].
  - intros project rd u seen db errors E.
    unfold create_project_rdmp_version. by rewrite E.
  - intros template vd u seen db errors E. unfold create_template_version.
    destruct (fits_int64 template); cbn [negb]; [|done].
    destruct (existsb _ (rdmp_templates seen)) eqn:Hex; simpl.
    + rewrite E. simpl. rewrite bool_decide_eq_true_2; [done|].
      apply existsb_exists in Hex as (t & Hin & Ht%bool_decide_eq_true).
      apply list_elem_of_fmap. exists t. split; [done|]. by apply list_elem_of_In.
    + rewrite bool_decide_eq_false_2; [done|].
      intros (t & -> & Hin)%list_elem_of_fmap.
      assert (existsb (λ t0, bool_decide (template_id_of t0 = template_id_of t))
                (rdmp_templates seen) = true); [|congruence].
      apply existsb_exists. exists t. split; [by apply list_elem_of_In|].
      by apply bool_decide_eq_true.
  - intros td u db errors E. unfold create_template. by rewrite E.
  - intros db h Hh.
    destruct (history_invariant float_repr _ Hh _ _ eq_refl) as (_ & _ & Hb). exact Hb.
Qed.
End StoreTheorems.

Lemma one_version_history : history no_float_repr [one_version_db; empty_session].
Proof.
  apply (history_create_project_rdmp_version no_float_repr [] empty_session
           empty_session 1 study_request alice (version_of 1 1 study_plan)).
  - apply history_start.
  - apply list_elem_of_here.
  - reflexivity.
Qed.

Lemma version_ints_contiguous_witness :
  (∃ n, project_versions one_version_db 1 = one_to n)
  ∧ ∃ v db',
      create_project_rdmp_version no_float_repr 1 study_request alice
        one_version_db one_version_db = (Ok v, db')
      ∧ version_int v = 2
      ∧ project_versions db' 1 = [1; 2].
Proof.
  destruct (version_ints_contiguous no_float_repr one_version_db [empty_session]
              one_version_history) as (Hp & _ & Hstep & _).
  split; [apply Hp|].
  eexists _, _. split; [reflexivity|].
  apply (Hstep one_version_db 1 study_request alice); [apply list_elem_of_here | reflexivity].
Defined.

Lemma append_then_get_current_witness :
  ∃ v db' before,
    create_project_rdmp_version no_float_repr 1 (request_of study_plan) alice
      one_version_db one_version_db = (Ok v, db')
    ∧ get_current_rdmp one_version_db 1 = Ok before
    ∧ get_current_rdmp db' 1 = Ok (Some v)
    ∧ rdmp_json v = PyDict (schemas.model_dump study_plan)
    ∧ version_int v = match before with
                      | Some latest => version_int latest + 1
                      | None => 1
                      end.
Proof.
  apply (append_then_get_current no_float_repr one_version_db 1 study_plan alice
           eq_refl eq_refl eq_refl).
  intros latest [= <-]. reflexivity.
Defined.

(** C5, as the specification has it, fails at the ends of the range of a
    column: an append to a project whose id is [2^63], and an append to a
    project whose latest version is [2^63 - 1], raise [OverflowError] and
    store nothing. *)
Lemma append_out_of_range :
  create_project_rdmp_version no_float_repr (2 ^ 63) (request_of study_plan) alice
    empty_session empty_session = (Raise OverflowError, empty_session)
  ∧ create_project_rdmp_version no_float_repr 1 (request_of study_plan) alice
      last_version_db last_version_db = (Raise OverflowError, last_version_db).
Proof. split; vm_compute; reflexivity. Qed.

Lemma conflict_raises_witness :
  create_project_rdmp_version no_float_repr 1 study_request alice
    empty_session one_version_db = (Raise IntegrityError, one_version_db).
Proof.
  apply (conflict_raises no_float_repr empty_session one_version_db 1 study_request alice
           eq_refl).
  apply list_elem_of_here.
Defined.

(** C2, as the specification has it, fails: a request that read the empty
    store and commits after another request has committed version 1 ends in
    [IntegrityError].  It does not retry, although the same request run on
    the new state would have committed version 2. *)
Lemma no_retry_on_conflict :
  create_project_rdmp_version no_float_repr 1 study_request alice
    empty_session one_version_db = (Raise IntegrityError, one_version_db)
  ∧ ∃ v db',
      create_project_rdmp_version no_float_repr 1 study_request alice
        one_version_db one_version_db = (Ok v, db')
      ∧ version_int v = 2.
Proof. split; [reflexivity|]. eexists _, _. split; reflexivity. Qed.

Lemma invalid_body_not_persisted_witness :
  create_project_rdmp_version no_float_repr 1 empty_request alice
    one_version_db one_version_db
  = (Raise (schema_invalid ["'roles' must be a non-empty list"]), one_version_db)
  ∧ (∀ v, v ∈ rdmp_versions one_version_db → valid_body no_float_repr (rdmp_json v)).
Proof.
  destruct (invalid_body_not_persisted no_float_repr) as (Hproject & _ & _ & Hstored).
  split.
  - exact (Hproject 1 empty_request alice one_version_db one_version_db _ eq_refl).
  - exact (proj1 (Hstored one_version_db [empty_session] one_version_history)).
Defined.

(** ** Permissions over the store *)

Section PermissionTheorems.
Variable float_repr : spec_float → string.

(** Every RDMP version of a store the handlers reach holds the dump of a
    request document that passed the validator. *)
Lemma history_bodies_dumped (hist : list Session) :
  history float_repr hist →
  ∀ db h, hist = db :: h →
  ∀ v, v ∈ rdmp_versions db →
    ∃ j, rdmp_json v = PyDict (schemas.model_dump j)
         ∧ validate_rdmp_schema float_repr (schemas.model_dump j) = Ok (true, []).
Proof.
  induction 1 as [|h db ms Hh IH|h db td u t db' Hh IH E
                  |h db seen t vd u v db' Hh IH Hseen E
                  |h db seen p rd u v db' Hh IH Hseen E];
    intros ? ? [= <- <-] x Hx.
  - by apply not_elem_of_nil in Hx.
  - by eapply IH.
  - apply create_template_inv in E as (? & _ & _ & _ & _ & _ & _ & _ & _ & Hrv).
    rewrite Hrv in Hx. by eapply IH.
  - apply create_template_version_inv in E as (_ & _ & _ & _ & _ & _ & _ & Hrv & _).
    rewrite Hrv in Hx. by eapply IH.
  - apply create_project_rdmp_version_inv in E
      as (Hvalid & _ & _ & _ & Hvj & Hrv & _ & _).
    rewrite Hrv in Hx.
    apply elem_of_app in Hx as [Hx | ->%list_elem_of_singleton]; [by eapply IH|].
    by exists (schemas.rdmp_json rd).
Qed.

Lemma stored_permissions_bool (r : schemas.RDMPRole) (p : string) :
  Py.dict_has p (stored_permissions r) = true →
  ∃ b, Py.dict_get p (stored_permissions r) = Some (PyBool b).
Proof.
  unfold Py.dict_has, stored_permissions, Py.dict_get.
  induction (schemas.permissions r) as [|[k b] l IH]; cbn; [done|].
  destruct (String.eqb k p); cbn; eauto.
Qed.

(** C1, as the code has it: on every store the handlers reach, for a user
    id and a project id that fit a 64-bit column, the result is a mapping
    that holds the four keys, each with a boolean.  It is the map of the
    four keys, all false, without a membership, without an RDMP and without
    a role of the membership's name; with a matching role it is that role's
    [permissions] as stored, where the validator has seen to the four keys:
    the function adds none.  [check_permission] reads an absent key as
    false. *)
Theorem get_user_permissions_all_keys (db : Session) (h : list Session)
    (user project : Z) :
  history float_repr (db :: h) →
  fits_int64 user = true →
  fits_int64 project = true →
  ∃ perms : dict,
    get_user_permissions db user project = Ok (PyDict perms)
    ∧ (∀ p, p ∈ required_perms → ∃ b, Py.dict_get p perms = Some (PyBool b))
    ∧ (∀ p, check_permission db {| user_id := user |} project p
            = Ok (default (PyBool false) (Py.dict_get p perms)))
    ∧ (query_membership db user project = Ok None → PyDict perms = no_permissions)
    ∧ (get_current_rdmp db project = Ok None → PyDict perms = no_permissions)
    ∧ (∀ m rdmp,
         query_membership db user project = Ok (Some m) →
         get_current_rdmp db project = Ok (Some rdmp) →
         ∃ j, rdmp_json rdmp = PyDict (schemas.model_dump j)
              ∧ PyDict perms = match role_named j (role_name m) with
                               | Some r => PyDict (stored_permissions r)
                               | None => no_permissions
                               end).
Proof.
  intros Hh Hu Hp.
  assert (Hcur : ∀ rdmp,
            latest_by version_int
              (filter (λ r, project_id r = project) (rdmp_versions db)) = Some rdmp →
            ∃ j, rdmp_json rdmp = PyDict (schemas.model_dump j)
                 ∧ validate_rdmp_schema float_repr (schemas.model_dump j)
                   = Ok (true, [])).
  { intros rdmp [Hin _]%latest_by_max. apply list_elem_of_filter in Hin as [_ Hin].
    by eapply (history_bodies_dumped _ Hh). }
  assert (Hfalse : ∀ p, p ∈ required_perms →
            ∃ b, Py.dict_get p
                   [("can_edit_metadata", PyBool false); ("can_edit_paths", PyBool false);
                    ("can_create_release", PyBool false);
                    ("can_manage_rdmp", PyBool false)] = Some (PyBool b)).
  { intros p Hin. repeat (apply elem_of_cons in Hin as [-> | Hin]; [by eexists|]).
    by apply not_elem_of_nil in Hin. }
  unfold check_permission, get_user_permissions, query_membership, get_current_rdmp,
    bind_int.
  cbn [user_id]. rewrite !Hu, !Hp. cbn [bind].
  destruct (find _ (memberships db)) as [m|] eqn:Em.
  2: { eexists. split; [reflexivity|]. split; [exact Hfalse|]. split; [done|].
       split; [done|]. split; [done|]. by intros ? ? [=]. }
  destruct (latest_by version_int _) as [rdmp|] eqn:El.
  2: { eexists. split; [reflexivity|]. split; [exact Hfalse|]. split; [done|].
       split; [done|]. split; [done|]. by intros ? ? _ [=]. }
  destruct (Hcur rdmp eq_refl) as (j & Hj & Hvalid). rewrite Hj. simpl.
  rewrite next_role_dumped. fold (role_named j (role_name m)).
  destruct (role_named j (role_name m)) as [r|] eqn:Hrole; simpl.
  - exists (stored_permissions r). split; [done|]. split.
    { intros p Hin. apply stored_permissions_bool.
      eapply valid_roles_complete; [exact Hvalid | by eapply role_named_elem | done]. }
    split; [done|]. split; [by intros [=]|]. split; [by intros [=]|].
    intros ? ? [= <-] [= <-]. exists j. by rewrite Hrole.
  - eexists. split; [reflexivity|]. split; [exact Hfalse|]. split; [done|].
    split; [by intros [=]|]. split; [by intros [=]|].
    intros ? ? [= <-] [= <-]. exists j. by rewrite Hrole.
Qed.
End PermissionTheorems.

Lemma study_history :
  history no_float_repr [study_db; one_version_db; empty_session].
Proof. exact (history_memberships no_float_repr _ _ [lead_member] one_version_history). Qed.

Lemma get_user_permissions_all_keys_witness :
  ∃ perms : dict,
    get_user_permissions study_db 7 1 = Ok (PyDict perms)
    ∧ (∀ p, p ∈ required_perms → ∃ b, Py.dict_get p perms = Some (PyBool b))
    ∧ check_permission study_db {| user_id := 7 |} 1 "can_manage_rdmp"
      = Ok (default (PyBool false) (Py.dict_get "can_manage_rdmp" perms)).
Proof.
  destruct (get_user_permissions_all_keys no_float_repr study_db
              [one_version_db; empty_session] 7 1 study_history eq_refl eq_refl)
    as (perms & E & Hkeys & Hcheck & _).
  exists perms. split; [exact E|]. split; [exact Hkeys | apply Hcheck].
Defined.

(** C1, as the specification has it, fails for an id beyond the range of a
    column: the queries of [get_user_permissions] bind [project_id] and
    [user_id], and the function raises [OverflowError] instead of returning
    a mapping. *)
Lemma get_user_permissions_out_of_range :
  get_user_permissions empty_session 1 (2 ^ 63) = Raise OverflowError
  ∧ get_user_permissions study_db (- 2 ^ 63 - 1) 1 = Raise OverflowError
  ∧ check_permission empty_session alice (2 ^ 63) "can_edit_metadata"
    = Raise OverflowError.
Proof. repeat split; vm_compute; reflexivity. Qed.

(** ** The validator on request documents *)

Lemma names_seen_nil : names_seen [] [].
Proof. intros n. symmetry. apply bool_decide_eq_false, not_elem_of_nil. Qed.

Lemma list_contains_app (x : pyval) (l1 l2 : list pyval) :
  Py.list_contains x (l1 ++ l2) = Py.list_contains x l1 || Py.list_contains x l2.
Proof. unfold Py.list_contains. apply existsb_app. Qed.

Lemma names_seen_add (names : list pyval) (earlier : list string) (m : string) :
  names_seen names earlier →
  names_seen (Py.set_add (PyStr m) names) (earlier ++ [m]).
Proof.
  intros Hseen n. unfold Py.set_add.
  destruct (Py.list_contains (PyStr m) names) eqn:Em.
  - rewrite Hseen. apply bool_decide_ext. rewrite elem_of_app, list_elem_of_singleton.
    rewrite Hseen in Em. apply bool_decide_eq_true in Em.
    split; [by left | by intros [?| ->]].
  - rewrite list_contains_app, Hseen. unfold Py.list_contains. simpl.
    rewrite orb_false_r.
    destruct (String.eqb_spec n m) as [-> | Hne].
    + rewrite orb_true_r. symmetry. apply bool_decide_eq_true.
      apply elem_of_app. right. apply list_elem_of_here.
    + rewrite orb_false_r. apply bool_decide_ext.
      rewrite elem_of_app, list_elem_of_singleton. split; [by left | by intros [?|?]].
Qed.

Lemma dict_get_dumped_bools (p : string) (perms : list (string * bool)) :
  Py.dict_has p (prod_map id PyBool <$> perms) = bool_decide (p ∈ perms.*1).
Proof.
  unfold Py.dict_has, Py.dict_get. induction perms as [|[k b] perms IH]; [done|].
  rewrite !fmap_cons. cbn [find prod_map fst snd id].
  destruct (String.eqb_spec k p) as [-> | Hne]; cbn.
  - symmetry. apply bool_decide_eq_true, list_elem_of_here.
  - rewrite IH. apply bool_decide_ext. rewrite elem_of_cons.
    split; [by right | by intros [?|?]].
Qed.

Lemma known_type_spec (t : string) :
  Py.list_contains (PyStr t) field_types = known_type t.
Proof.
  unfold known_type, Py.list_contains, field_types. cbn [existsb Py.eq].
  rewrite orb_false_r.
  destruct (String.eqb_spec t "string") as [-> | H1]; [done|].
  destruct (String.eqb_spec t "number") as [-> | H2]; [done|].
  destruct (String.eqb_spec t "date") as [-> | H3]; [done|].
  destruct (String.eqb_spec t "categorical") as [-> | H4]; [done|].
  symmetry. apply bool_decide_eq_false. rewrite !elem_of_cons.
  intros [?|[?|[?|[?|?%not_elem_of_nil]]]]; done.
Qed.

Lemma known_visibility_spec (v : string) :
  Py.list_contains (PyStr v) visibilities = known_visibility v.
Proof.
  unfold known_visibility, Py.list_contains, visibilities. cbn [existsb Py.eq].
  rewrite orb_false_r.
  destruct (String.eqb_spec v "private") as [-> | H1]; [done|].
  destruct (String.eqb_spec v "collaborators") as [-> | H2]; [done|].
  destruct (String.eqb_spec v "public_index") as [-> | H3]; [done|].
  symmetry. apply bool_decide_eq_false. rewrite !elem_of_cons.
  intros [?|[?|[?|?%not_elem_of_nil]]]; done.
Qed.

Section TypedValidation.
Variable float_repr : spec_float → string.

Lemma require_perm_loop_dumped (i : nat) (r : schemas.RDMPRole) (l : list string)
    (errors : list string) :
  for_each (require_perm float_repr i (PyDict (schemas.dump_role r))
              (PyDict (stored_permissions r))) l errors
  = Ok (errors
        ++ ((λ p, "Role '" +:+ schemas.name r +:+ "' missing permission '" +:+ p +:+ "'")
              <$> filter (λ p, p ∉ (schemas.permissions r).*1) l)).
Proof.
  revert errors. induction l as [|p l IH]; intros errors.
  - by rewrite filter_nil, app_nil_r.
  - cbn [for_each]. unfold require_perm at 1. cbn [Py.contains Py.hashable bind].
    unfold stored_permissions at 1. rewrite dict_get_dumped_bools.
    destruct (decide (p ∈ (schemas.permissions r).*1)) as [Hin | Hin].
    + rewrite bool_decide_eq_true_2 by done. cbn [negb bind].
      rewrite IH. by rewrite filter_cons_False by (by intros ?).
    + rewrite bool_decide_eq_false_2 by done.
      rewrite filter_cons_True by done. rewrite fmap_cons.
      cbn [negb bind Py.get].
      change (Py.dict_get "name" (schemas.dump_role r))
        with (Some (PyStr (schemas.name r))).
      cbn [from_option id Py.str Py.texts_ok Py.text bind]. rewrite IH.
      by rewrite <- app_assoc.
Qed.

Opaque for_each.
Lemma validate_role_dumped (i : nat) (r : schemas.RDMPRole) (errors : list string)
    (names : list pyval) (earlier : list string) :
  names_seen names earlier →
  validate_role float_repr i (PyDict (schemas.dump_role r)) (errors, names)
  = Ok (errors ++ typed_role_errors earlier [r],
        Py.set_add (PyStr (schemas.name r)) names).
Proof.
  intros Hseen. unfold validate_role. cbn. rewrite <- !Hseen.
  pose proof (require_perm_loop_dumped i r required_perms) as Hloop.
  unfold stored_permissions in Hloop. unfold missing_perms.
  destruct (Py.list_contains (PyStr (schemas.name r)) names); cbn;
    rewrite Hloop; cbn; by rewrite app_nil_r, <- ?app_assoc.
Qed.
Transparent for_each.

Opaque field_types visibilities.
Lemma validate_field_dumped (i : nat) (f : schemas.RDMPField) (errors : list string)
    (keys : list pyval) (earlier : list string) :
  names_seen keys earlier →
  validate_field float_repr i (PyDict (schemas.dump_field f)) (errors, keys)
  = Ok (errors ++ typed_field_errors earlier [f],
        Py.set_add (PyStr (schemas.key f)) keys).
Proof.
  intros Hseen. unfold validate_field. cbn. rewrite <- !Hseen.
  rewrite !known_type_spec, !known_visibility_spec.
  destruct (Py.list_contains (PyStr (schemas.key f)) keys),
    (known_type (schemas.type f)),
    (known_visibility (schemas.visibility f)),
    (String.eqb (schemas.type f) "categorical");
    cbn; by rewrite <- ?app_assoc, ?app_nil_r.
Qed.
Transparent field_types visibilities.

Lemma roles_loop_dumped (roles : list schemas.RDMPRole) (i : nat)
    (errors : list string) (names : list pyval) (earlier : list string) :
  names_seen names earlier →
  fst <$> for_enumerate (validate_role float_repr) i
            (PyDict ∘ schemas.dump_role <$> roles) (errors, names)
  = Ok (errors ++ typed_role_errors earlier roles).
Proof.
  revert i errors names earlier.
  induction roles as [|r roles IH]; intros i errors names earlier Hseen.
  - cbn. by rewrite app_nil_r.
  - rewrite fmap_cons. cbn [for_enumerate compose].
    rewrite (validate_role_dumped i r errors names earlier Hseen). cbn [bind].
    rewrite (IH _ _ _ _ (names_seen_add _ _ _ Hseen)).
    cbn [typed_role_errors]. by rewrite app_nil_r, <- !app_assoc.
Qed.

Lemma fields_loop_dumped (fields : list schemas.RDMPField) (i : nat)
    (errors : list string) (keys : list pyval) (earlier : list string) :
  names_seen keys earlier →
  fst <$> for_enumerate (validate_field float_repr) i
            (PyDict ∘ schemas.dump_field <$> fields) (errors, keys)
  = Ok (errors ++ typed_field_errors earlier fields).
Proof.
  revert i errors keys earlier.
  induction fields as [|f fields IH]; intros i errors keys earlier Hseen.
  - cbn. by rewrite app_nil_r.
  - rewrite fmap_cons. cbn [for_enumerate compose].
    rewrite (validate_field_dumped i f errors keys earlier Hseen). cbn [bind].
    rewrite (IH _ _ _ _ (names_seen_add _ _ _ Hseen)).
    cbn [typed_field_errors]. by rewrite app_nil_r, <- !app_assoc.
Qed.

(** X1: for a document that came through the request schema, the validator
    returns exactly the errors [typed_errors] lists, in that order, and [ok]
    is true exactly when there are none.  No error is ever reported for a
    label, a missing key or a categorical field's [allowed_values]: the dump
    always has those keys. *)
Theorem validate_rdmp_schema_typed (j : schemas.RDMPJSON) :
  validate_rdmp_schema float_repr (schemas.model_dump j)
  = Ok (bool_decide (typed_errors j = []), typed_errors j).
Proof.
  assert (Hok : ∀ l : list string,
            bool_decide (length l = 0%nat) = bool_decide (l = [])).
  { intros l. apply bool_decide_ext, length_zero_iff_nil. }
  destruct j as [roles fields rules].
  unfold validate_rdmp_schema, typed_errors, schemas.model_dump.
  cbn [schemas.roles schemas.fields].
  change (Py.dict_has "roles" _) with true. change (Py.dict_has "fields" _) with true.
  change (Py.dict_get "roles" _) with
    (Some (PyList (PyDict ∘ schemas.dump_role <$> roles))).
  change (Py.dict_get "fields" (_ :: _)) with
    (Some (PyList (PyDict ∘ schemas.dump_field <$> fields))).
  cbn [negb app].
  destruct roles as [|r roles]; destruct fields as [|f fields].
  - done.
  - rewrite fmap_nil, fmap_cons. cbn [bind app].
    rewrite <- fmap_cons, (fields_loop_dumped _ _ _ _ _ names_seen_nil).
    cbn [bind app]. by rewrite Hok.
  - rewrite fmap_nil, fmap_cons. cbn [bind app].
    rewrite <- fmap_cons, (roles_loop_dumped _ _ _ _ _ names_seen_nil).
    cbn [bind app]. by rewrite Hok.
  - rewrite !fmap_cons. cbn [bind app].
    rewrite <- (fmap_cons _ r), (roles_loop_dumped _ _ _ _ _ names_seen_nil).
    cbn [bind app].
    rewrite <- (fmap_cons _ f), (fields_loop_dumped _ _ _ _ _ names_seen_nil).
    cbn [bind app]. by rewrite Hok.
Qed.
End TypedValidation.

Lemma filter_nil_iff {A} (P : A → Prop) `{∀ x, Decision (P x)} (l : list A) :
  filter P l = [] ↔ ∀ x, x ∈ l → ¬ P x.
Proof.
  induction l as [|x l IH].
  - split; [|done]. intros _ y Hy. by apply not_elem_of_nil in Hy.
  - destruct (decide (P x)) as [Hx | Hx].
    + rewrite filter_cons_True by done. split; [done|].
      intros Hall. exfalso. apply (Hall x); [apply list_elem_of_here | done].
    + rewrite filter_cons_False by done. rewrite IH. split.
      * intros Hall y [-> | Hy]%elem_of_cons; auto.
      * intros Hall y Hy. by apply Hall, list_elem_of_further.
Qed.

Lemma typed_role_errors_nil (earlier : list string) (roles : list schemas.RDMPRole) :
  typed_role_errors earlier roles = []
  ↔ (∀ n, n ∈ schemas.name <$> roles → n ∉ earlier)
    ∧ NoDup (schemas.name <$> roles)
    ∧ Forall (λ r, ∀ p, p ∈ required_perms → p ∈ (schemas.permissions r).*1) roles.
Proof.
  revert earlier. induction roles as [|r roles IH]; intros earlier.
  - split; [|done]. intros _. split; [|split]; [|constructor|constructor].
    intros n Hn. by apply not_elem_of_nil in Hn.
  - cbn [typed_role_errors]. rewrite !app_nil, IH, fmap_cons, NoDup_cons, Forall_cons.
    unfold missing_perms. split.
    + intros (Hdup & Hperm & Hrest & Hnd & Hall).
      assert (Hr : schemas.name r ∉ earlier).
      { intros Hin. by rewrite bool_decide_eq_true_2 in Hdup. }
      split; [|split; [split|split]]; try done.
      * intros n [-> | Hn]%elem_of_cons; [done|].
        intros Hin. apply (Hrest n Hn), elem_of_app. by left.
      * intros Hin. apply (Hrest _ Hin), elem_of_app. right. apply list_elem_of_here.
      * apply fmap_nil_inv in Hperm. intros p Hp.
        destruct (decide (p ∈ (schemas.permissions r).*1)) as [|Hno]; [done|].
        exfalso. by apply (proj1 (filter_nil_iff _ _) Hperm p Hp).
    + intros (Hnew & [Hr Hnd] & [Hperm Hall]).
      split; [|split; [|split; [|split]]]; try done.
      * rewrite bool_decide_eq_false_2; [done|]. apply Hnew, list_elem_of_here.
      * assert (filter (λ p, p ∉ (schemas.permissions r).*1) required_perms = []) as ->;
          [|done].
        apply filter_nil_iff. intros p Hp Hno. by apply Hno, Hperm.
      * intros n Hn [Hin | ->%list_elem_of_singleton]%elem_of_app; [|done].
        apply (Hnew n); [by apply list_elem_of_further | done].
Qed.

Lemma typed_field_errors_nil (earlier : list string) (fields : list schemas.RDMPField) :
  typed_field_errors earlier fields = []
  ↔ (∀ k, k ∈ schemas.key <$> fields → k ∉ earlier)
    ∧ NoDup (schemas.key <$> fields)
    ∧ Forall (λ f, known_type (schemas.type f) = true
                   ∧ known_visibility (schemas.visibility f) = true) fields.
Proof.
  revert earlier. induction fields as [|f fields IH]; intros earlier.
  - split; [|done]. intros _. split; [|split]; [|constructor|constructor].
    intros n Hn. by apply not_elem_of_nil in Hn.
  - cbn [typed_field_errors]. rewrite !app_nil, IH, fmap_cons, NoDup_cons, Forall_cons.
    split.
    + intros (Hdup & Hty & Hvis & Hrest & Hnd & Hall).
      assert (Hr : schemas.key f ∉ earlier).
      { intros Hin. by rewrite bool_decide_eq_true_2 in Hdup. }
      split; [|split; [split|split; [split|]]]; try done.
      * intros n [-> | Hn]%elem_of_cons; [done|].
        intros Hin. apply (Hrest n Hn), elem_of_app. by left.
      * intros Hin. apply (Hrest _ Hin), elem_of_app. right. apply list_elem_of_here.
      * by destruct (known_type (schemas.type f)).
      * by destruct (known_visibility (schemas.visibility f)).
    + intros (Hnew & [Hr Hnd] & [[Hty Hvis] Hall]).
      rewrite Hty, Hvis.
      split; [|split; [|split; [|split; [|split]]]]; try done.
      * rewrite bool_decide_eq_false_2; [done|]. apply Hnew, list_elem_of_here.
      * intros n Hn [Hin | ->%list_elem_of_singleton]%elem_of_app; [|done].
        apply (Hnew n); [by apply list_elem_of_further | done].
Qed.

Lemma typed_errors_nil (j : schemas.RDMPJSON) : typed_errors j = [] ↔ well_formed j.
Proof.
  unfold typed_errors, well_formed. rewrite app_nil.
  destruct (schemas.roles j) as [|r roles] eqn:Er;
    destruct (schemas.fields j) as [|f fields] eqn:Ef;
    try (split; [intros [? ?]; done | intros (? & ? & ? & ? & ?); done]).
  rewrite typed_role_errors_nil, typed_field_errors_nil. split.
  - intros ((_ & ? & ?) & (_ & ? & ?)). done.
  - intros (_ & ? & ? & _ & ? & ?).
    split; (split; [|done]); intros n _; apply not_elem_of_nil.
Qed.

(** X2: a request document is accepted exactly when it has a role and a
    field, role names and field keys are pairwise distinct, every role has
    the four permission keys, and every field has a known type and a known
    visibility.  In particular a categorical field without [allowed_values]
    is accepted. *)
Theorem request_accepted_iff (float_repr : spec_float → string) (j : schemas.RDMPJSON) :
  validate_rdmp_schema float_repr (schemas.model_dump j) = Ok (true, [])
  ↔ well_formed j.
Proof.
  rewrite validate_rdmp_schema_typed, <- typed_errors_nil. split.
  - by intros [= _ ->].
  - intros ->. done.
Qed.

Lemma request_accepted_iff_witness :
  validate_rdmp_schema no_float_repr (schemas.model_dump graded_plan) = Ok (true, []).
Proof.
  apply request_accepted_iff. unfold well_formed, graded_plan. cbn.
  split; [done|]. split; [apply NoDup_singleton|]. split.
  { apply Forall_singleton. intros p Hp. exact Hp. }
  split; [done|]. split; [apply NoDup_singleton|]. by apply Forall_singleton.
Defined.

(** ** What the validator reports on untyped bodies *)

Section ValidatorReports.
Variable float_repr : spec_float → string.

(** One pass, with each of its three outcomes. *)
Lemma pass_cases (body : nat → pyval → list string * list pyval
                         → result (list string * list pyval))
    (shaped : pyval → bool) (msg : string) (v : option pyval) (errors : list string) :
  (∀ i x s, shaped x = true → ∃ s', body i x s = Ok s' ∧ grows s s') →
  entries_shaped shaped v = true →
  ∃ errors',
    match v with
    | Some entries =>
        match entries with
        | PyList ((_ :: _) as l) => fst <$> for_enumerate body 0 l (errors, [])
        | _ => Ok (errors ++ [msg])
        end
    | None => Ok errors
    end = Ok errors'
    ∧ errors `prefix_of` errors'
    ∧ (∀ l, v = Some (PyList l) → l ≠ [] →
         ∃ s', for_enumerate body 0 l (errors, []) = Ok s' ∧ errors' = s'.1)
    ∧ (∀ w, v = Some w → not_entries w = true → errors' = errors ++ [msg]).
Proof.
  intros Hstep Hv. destruct v as [[| | | | |[|x l]|]|]; simpl in *;
    try (eexists; split; [reflexivity|]; split;
         [first [done | by apply prefix_app_r]
         |split; [intros ? [=]; congruence | by intros ? [= <-]]]).
  change (forallb shaped (x :: l) = true) in Hv. apply forallb_Forall in Hv.
  destruct (for_enumerate_grows body shaped Hstep (x :: l) 0 (errors, []) Hv)
    as (s' & E & [G _]).
  simpl in E. rewrite E. simpl. eexists. split; [done|]. split; [done|]. split.
  - intros ? [= <-] _. exists s'. split; [|done]. exact E.
  - intros ? [= <-] [=].
Qed.

(** The whole run on a body of the expected shape: the top-level errors,
    then the pass over [roles], then the pass over [fields]. *)
Lemma validate_rdmp_schema_run (body : dict) :
  body_shaped body = true →
  ∃ e1 e2,
    validate_rdmp_schema float_repr body = Ok (bool_decide (length e2 = 0%nat), e2)
    ∧ top_level_errors body `prefix_of` e1
    ∧ e1 `prefix_of` e2
    ∧ (∀ l, Py.dict_get "roles" body = Some (PyList l) → l ≠ [] →
         ∃ s', for_enumerate (validate_role float_repr) 0 l (top_level_errors body, [])
               = Ok s' ∧ e1 = s'.1)
    ∧ (∀ w, Py.dict_get "roles" body = Some w → not_entries w = true →
         e1 = top_level_errors body ++ ["'roles' must be a non-empty list"])
    ∧ (∀ l, Py.dict_get "fields" body = Some (PyList l) → l ≠ [] →
         ∃ s', for_enumerate (validate_field float_repr) 0 l (e1, []) = Ok s'
               ∧ e2 = s'.1)
    ∧ (∀ w, Py.dict_get "fields" body = Some w → not_entries w = true →
         e2 = e1 ++ ["'fields' must be a non-empty list"]).
Proof.
  intros [Hr Hf]%andb_true_iff. unfold validate_rdmp_schema.
  assert (He0 : (let errors := [] in
                 let errors := if negb (Py.dict_has "roles" body)
                               then errors ++ ["Missing 'roles' key"] else errors in
                 if negb (Py.dict_has "fields" body)
                 then errors ++ ["Missing 'fields' key"] else errors)
                = top_level_errors body).
  { unfold top_level_errors.
    by destruct (Py.dict_has "roles" body), (Py.dict_has "fields" body). }
  cbv zeta in He0 |- *. rewrite He0.
  edestruct (pass_cases (validate_role float_repr) role_shaped)
    as (e1 & -> & P1 & L1 & N1); [apply role_step_grows | exact Hr |].
  cbn [bind].
  edestruct (pass_cases (validate_field float_repr) field_shaped)
    as (e2 & -> & P2 & L2 & N2); [apply validate_field_shaped | exact Hf |].
  cbn [bind]. exists e1, e2. done.
Qed.

Lemma run_reports (body : dict) (e2 : list string) (msg : string) :
  validate_rdmp_schema float_repr body = Ok (bool_decide (length e2 = 0%nat), e2) →
  msg ∈ e2 →
  ∃ errors, validate_rdmp_schema float_repr body = Ok (false, errors) ∧ msg ∈ errors.
Proof.
  intros E Hin. exists e2. by rewrite E, (not_ok_with_error _ _ Hin).
Qed.

(** X3: on a body of the shape of [body_shaped], a body without [roles] (or
    [fields]) fails with the missing-key error, and a body whose [roles] (or
    [fields]) is anything but a list with at least one entry fails with the
    non-empty-list error. *)
Theorem validate_rdmp_schema_top_level (body : dict) :
  body_shaped body = true →
  (Py.dict_get "roles" body = None →
     ∃ errors, validate_rdmp_schema float_repr body = Ok (false, errors)
               ∧ "Missing 'roles' key" ∈ errors)
  ∧ (Py.dict_get "fields" body = None →
       ∃ errors, validate_rdmp_schema float_repr body = Ok (false, errors)
                 ∧ "Missing 'fields' key" ∈ errors)
  ∧ (∀ w, Py.dict_get "roles" body = Some w → not_entries w = true →
       ∃ errors, validate_rdmp_schema float_repr body = Ok (false, errors)
                 ∧ "'roles' must be a non-empty list" ∈ errors)
  ∧ (∀ w, Py.dict_get "fields" body = Some w → not_entries w = true →
       ∃ errors, validate_rdmp_schema float_repr body = Ok (false, errors)
                 ∧ "'fields' must be a non-empty list" ∈ errors).
Proof.
  intros Hb.
  destruct (validate_rdmp_schema_run body Hb)
    as (e1 & e2 & E & P0 & P1 & _ & N1 & _ & N2).
  split; [|split; [|split]].
  - intros Hnone. apply (run_reports body e2); [done|].
    eapply elem_of_prefix; [|exact P1]. eapply elem_of_prefix; [|exact P0].
    unfold top_level_errors, Py.dict_has. rewrite Hnone.
    apply elem_of_app. left. apply list_elem_of_here.
  - intros Hnone. apply (run_reports body e2); [done|].
    eapply elem_of_prefix; [|exact P1]. eapply elem_of_prefix; [|exact P0].
    unfold top_level_errors, Py.dict_has. rewrite Hnone.
    apply elem_of_app. right. apply list_elem_of_here.
  - intros w Hw Hne. apply (run_reports body e2); [done|].
    eapply elem_of_prefix; [|exact P1]. rewrite (N1 w Hw Hne).
    apply elem_of_app. right. apply list_elem_of_here.
  - intros w Hw Hne. apply (run_reports body e2); [done|].
    rewrite (N2 w Hw Hne). apply elem_of_app. right. apply list_elem_of_here.
Qed.

(** What one entry adds is still there at the end of the loop. *)
Lemma loop_reports {A} (body : nat → A → list string * list pyval
                               → result (list string * list pyval))
    (shaped : A → bool) (l : list A) (i : nat) (x : A) (msg : string) s0 s' :
  (∀ i x s, shaped x = true → ∃ s', body i x s = Ok s' ∧ grows s s') →
  Forall (λ x, shaped x = true) l →
  l !! i = Some x →
  (∀ s s', body i x s = Ok s' → msg ∈ s'.1) →
  for_enumerate body 0 l s0 = Ok s' →
  msg ∈ s'.1.
Proof.
  intros Hstep Hl Hi Hmsg E.
  destruct (for_enumerate_at body shaped Hstep l i x 0 s0 Hl Hi)
    as (s1 & s2 & s3 & _ & E2 & _ & [G3 _] & E3).
  rewrite E in E3. injection E3 as ->.
  eapply elem_of_prefix; [|exact G3]. by eapply Hmsg.
Qed.

(** An entry whose name was met before is reported at the end of the loop. *)
Lemma loop_duplicate {A} (body : nat → A → list string * list pyval
                                 → result (list string * list pyval))
    (shaped : A → bool) (named : A → string → Prop) (dup : string → string)
    (l : list A) (i j : nat) (xi xj : A) (n : string) s0 s' :
  (∀ i x s, shaped x = true → ∃ s', body i x s = Ok s' ∧ grows s s') →
  (∀ i x s s' n, body i x s = Ok s' → named x n →
     Py.list_contains (PyStr n) s'.2 = true
     ∧ (Py.list_contains (PyStr n) s.2 = true → dup n ∈ s'.1)) →
  Forall (λ x, shaped x = true) l →
  (i < j)%nat → l !! i = Some xi → named xi n → l !! j = Some xj → named xj n →
  for_enumerate body 0 l s0 = Ok s' →
  dup n ∈ s'.1.
Proof.
  intros Hstep Hseen Hl Hij Hi Hni Hj Hnj E.
  destruct (for_enumerate_at body shaped Hstep l i xi 0 s0 Hl Hi)
    as (s1 & s2 & s3 & _ & E2 & E3 & _ & E').
  rewrite E in E'. injection E' as ->.
  assert (Htail : Forall (λ x, shaped x = true) (drop (S i) l)) by by apply Forall_drop.
  assert (Hj' : drop (S i) l !! (j - S i)%nat = Some xj).
  { rewrite lookup_drop, <- Hj. f_equal. lia. }
  destruct (for_enumerate_at body shaped Hstep _ _ _ (S (0 + i)) s2 Htail Hj')
    as (t1 & t2 & t3 & [_ F1] & F2 & _ & [F4 _] & F).
  rewrite E3 in F. injection F as ->.
  destruct (Hseen _ _ _ _ n E2 Hni) as [Hin _].
  destruct (Hseen _ _ _ _ n F2 Hnj) as [_ Hdup].
  eapply elem_of_prefix; [|exact F4]. apply Hdup, F1, Hin.
Qed.

Lemma require_perm_loop_reports (i : nat) (d : dict) (perms : pyval) (l : list string)
    (errors errors' : list string) :
  for_each (require_perm float_repr i (PyDict d) perms) l errors = Ok errors' →
  errors `prefix_of` errors'
  ∧ ∀ perm, perm ∈ l → Py.contains (PyStr perm) perms = Ok false →
      "Role '" +:+ entry_label float_repr "name" d i
        +:+ "' missing permission '" +:+ perm +:+ "'" ∈ errors'.
Proof.
  revert errors. induction l as [|p l IH]; intros errors; cbn [for_each].
  - intros [= <-]. split; [done|]. intros perm Hin. by apply not_elem_of_nil in Hin.
  - unfold require_perm at 1.
    destruct (Py.contains (PyStr p) perms) as [[|]|] eqn:Ec; cbn; [| |done].
    + intros E. destruct (IH _ E) as [Hpre Hmsg]. split; [done|].
      intros perm [-> | Hin]%elem_of_cons; [congruence | by apply Hmsg].
    + unfold entry_label.
      destruct (str_cases float_repr (default (index i) (Py.dict_get "name" d)))
        as [-> | ->]; cbn [bind]; [|done].
      intros E. destruct (IH _ E) as [Hpre Hmsg]. split.
      * etrans; [|exact Hpre]. by apply prefix_app_r.
      * intros perm [-> | Hin]%elem_of_cons; [|by apply Hmsg].
        intros _. eapply elem_of_prefix; [|exact Hpre].
        apply elem_of_app. right. apply list_elem_of_here.
Qed.

Opaque for_each.
Lemma validate_role_reports (i : nat) (d : dict) s s' :
  validate_role float_repr i (PyDict d) s = Ok s' →
  (Py.dict_get "name" d = None → "Role " +:+ pretty i +:+ " missing 'name'" ∈ s'.1)
  ∧ (Py.dict_get "permissions" d = None →
       "Role " +:+ pretty i +:+ " missing 'permissions'" ∈ s'.1)
  ∧ (∀ perms perm,
       Py.dict_get "permissions" d = Some perms → perm ∈ required_perms →
       Py.contains (PyStr perm) perms = Ok false →
       "Role '" +:+ entry_label float_repr "name" d i
         +:+ "' missing permission '" +:+ perm +:+ "'" ∈ s'.1).
Proof.
  destruct s as [errors names]. unfold validate_role. cbn. unfold Py.dict_has.
  destruct (Py.dict_get "name" d) as [name|] eqn:En; cbn;
    [destruct (Py.set_contains name names) as [[|]|]; cbn; [| |done];
     [destruct (str_cases float_repr name) as [-> | ->]; cbn; [|done]|]|];
    (destruct (Py.dict_get "permissions" d) as [perms|] eqn:Ep; cbn;
     [ match goal with
       | |- context [for_each ?b ?l ?e] =>
           destruct (for_each b l e) as [e'|] eqn:El; cbn; [|done];
           apply require_perm_loop_reports in El as [Hpre Hmsg]
       end |]);
    intros [= <-]; cbn; (split; [|split]); try done;
    first [ intros ? perm [= <-]; apply Hmsg
          | intros _; eapply elem_of_prefix; [|exact Hpre];
            apply elem_of_app; right; apply list_elem_of_here
          | intros _; rewrite !elem_of_app, !list_elem_of_singleton; auto ].
Qed.
Transparent for_each.

Lemma validate_field_reports (i : nat) (d : dict) s s' :
  field_shaped (PyDict d) = true →
  validate_field float_repr i (PyDict d) s = Ok s' →
  (Py.dict_get "key" d = None → "Field " +:+ pretty i +:+ " missing 'key'" ∈ s'.1)
  ∧ (Py.dict_get "label" d = None → "Field " +:+ pretty i +:+ " missing 'label'" ∈ s'.1)
  ∧ (Py.dict_get "type" d = None → "Field " +:+ pretty i +:+ " missing 'type'" ∈ s'.1)
  ∧ (∀ ty, Py.dict_get "type" d = Some ty → Py.list_contains ty field_types = false →
       "Field '" +:+ entry_label float_repr "key" d i +:+ "' has invalid type: "
         +:+ Py.text float_repr ty ∈ s'.1)
  ∧ (∀ vis, Py.dict_get "visibility" d = Some vis →
       Py.list_contains vis visibilities = false →
       "Field '" +:+ entry_label float_repr "key" d i +:+ "' has invalid visibility: "
         +:+ Py.text float_repr vis ∈ s'.1).
Proof.
  destruct s as [errors keys].
  intros [[Hkey Hty]%andb_true_iff Hvis]%andb_true_iff.
  unfold validate_field, entry_label.
  cbn [Py.contains Py.hashable Py.getitem Py.get bind]. unfold Py.dict_has.
  destruct (Py.dict_get "key" d) as [key|] eqn:Ek; cbn [from_option] in Hkey;
    cbn [negb bind default id]; rewrite ?str_index, ?(str_plain _ _ Hkey);
    [destruct (Py.set_contains key keys) as [[|]|]; cbn [bind]; [| |done]| ];
    destruct (Py.dict_get "label" d) eqn:El; cbn [negb bind];
    (destruct (Py.dict_get "type" d) as [ty|] eqn:Et; cbn [from_option] in Hty;
     cbn [negb bind default id]; rewrite ?(str_plain _ _ Hty);
     [destruct (Py.list_contains ty field_types) eqn:Ety; cbn [negb bind];
      destruct (Py.eq ty (PyStr "categorical")); cbn [negb bind]|]);
    (destruct (Py.dict_get "visibility" d) as [vis|] eqn:Ev; cbn [from_option] in Hvis;
     cbn [negb bind]; rewrite ?(str_plain _ _ Hvis);
     [destruct (Py.list_contains vis visibilities) eqn:Evis; cbn [negb bind]|]);
    destruct (Py.dict_get "allowed_values" d); cbn [negb bind default id Py.eq];
    intros [= <-]; cbn [fst];
    repeat split; try done;
    intros; simplify_eq; try congruence;
    rewrite ?elem_of_app, ?list_elem_of_singleton; tauto.
Qed.

Lemma validate_field_keys (i : nat) (d : dict) s s' (k : string) :
  field_shaped (PyDict d) = true →
  validate_field float_repr i (PyDict d) s = Ok s' →
  Py.dict_get "key" d = Some (PyStr k) →
  Py.list_contains (PyStr k) s'.2 = true
  ∧ (Py.list_contains (PyStr k) s.2 = true → "Duplicate field key: " +:+ k ∈ s'.1).
Proof.
  destruct s as [errors keys].
  intros [[_ Hty]%andb_true_iff Hvis]%andb_true_iff E Hk.
  revert E. unfold validate_field.
  cbn [Py.contains Py.hashable Py.getitem Py.get bind]. unfold Py.dict_has.
  rewrite Hk. cbn [negb bind Py.set_contains Py.hashable].
  change (Py.str float_repr (PyStr k)) with (Ok (A:=string) k).
  destruct (Py.list_contains (PyStr k) keys) eqn:Edup; cbn [bind];
    destruct (Py.dict_get "label" d); cbn [negb bind];
    (destruct (Py.dict_get "type" d) as [ty|]; cbn [from_option] in Hty;
     cbn [negb bind default id]; rewrite ?(str_plain _ _ Hty);
     [destruct (Py.list_contains ty field_types); cbn [negb bind];
      destruct (Py.eq ty (PyStr "categorical")); cbn [negb bind]|]);
    (destruct (Py.dict_get "visibility" d) as [vis|]; cbn [from_option] in Hvis;
     cbn [negb bind]; rewrite ?(str_plain _ _ Hvis);
     [destruct (Py.list_contains vis visibilities); cbn [negb bind]|]);
    destruct (Py.dict_get "allowed_values" d); cbn [negb bind default id Py.eq];
    intros [= <-]; cbn [fst snd Py.text];
    (split; [apply set_add_str|]); try done;
    intros Hc; cbn [snd] in Hc; try congruence;
    rewrite ?elem_of_app, ?list_elem_of_singleton; tauto.
Qed.

Lemma field_entry_shaped (body : dict) (fields : list pyval) (i : nat) (x : pyval) :
  body_shaped body = true →
  Py.dict_get "fields" body = Some (PyList fields) →
  fields !! i = Some x →
  field_shaped x = true.
Proof.
  intros [_ Hf]%andb_true_iff Hfields Hi. rewrite Hfields in Hf. cbn in Hf.
  apply forallb_Forall in Hf. by eapply Forall_lookup_1 in Hf.
Qed.

(** What a [roles] entry, or a [fields] entry, adds is in the final errors. *)
Lemma role_entry_reports (body : dict) (roles : list pyval) (i : nat) (x : pyval)
    (msg : string) :
  body_shaped body = true →
  Py.dict_get "roles" body = Some (PyList roles) →
  roles !! i = Some x →
  (∀ s s', validate_role float_repr i x s = Ok s' → msg ∈ s'.1) →
  ∃ errors, validate_rdmp_schema float_repr body = Ok (false, errors) ∧ msg ∈ errors.
Proof.
  intros Hb Hroles Hi Hmsg. pose proof Hb as [Hr _]%andb_true_iff.
  rewrite Hroles in Hr. cbn in Hr. apply forallb_Forall in Hr.
  destruct (validate_rdmp_schema_run body Hb) as (e1 & e2 & E & _ & P1 & L1 & _).
  destruct (L1 roles Hroles) as (s' & Eloop & ->).
  { intros ->. by rewrite lookup_nil in Hi. }
  apply (run_reports body e2); [done|]. eapply elem_of_prefix; [|exact P1].
  exact (loop_reports (validate_role float_repr) role_shaped roles i x msg _ s'
           (role_step_grows float_repr) Hr Hi Hmsg Eloop).
Qed.

Lemma field_entry_reports (body : dict) (fields : list pyval) (i : nat) (x : pyval)
    (msg : string) :
  body_shaped body = true →
  Py.dict_get "fields" body = Some (PyList fields) →
  fields !! i = Some x →
  (∀ s s', validate_field float_repr i x s = Ok s' → msg ∈ s'.1) →
  ∃ errors, validate_rdmp_schema float_repr body = Ok (false, errors) ∧ msg ∈ errors.
Proof.
  intros Hb Hfields Hi Hmsg. pose proof Hb as [_ Hf]%andb_true_iff.
  rewrite Hfields in Hf. cbn in Hf. apply forallb_Forall in Hf.
  destruct (validate_rdmp_schema_run body Hb) as (e1 & e2 & E & _ & _ & _ & _ & L2 & _).
  destruct (L2 fields Hfields) as (s' & Eloop & ->).
  { intros ->. by rewrite lookup_nil in Hi. }
  apply (run_reports body s'.1); [done|].
  exact (loop_reports (validate_field float_repr) field_shaped fields i x msg _ s'
           (validate_field_shaped float_repr) Hf Hi Hmsg Eloop).
Qed.

(** X4: on a body of the shape of [body_shaped], the role at index [i] is
    reported when it has no [name], when it has no [permissions], and once
    for each of the four permission keys that its [permissions] lack; the
    last message names the role by its name, or by its index when it has
    none. *)
Theorem validate_rdmp_schema_role_rules (body : dict) (roles : list pyval) (i : nat)
    (d : dict) :
  body_shaped body = true →
  Py.dict_get "roles" body = Some (PyList roles) →
  roles !! i = Some (PyDict d) →
  (Py.dict_get "name" d = None →
     ∃ errors, validate_rdmp_schema float_repr body = Ok (false, errors)
               ∧ "Role " +:+ pretty i +:+ " missing 'name'" ∈ errors)
  ∧ (Py.dict_get "permissions" d = None →
       ∃ errors, validate_rdmp_schema float_repr body = Ok (false, errors)
                 ∧ "Role " +:+ pretty i +:+ " missing 'permissions'" ∈ errors)
  ∧ (∀ perms perm,
       Py.dict_get "permissions" d = Some perms → perm ∈ required_perms →
       Py.contains (PyStr perm) perms = Ok false →
       ∃ errors, validate_rdmp_schema float_repr body = Ok (false, errors)
                 ∧ "Role '" +:+ entry_label float_repr "name" d i
                     +:+ "' missing permission '" +:+ perm +:+ "'" ∈ errors).
Proof.
  intros Hb Hroles Hi. split; [|split].
  - intros Hn. apply (role_entry_reports body roles i (PyDict d)); try done.
    intros s s' E. by apply (validate_role_reports i d s s' E).
  - intros Hp. apply (role_entry_reports body roles i (PyDict d)); try done.
    intros s s' E. by apply (validate_role_reports i d s s' E).
  - intros perms perm Hp Hperm Hc.
    apply (role_entry_reports body roles i (PyDict d)); try done.
    intros s s' E. by eapply (validate_role_reports i d s s' E).
Qed.

(** X5: on a body of the shape of [body_shaped], the field at index [i] is
    reported when it has no [key], no [label] or no [type], when its [type]
    is none of the four known ones, and when it has a [visibility] that is
    none of the three known ones. *)
Theorem validate_rdmp_schema_field_rules (body : dict) (fields : list pyval) (i : nat)
    (d : dict) :
  body_shaped body = true →
  Py.dict_get "fields" body = Some (PyList fields) →
  fields !! i = Some (PyDict d) →
  (Py.dict_get "key" d = None →
     ∃ errors, validate_rdmp_schema float_repr body = Ok (false, errors)
               ∧ "Field " +:+ pretty i +:+ " missing 'key'" ∈ errors)
  ∧ (Py.dict_get "label" d = None →
       ∃ errors, validate_rdmp_schema float_repr body = Ok (false, errors)
                 ∧ "Field " +:+ pretty i +:+ " missing 'label'" ∈ errors)
  ∧ (Py.dict_get "type" d = None →
       ∃ errors, validate_rdmp_schema float_repr body = Ok (false, errors)
                 ∧ "Field " +:+ pretty i +:+ " missing 'type'" ∈ errors)
  ∧ (∀ ty, Py.dict_get "type" d = Some ty → Py.list_contains ty field_types = false →
       ∃ errors, validate_rdmp_schema float_repr body = Ok (false, errors)
                 ∧ "Field '" +:+ entry_label float_repr "key" d i
                     +:+ "' has invalid type: " +:+ Py.text float_repr ty ∈ errors)
  ∧ (∀ vis, Py.dict_get "visibility" d = Some vis →
       Py.list_contains vis visibilities = false →
       ∃ errors, validate_rdmp_schema float_repr body = Ok (false, errors)
                 ∧ "Field '" +:+ entry_label float_repr "key" d i
                     +:+ "' has invalid visibility: " +:+ Py.text float_repr vis
                   ∈ errors).
Proof.
  intros Hb Hfields Hi.
  pose proof (field_entry_shaped body fields i _ Hb Hfields Hi) as Hd.
  assert (Hrep : ∀ msg,
            (∀ s s', validate_field float_repr i (PyDict d) s = Ok s' → msg ∈ s'.1) →
            ∃ errors, validate_rdmp_schema float_repr body = Ok (false, errors)
                      ∧ msg ∈ errors).
  { intros msg. by apply (field_entry_reports body fields i (PyDict d)). }
  split; [|split; [|split; [|split]]].
  - intros H. apply Hrep. intros s s' E. by apply (validate_field_reports i d s s' Hd E).
  - intros H. apply Hrep. intros s s' E. by apply (validate_field_reports i d s s' Hd E).
  - intros H. apply Hrep. intros s s' E. by apply (validate_field_reports i d s s' Hd E).
  - intros ty H1 H2. apply Hrep. intros s s' E.
    by apply (validate_field_reports i d s s' Hd E).
  - intros vis H1 H2. apply Hrep. intros s s' E.
    by apply (validate_field_reports i d s s' Hd E).
Qed.

(** X6: on a body of the shape of [body_shaped], two fields with the same
    key make the validator fail and report the duplicate key. *)
Theorem validate_rdmp_schema_duplicate_key (body : dict) (fields : list pyval)
    (i j : nat) (di dj : dict) (k : string) :
  body_shaped body = true →
  Py.dict_get "fields" body = Some (PyList fields) →
  (i < j)%nat →
  fields !! i = Some (PyDict di) → Py.dict_get "key" di = Some (PyStr k) →
  fields !! j = Some (PyDict dj) → Py.dict_get "key" dj = Some (PyStr k) →
  ∃ errors, validate_rdmp_schema float_repr body = Ok (false, errors)
            ∧ "Duplicate field key: " +:+ k ∈ errors.
Proof.
  intros Hb Hfields Hij Hi Hki Hj Hkj. pose proof Hb as [_ Hf]%andb_true_iff.
  rewrite Hfields in Hf. cbn in Hf. apply forallb_Forall in Hf.
  destruct (validate_rdmp_schema_run body Hb) as (e1 & e2 & E & _ & _ & _ & _ & L2 & _).
  destruct (L2 fields Hfields) as (s' & Eloop & ->).
  { intros ->. by rewrite lookup_nil in Hi. }
  apply (run_reports body s'.1); [done|].
  refine (loop_duplicate (validate_field float_repr) field_shaped
            (λ x n, field_shaped x = true
                    ∧ ∃ d, x = PyDict d ∧ Py.dict_get "key" d = Some (PyStr n))
            (λ n, "Duplicate field key: " +:+ n)
            fields i j (PyDict di) (PyDict dj) k (e1, []) s'
            (validate_field_shaped float_repr) _ Hf Hij Hi _ Hj _ Eloop).
  - intros i0 x s0 s1 n E0 (Hx & d & -> & Hd).
    by apply (validate_field_keys i0 d s0 s1 n).
  - split; [by eapply Forall_lookup_1 in Hf | by eexists].
  - split; [by eapply Forall_lookup_1 in Hf | by eexists].
Qed.
End ValidatorReports.

Lemma validate_rdmp_schema_top_level_witness :
  (∃ errors, validate_rdmp_schema no_float_repr [("roles", PyDict [])] = Ok (false, errors)
             ∧ "Missing 'fields' key" ∈ errors)
  ∧ (∃ errors, validate_rdmp_schema no_float_repr [("roles", PyDict [])]
               = Ok (false, errors)
               ∧ "'roles' must be a non-empty list" ∈ errors).
Proof.
  destruct (validate_rdmp_schema_top_level no_float_repr [("roles", PyDict [])] eq_refl)
    as (_ & Hfields & Hroles & _).
  split; [exact (Hfields eq_refl) | exact (Hroles _ eq_refl eq_refl)].
Defined.

Lemma validate_rdmp_schema_role_rules_witness :
  (∃ errors, validate_rdmp_schema no_float_repr ragged_body = Ok (false, errors)
             ∧ "Role 2 missing 'name'" ∈ errors)
  ∧ (∃ errors, validate_rdmp_schema no_float_repr ragged_body = Ok (false, errors)
               ∧ "Role '1' missing permission 'can_edit_metadata'" ∈ errors).
Proof.
  split.
  - exact (proj1 (validate_rdmp_schema_role_rules no_float_repr ragged_body _ 2 []
                    eq_refl eq_refl eq_refl) eq_refl).
  - exact (proj2 (proj2 (validate_rdmp_schema_role_rules no_float_repr ragged_body _ 1
                           [("permissions", PyStr "can_edit_paths")]
                           eq_refl eq_refl eq_refl))
             _ "can_edit_metadata" eq_refl (list_elem_of_here _ _) eq_refl).
Defined.

Lemma validate_rdmp_schema_field_rules_witness :
  (∃ errors, validate_rdmp_schema no_float_repr ragged_body = Ok (false, errors)
             ∧ "Field 1 missing 'label'" ∈ errors)
  ∧ (∃ errors, validate_rdmp_schema no_float_repr ragged_body = Ok (false, errors)
               ∧ "Field 'None' has invalid type: 5" ∈ errors).
Proof.
  split.
  - exact (proj1 (proj2 (validate_rdmp_schema_field_rules no_float_repr ragged_body _ 1
                           [("type", PyStr "categorical")] eq_refl eq_refl eq_refl))
             eq_refl).
  - exact (proj1 (proj2 (proj2 (proj2
             (validate_rdmp_schema_field_rules no_float_repr ragged_body _ 0 _
                eq_refl eq_refl eq_refl)))) _ eq_refl eq_refl).
Defined.

Lemma validate_rdmp_schema_duplicate_key_witness :
  ∃ errors,
    validate_rdmp_schema no_float_repr repeated_key_body = Ok (false, errors)
    ∧ "Duplicate field key: age" ∈ errors.
Proof.
  exact (validate_rdmp_schema_duplicate_key no_float_repr repeated_key_body
           [PyDict (schemas.dump_field age_field); PyDict (schemas.dump_field sex_field);
            PyDict (schemas.dump_field age_field)]
           0 2 (schemas.dump_field age_field) (schemas.dump_field age_field) "age"
           eq_refl eq_refl (Nat.lt_0_2) eq_refl eq_refl eq_refl eq_refl).
Defined.

(** ** More on completeness *)

(** The check's result, field by field. *)
Lemma check_sample_completeness_eq (sample : Sample) (rdmp : RDMPVersion)
    (body : dict) (fs : list pyval) (decls : list (string * bool)) :
  rdmp_json rdmp = PyDict body →
  Py.dict_get "fields" body = Some (PyList fs) →
  Forall2 declares fs decls →
  check_sample_completeness sample rdmp
  = Ok {| is_complete := bool_decide (length (spec_missing_fields decls sample) = 0%nat);
          missing_fields := spec_missing_fields decls sample;
          total_required := spec_total_required decls;
          total_filled := spec_total_filled sample |}.
Proof.
  intros Hjson Hfields Hdecl. unfold check_sample_completeness.
  rewrite Hjson. simpl. rewrite Hfields. simpl.
  destruct (required_comprehension fs decls Hdecl) as (rf & -> & Hrf). simpl.
  rewrite (missing_comprehension _ rf _ Hrf). simpl.
  assert (Hm : PyStr ∘ fst <$> filter (λ d, d.1 ∉ (list_to_set (field_key <$> field_values sample) : gset string))
                 (filter (λ d, d.2 = true) decls)
               = spec_missing_fields decls sample).
  { unfold spec_missing_fields. rewrite list_filter_filter. f_equal.
    apply list_filter_iff. intros [k r]. simpl. unfold filled_keys.
    rewrite elem_of_list_to_set. tauto. }
  rewrite Hm. f_equal. f_equal.
  - by apply Forall2_length in Hrf.
  - apply size_key_set.
Qed.

Lemma ok_iff_no_errors_gen {A} (l : list A) :
  bool_decide (length l = 0%nat) = true ↔ l = [].
Proof. rewrite bool_decide_eq_true. apply length_zero_iff_nil. Qed.

Lemma length_filter_and {A} (P Q : A → Prop) `{∀ x, Decision (P x)}
    `{∀ x, Decision (Q x)} (l : list A) :
  (length (filter (λ x, P x ∧ Q x) l) ≤ length (filter P l))%nat.
Proof.
  induction l as [|x l IH]; [done|].
  destruct (decide (P x)) as [HP | HP].
  - rewrite (filter_cons_True P) by done. destruct (decide (Q x)).
    + rewrite filter_cons_True by done. cbn. lia.
    + rewrite filter_cons_False by tauto. cbn. lia.
  - rewrite (filter_cons_False P) by done. by rewrite filter_cons_False by tauto.
Qed.

Lemma elem_of_spec_missing (decls : list (string * bool)) (sample : Sample) (v : pyval) :
  v ∈ spec_missing_fields decls sample
  ↔ ∃ k, v = PyStr k ∧ (k, true) ∈ decls ∧ k ∉ filled_keys sample.
Proof.
  unfold spec_missing_fields. rewrite list_elem_of_fmap. split.
  - intros ([k r] & -> & [[Hr Hk] Hin]%list_elem_of_filter). simpl in *. subst r.
    by exists k.
  - intros (k & -> & Hin & Hk). exists (k, true). split; [done|].
    by apply list_elem_of_filter.
Qed.

(** X7: the sample is complete exactly when every key the RDMP declares
    required has a FieldValue on the sample; the missing fields are exactly
    the required keys without one. *)
Theorem check_sample_completeness_meaning (sample : Sample) (rdmp : RDMPVersion)
    (body : dict) (fs : list pyval) (decls : list (string * bool)) :
  rdmp_json rdmp = PyDict body →
  Py.dict_get "fields" body = Some (PyList fs) →
  Forall2 declares fs decls →
  ∃ c, check_sample_completeness sample rdmp = Ok c
       ∧ (is_complete c = true
          ↔ ∀ k, (k, true) ∈ decls → k ∈ filled_keys sample)
       ∧ (∀ v, v ∈ missing_fields c
               ↔ ∃ k, v = PyStr k ∧ (k, true) ∈ decls ∧ k ∉ filled_keys sample)
       ∧ (length (missing_fields c) ≤ total_required c)%nat.
Proof.
  intros Hjson Hfields Hdecl.
  rewrite (check_sample_completeness_eq sample rdmp body fs decls Hjson Hfields Hdecl).
  eexists. split; [reflexivity|]. cbn. split; [|split].
  - rewrite ok_iff_no_errors_gen. split.
    + intros Hnil k Hin. destruct (decide (k ∈ filled_keys sample)) as [|Hno]; [done|].
      assert (PyStr k ∈ spec_missing_fields decls sample) as Hm
        by (apply elem_of_spec_missing; by exists k).
      rewrite Hnil in Hm. by apply not_elem_of_nil in Hm.
    + intros Hall. destruct (spec_missing_fields decls sample) as [|v l] eqn:E; [done|].
      assert (v ∈ spec_missing_fields decls sample) as Hm
        by (rewrite E; apply list_elem_of_here).
      apply elem_of_spec_missing in Hm as (k & _ & Hin & Hno). by apply Hall in Hin.
  - apply elem_of_spec_missing.
  - unfold spec_missing_fields, spec_total_required. rewrite length_fmap.
    apply (length_filter_and (λ d, d.2 = true) (λ d, d.1 ∉ filled_keys sample)).
Qed.

Lemma check_sample_completeness_meaning_witness :
  ∃ c, check_sample_completeness (sample_with ["age"]) (version_of 1 1 study_plan) = Ok c
       ∧ is_complete c = false
       ∧ (PyStr "sex" ∈ missing_fields c)
       ∧ (length (missing_fields c) ≤ total_required c)%nat.
Proof.
  destruct (check_sample_completeness_meaning (sample_with ["age"])
              (version_of 1 1 study_plan) (schemas.model_dump study_plan) _
              (declared_fields study_plan) eq_refl eq_refl (model_dump_declares study_plan))
    as (c & E & Hc & Hm & Hl).
  exists c. split; [exact E|]. split; [|split; [|exact Hl]].
  - injection E as <-. reflexivity.
  - apply Hm. exists "sex". split; [done|]. split.
    + apply list_elem_of_further, list_elem_of_here.
    + intros [=]%list_elem_of_singleton.
Defined.

Lemma total_filled_add (fv : FieldValue) (sample : Sample) :
  spec_total_filled (with_field_value fv sample)
  = if bool_decide (field_key fv ∈ filled_keys sample)
    then spec_total_filled sample else S (spec_total_filled sample).
Proof.
  unfold spec_total_filled, filled_keys. cbn [field_values with_field_value].
  rewrite fmap_app, <- !size_key_set, list_to_set_app_L.
  change (field_key <$> [fv]) with [field_key fv].
  rewrite list_to_set_singleton.
  pose proof (elem_of_list_to_set (C:=gset string) (field_key fv)
                (field_key <$> field_values sample)) as Hks.
  destruct (decide (field_key fv ∈ field_key <$> field_values sample)) as [Hin | Hin].
  - rewrite bool_decide_eq_true_2 by done. f_equal.
    apply Hks in Hin. apply set_eq. intros k.
    rewrite elem_of_union, elem_of_singleton. split; [|by left].
    by intros [? | ->].
  - rewrite bool_decide_eq_false_2 by done.
    rewrite size_union.
    + rewrite size_singleton. lia.
    + intros k Hk ->%elem_of_singleton. by apply Hin, Hks.
Qed.

(** X8: giving the sample one more FieldValue never makes it less complete:
    the required count is unchanged, the missing fields lose exactly the key
    just filled, a complete sample stays complete, and [total_filled] grows
    by one exactly when the key is new to the sample. *)
Theorem check_sample_completeness_add (fv : FieldValue) (sample : Sample)
    (rdmp : RDMPVersion) (body : dict) (fs : list pyval) (decls : list (string * bool)) :
  rdmp_json rdmp = PyDict body →
  Py.dict_get "fields" body = Some (PyList fs) →
  Forall2 declares fs decls →
  ∃ c c', check_sample_completeness sample rdmp = Ok c
          ∧ check_sample_completeness (with_field_value fv sample) rdmp = Ok c'
          ∧ total_required c' = total_required c
          ∧ (∀ v, v ∈ missing_fields c'
                  ↔ v ∈ missing_fields c ∧ v ≠ PyStr (field_key fv))
          ∧ (is_complete c = true → is_complete c' = true)
          ∧ total_filled c'
            = (if bool_decide (field_key fv ∈ filled_keys sample)
               then total_filled c else S (total_filled c)).
Proof.
  intros Hjson Hfields Hdecl.
  rewrite !(check_sample_completeness_eq _ rdmp body fs decls Hjson Hfields Hdecl).
  eexists _, _. split; [reflexivity|]. split; [reflexivity|]. cbn.
  assert (Hmem : ∀ v, v ∈ spec_missing_fields decls (with_field_value fv sample)
                      ↔ v ∈ spec_missing_fields decls sample ∧ v ≠ PyStr (field_key fv)).
  { intros v. rewrite !elem_of_spec_missing. unfold filled_keys.
    cbn [field_values with_field_value]. rewrite fmap_app. cbn [fmap list_fmap]. split.
    - intros (k & -> & Hin & Hno). rewrite elem_of_app, list_elem_of_singleton in Hno.
      split; [exists k; tauto|]. intros [= ->]. tauto.
    - intros [(k & -> & Hin & Hno) Hne]. exists k. split; [done|]. split; [done|].
      rewrite elem_of_app, list_elem_of_singleton. intros [?| ->]; [done|]. by apply Hne. }
  split; [done|]. split; [exact Hmem|]. split; [|apply total_filled_add].
  rewrite !ok_iff_no_errors_gen. intros Hnil.
  destruct (spec_missing_fields decls (with_field_value fv sample)) as [|v l] eqn:E; [done|].
  destruct (proj1 (Hmem v) (list_elem_of_here _ _)) as [Hv _].
  rewrite Hnil in Hv. by apply not_elem_of_nil in Hv.
Qed.

Lemma check_sample_completeness_add_witness :
  ∃ c c',
    check_sample_completeness (sample_with ["age"]) (version_of 1 1 study_plan) = Ok c
    ∧ check_sample_completeness
        (with_field_value {| field_key := "sex"; value_json := PyStr "f" |}
           (sample_with ["age"])) (version_of 1 1 study_plan) = Ok c'
    ∧ is_complete c = false ∧ is_complete c' = true
    ∧ total_filled c' = S (total_filled c).
Proof.
  destruct (check_sample_completeness_add {| field_key := "sex"; value_json := PyStr "f" |}
              (sample_with ["age"]) (version_of 1 1 study_plan)
              (schemas.model_dump study_plan) _ (declared_fields study_plan)
              eq_refl eq_refl (model_dump_declares study_plan))
    as (c & c' & E & E' & _ & _ & _ & Hf).
  exists c, c'. split; [exact E|]. split; [exact E'|].
  injection E as <-. injection E' as <-. split; [reflexivity|]. split; [reflexivity|].
  exact Hf.
Defined.

(** The first comprehension keeps the entries with a true [required]. *)
Lemma required_fields_filter (fs : list pyval) :
  Forall (λ f, is_dict f = true) fs →
  comprehension (λ f, Py.truthy <$> Py.get f "required" (PyBool false)) Ok fs
  = Ok (filter (λ f, requires f = true) fs).
Proof.
  induction 1 as [|f fs Hf _ IH]; [done|].
  destruct f as [| | | | | |d]; try done. cbn [comprehension Py.get fmap result_fmap bind].
  rewrite IH. cbn [bind].
  destruct (Py.truthy (from_option id (PyBool false) (Py.dict_get "required" d))) eqn:E.
  - by rewrite filter_cons_True.
  - rewrite filter_cons_False; [done|]. cbn [requires]. by rewrite E.
Qed.

Lemma in_key_set_hashable (k : pyval) (keys : gset string) :
  Py.hashable k = true → ∃ b, in_key_set k keys = Ok b.
Proof. intros H. unfold in_key_set. rewrite H. eauto. Qed.

(** The second comprehension returns when every entry has a hashable key. *)
Lemma missing_fields_keyed (keys : gset string) (rf : list pyval) :
  Forall (λ f, keyed f = true) rf →
  ∃ missing,
    comprehension
      (λ f, let! k := Py.getitem f "key" in negb <$> in_key_set k keys)
      (λ f, Py.getitem f "key") rf
    = Ok missing.
Proof.
  induction 1 as [|f rf Hf _ (missing & IH)]; [by exists []|].
  destruct f as [| | | | | |d]; try done. cbn [keyed] in Hf. simpl.
  destruct (Py.dict_get "key" d) as [k|]; [|done].
  cbn [from_option] in Hf. simpl.
  destruct (in_key_set_hashable k keys Hf) as (b & ->). simpl. rewrite IH.
  destruct b; simpl; eauto.
Qed.

(** The second comprehension stops with [KeyError] at the first entry
    without [key]. *)
Lemma missing_fields_key_error (keys : gset string) (rf : list pyval) :
  Forall (λ f, hashable_key f = true) rf →
  Exists (λ f, lacks_key f = true) rf →
  comprehension
    (λ f, let! k := Py.getitem f "key" in negb <$> in_key_set k keys)
    (λ f, Py.getitem f "key") rf
  = Raise KeyError.
Proof.
  induction 1 as [|f rf Hf _ IH]; intros Hex; [by apply Exists_nil in Hex|].
  destruct f as [| | | | | |d]; try done. cbn [hashable_key] in Hf.
  simpl. destruct (Py.dict_get "key" d) as [k|] eqn:Ek; [|done].
  cbn [from_option] in Hf. simpl.
  destruct (in_key_set_hashable k keys Hf) as (b & ->). simpl.
  apply Exists_cons in Hex as [Hex | Hex].
  { cbn [lacks_key] in Hex. unfold Py.dict_has in Hex. by rewrite Ek in Hex. }
  rewrite (IH Hex). by destruct b.
Qed.

(** X9: when the stored document has no [fields] key, or none of its fields
    has a true [required], every sample is complete: nothing is missing and
    nothing is required, and the optional fields are not asked for their
    [key]. *)
Theorem check_sample_completeness_nothing_required (sample : Sample)
    (rdmp : RDMPVersion) (body : dict) (fs : list pyval) :
  rdmp_json rdmp = PyDict body →
  from_option id (PyList []) (Py.dict_get "fields" body) = PyList fs →
  Forall (λ f, is_dict f = true ∧ requires f = false) fs →
  check_sample_completeness sample rdmp
  = Ok {| is_complete := true; missing_fields := []; total_required := 0;
          total_filled := spec_total_filled sample |}.
Proof.
  intros Hjson Hfields Hfs. unfold check_sample_completeness.
  rewrite Hjson. cbn [Py.get bind]. rewrite Hfields. cbn [py_iter bind].
  rewrite required_fields_filter by (eapply Forall_impl; [exact Hfs|]; by intros ? []).
  assert (filter (λ f, requires f = true) fs = []) as ->.
  { apply filter_nil_iff. intros f Hin. eapply Forall_forall in Hfs as [_ Hf]; [|exact Hin].
    by rewrite Hf. }
  cbn [bind comprehension length]. by rewrite size_key_set.
Qed.

Lemma check_sample_completeness_nothing_required_witness :
  check_sample_completeness (sample_with ["note"]) (stored 1 1 optional_body)
  = Ok {| is_complete := true; missing_fields := []; total_required := 0;
          total_filled := 1 |}.
Proof.
  apply (check_sample_completeness_nothing_required (sample_with ["note"])
           (stored 1 1 optional_body) optional_body _ eq_refl eq_refl).
  repeat constructor.
Defined.

(** X10: when the fields of the stored document are mappings whose keys can
    be hashed, and one of them has a true [required] and no [key], the check
    raises [KeyError] for every sample. *)
Theorem check_sample_completeness_key_error (sample : Sample) (rdmp : RDMPVersion)
    (body : dict) (fs : list pyval) :
  rdmp_json rdmp = PyDict body →
  Py.dict_get "fields" body = Some (PyList fs) →
  Forall (λ f, hashable_key f = true) fs →
  Exists (λ f, requires f = true ∧ lacks_key f = true) fs →
  check_sample_completeness sample rdmp = Raise KeyError.
Proof.
  intros Hjson Hfields Hfs Hex. unfold check_sample_completeness.
  rewrite Hjson. cbn [Py.get bind]. rewrite Hfields. cbn [from_option id py_iter bind].
  rewrite required_fields_filter
    by (eapply Forall_impl; [exact Hfs|]; by intros [| | | | | |?]).
  cbn [bind]. rewrite missing_fields_key_error; [done| |].
  - apply Forall_forall. intros f [_ Hf]%list_elem_of_filter.
    by eapply Forall_forall in Hfs.
  - apply Exists_exists in Hex as (f & Hin & Hr & Hk). apply Exists_exists.
    exists f. split; [|done]. by apply list_elem_of_filter.
Qed.

Lemma check_sample_completeness_key_error_witness :
  check_sample_completeness (sample_with ["age"; "sex"]) (stored 1 1 unkeyed_body)
  = Raise KeyError.
Proof.
  apply (check_sample_completeness_key_error (sample_with ["age"; "sex"])
           (stored 1 1 unkeyed_body) unkeyed_body _ eq_refl eq_refl).
  - repeat constructor.
  - apply Exists_cons_tl, Exists_cons_hd. by split.
Defined.

(** Each text an f-string asks for is written or ends the run. *)
Ltac str_split float_repr :=
  repeat (rewrite ?str_index; cbn [bind];
          match goal with
          | |- context [Py.str float_repr ?v] =>
              let H := fresh "Hs" in
              destruct (str_cases float_repr v) as [H | H]; rewrite H; cbn [bind];
              [|done]
          end).

Section ValidatedCompleteness.
Variable float_repr : spec_float → string.

Lemma app_eq_self {A} (l k : list A) : l ++ k = l → k = [].
Proof. intros H. apply (app_inv_head l). by rewrite app_nil_r. Qed.

(** One step of the loop over [fields] that returns was run on a mapping;
    it keeps the errors it was given, and adds none only when the mapping
    has a [key] that can be hashed. *)
Lemma validate_field_returns (i : nat) (f : pyval) (errors : list string)
    (keys : list pyval) s' :
  validate_field float_repr i f (errors, keys) = Ok s' →
  errors `prefix_of` s'.1 ∧ (s'.1 = errors → keyed f = true).
Proof.
  destruct f as [| | | | s|l|d]; try done.
  - unfold validate_field. cbn [Py.contains Py.getitem Py.get bind].
    destruct (Py.is_substring "key" s); cbn [negb bind]; [done|].
    destruct (Py.is_substring "label" s); cbn [negb bind];
      (destruct (Py.is_substring "type" s); cbn [negb bind]; [done|]);
      (destruct (Py.is_substring "visibility" s); cbn [negb bind]; done).
  - unfold validate_field. cbn [Py.contains Py.getitem Py.get bind].
    destruct (Py.list_contains (PyStr "key") l); cbn [negb bind]; [done|].
    destruct (Py.list_contains (PyStr "label") l); cbn [negb bind];
      (destruct (Py.list_contains (PyStr "type") l); cbn [negb bind]; [done|]);
      (destruct (Py.list_contains (PyStr "visibility") l); cbn [negb bind]; done).
  - unfold validate_field, keyed.
    cbn [Py.contains Py.hashable Py.getitem Py.get bind]. unfold Py.dict_has.
    destruct (Py.dict_get "key" d) as [k|]; cbn [negb bind from_option id];
      [unfold Py.set_contains; destruct (Py.hashable k); cbn [bind]; [|done];
       destruct (Py.list_contains k keys); cbn [bind]|];
      destruct (Py.dict_get "label" d); cbn [negb bind];
      (destruct (Py.dict_get "type" d) as [ty|]; cbn [negb bind default id];
       [destruct (Py.list_contains ty field_types); cbn [negb bind];
        destruct (Py.eq ty (PyStr "categorical")); cbn [negb bind]|]);
      (destruct (Py.dict_get "visibility" d) as [vis|]; cbn [negb bind];
       [destruct (Py.list_contains vis visibilities); cbn [negb bind]|]);
      destruct (Py.dict_get "allowed_values" d); cbn [negb bind default id Py.eq];
      str_split float_repr;
      intros [= <-]; cbn [fst snd];
      (split;
       [rewrite <- ?app_assoc; first [done | by apply prefix_app_r]
       |try done; rewrite <- ?app_assoc; by intros ?%app_eq_self]).
Qed.

(** A loop over [fields] that returns with the errors it started from has
    met only mappings with a hashable [key]. *)
Lemma fields_loop_returns (l : list pyval) (i : nat) (errors : list string)
    (keys : list pyval) s' :
  for_enumerate (validate_field float_repr) i l (errors, keys) = Ok s' →
  errors `prefix_of` s'.1 ∧ (s'.1 = errors → Forall (λ f, keyed f = true) l).
Proof.
  revert i errors keys. induction l as [|f l IH]; intros i errors keys.
  - intros [= <-]. done.
  - cbn [for_enumerate].
    destruct (validate_field float_repr i f (errors, keys)) as [[e1 k1]|] eqn:E1; [|done].
    cbn [bind]. intros E2.
    apply validate_field_returns in E1 as [P1 K1]. apply IH in E2 as [P2 K2].
    cbn [fst] in *. split; [by etrans|]. intros Heq. subst.
    assert (e1 = s'.1) as He1.
    { apply (anti_symm prefix); [done|]. done. }
    constructor; [by apply K1 | by apply K2].
Qed.

(** X11: a document that [validate_rdmp_schema] accepts never makes
    [check_sample_completeness] raise: stored as the body of an RDMP
    version, it gives a result for every sample. *)
Theorem validated_completeness_returns (body : dict) (errors : list string)
    (sample : Sample) (rdmp : RDMPVersion) :
  validate_rdmp_schema float_repr body = Ok (true, errors) →
  rdmp_json rdmp = PyDict body →
  ∃ c, check_sample_completeness sample rdmp = Ok c.
Proof.
  intros Hv Hjson.
  assert (Hfs : ∃ fs, from_option id (PyList []) (Py.dict_get "fields" body) = PyList fs
                      ∧ Forall (λ f, keyed f = true) fs).
  { revert Hv. unfold validate_rdmp_schema. cbv zeta.
    match goal with
    | |- bind ?m _ = _ → _ => destruct m as [e1|]; [|done]
    end.
    cbn [bind].
    destruct (Py.dict_get "fields" body) as [fields|]; [|by exists []].
    assert (Hne : ∀ msg : string,
              Ok (bool_decide (length (e1 ++ [msg]) = 0%nat), e1 ++ [msg])
              = Ok (true, errors) → False).
    { intros msg [= Hb _]. apply bool_decide_eq_true in Hb.
      rewrite length_app in Hb. simpl in Hb. lia. }
    destruct fields as [| | | | |[|x l]|];
      cbn [bind from_option id]; try (intros ?%Hne; done).
    destruct (for_enumerate (validate_field float_repr) 0 (x :: l) (e1, []))
      as [s'|] eqn:E; [|done].
    cbn [fmap result_fmap bind]. intros [= Hb _].
    apply bool_decide_eq_true, length_zero_iff_nil in Hb.
    apply fields_loop_returns in E as [P K]. rewrite Hb in P, K.
    apply prefix_nil_inv in P. subst e1. exists (x :: l). split; [done|]. by apply K. }
  destruct Hfs as (fs & Hfields & Hkeyed).
  unfold check_sample_completeness. rewrite Hjson. cbn [Py.get bind].
  rewrite Hfields. cbn [py_iter bind].
  rewrite required_fields_filter
    by (eapply Forall_impl; [exact Hkeyed|]; by intros [| | | | | |?]).
  cbn [bind].
  destruct (missing_fields_keyed
              (list_to_set (field_key <$> field_values sample))
              (filter (λ f, requires f = true) fs)) as (missing & ->).
  { apply Forall_forall. intros f [_ Hf]%list_elem_of_filter.
    by eapply Forall_forall in Hkeyed. }
  cbn [bind]. eauto.
Qed.
End ValidatedCompleteness.

Lemma validated_completeness_returns_witness :
  ∃ c, check_sample_completeness (sample_with ["age"]) (version_of 1 1 study_plan) = Ok c.
Proof.
  apply (validated_completeness_returns no_float_repr (schemas.model_dump study_plan) []
           (sample_with ["age"]) (version_of 1 1 study_plan)); reflexivity.
Defined.

(** ** More on field values *)

Lemma list_contains_strs (value : pyval) (l : list string) :
  Py.list_contains value (PyStr <$> l)
  = if value is PyStr s then bool_decide (s ∈ l) else false.
Proof.
  unfold Py.list_contains. induction l as [|s l IH].
  - by destruct value.
  - rewrite fmap_cons. cbn [existsb]. rewrite IH.
    destruct (Py.eq value (PyStr s)) eqn:Es; cbn [orb].
    + apply eq_str_r in Es as ->. symmetry. apply bool_decide_eq_true.
      apply list_elem_of_here.
    + destruct value as [| | | |t| |]; try done.
      apply bool_decide_ext. rewrite elem_of_cons. simpl in Es.
      apply String.eqb_neq in Es. split; [by right | by intros [?|?]].
Qed.

(** X12: on a field as the request schema dumps it, the validator raises in
    two cases only: [OverflowError] when the type is number and the value is
    an [int] beyond the range of a float, and [TypeError] when the type is
    categorical and [allowed_values] was left out of the request (dumped as
    [None]), then for every value.  In every other case it returns its
    pair. *)
Theorem validate_field_value_raises_iff (f : schemas.RDMPField) (value : pyval)
    (e : exn) :
  validate_field_value (schemas.dump_field f) value = Raise e
  ↔ (schemas.type f = "number" ∧ e = OverflowError
     ∧ ∃ z, value = PyInt z ∧ Py.int_fits_float z = false)
    ∨ (schemas.type f = "categorical" ∧ e = TypeError
       ∧ schemas.allowed_values f = None).
Proof.
  unfold validate_field_value. cbn [schemas.dump_field Py.dict_get find fst snd
    String.eqb Ascii.eqb Bool.eqb fmap option_fmap option_map from_option id Py.eq].
  destruct (String.eqb_spec (schemas.type f) "number") as [Hn | Hn].
  { rewrite Hn. unfold Py.float. split.
    - destruct value as [| |z| |s| |]; try done.
      + destruct (Py.int_fits_float z) eqn:Ez; [done|]. intros [= <-]. left. eauto.
      + by destruct (Py.float_literal s).
    - intros [(_ & -> & z & -> & ->) | ([=] & _)]. done. }
  destruct (String.eqb_spec (schemas.type f) "categorical") as [Hc | Hc].
  { destruct (schemas.allowed_values f) as [l|] eqn:El.
    - cbn [Py.contains bind]. rewrite (str_join_strs ", " l).
      split; [by destruct (Py.list_contains value (PyStr <$> l))|].
      intros [(Hn' & _) | (_ & _ & [=])]. by rewrite Hc in Hn'.
    - cbn [Py.contains bind]. split; [intros [= <-]; by right|].
      by intros [(Hn' & _) | (_ & -> & _)]. }
  destruct (String.eqb_spec (schemas.type f) "date") as [Hd | Hd].
  { split; [by destruct (Py.isinstance_str value)|]. by intros [(? & _) | (? & _)]. }
  split; [done|]. by intros [(? & _) | (? & _)].
Qed.

(** X13: a categorical field whose [allowed_values] is a list of strings
    (no list at all counts as the empty list) accepts exactly the strings of
    that list, compared as whole strings; every other value, of whatever
    type, is refused with the allowed values listed in their order. *)
Theorem validate_field_value_categorical (field_config : dict) (l : list string)
    (value : pyval) :
  Py.dict_get "type" field_config = Some (PyStr "categorical") →
  from_option id (PyList []) (Py.dict_get "allowed_values" field_config)
  = PyList (PyStr <$> l) →
  validate_field_value field_config value
  = if (if value is PyStr s then bool_decide (s ∈ l) else false)
    then Ok (true, None)
    else Ok (false, Some ("Value must be one of: " +:+ Py.join ", " l)).
Proof.
  intros Ht Ha. unfold validate_field_value. rewrite Ht, Ha.
  cbn [from_option id Py.eq String.eqb Ascii.eqb Bool.eqb Py.contains bind].
  rewrite list_contains_strs, (str_join_strs ", " l).
  by destruct (if value is PyStr s then _ else _).
Qed.

Lemma validate_field_value_categorical_witness :
  validate_field_value listed_categorical (PyStr "B") = Ok (true, None)
  ∧ validate_field_value listed_categorical (PyStr "b")
    = Ok (false, Some "Value must be one of: A, B")
  ∧ validate_field_value listed_categorical (PyList [PyStr "A"])
    = Ok (false, Some "Value must be one of: A, B")
  ∧ validate_field_value bare_categorical (PyStr "A")
    = Ok (false, Some "Value must be one of: ").
Proof.
  split; [|split; [|split]].
  - exact (validate_field_value_categorical listed_categorical ["A"; "B"] (PyStr "B")
             eq_refl eq_refl).
  - exact (validate_field_value_categorical listed_categorical ["A"; "B"] (PyStr "b")
             eq_refl eq_refl).
  - exact (validate_field_value_categorical listed_categorical ["A"; "B"]
             (PyList [PyStr "A"]) eq_refl eq_refl).
  - exact (validate_field_value_categorical bare_categorical [] (PyStr "A")
             eq_refl eq_refl).
Defined.
